(** * GT-511C fingerprint sensor driver: a shallow embedding of
      [fingerprint_gt511.c] and the properties of its protocol engine.

    The driver talks to the sensor through five functions that the
    application implements ([GT511_SendMessage], [GT511_ReceiveMessage],
    [GT511_UserCallback], [GT511_SetTimeout], [GT511_CheckTimeout]).  They
    are modelled as an environment [Env] acting on an abstract world; the
    driver itself is a state-passing program over that world, its static
    packet buffer [mempool] and a chronological log of every call it makes
    to the environment.

    Integer types: [uint8_t], [uint16_t] and [uint32_t] are [Z] with the
    wrap-around written out.  [GT511_Error_t] is the raw 32-bit code (an
    [int]-sized enum), so the cast [(GT511_Error_t)pResp->parameter] keeps
    the value.  Structures are laid out with natural alignment and
    little-endian fields, as on the Cortex-M targets of the driver. *)

From Stdlib Require Import ZArith List Bool Lia.
From Stdlib.Strings Require Import Byte.
From Stdlib.Strings Require String.
Import String.StringSyntax.
Delimit Scope string_scope with string.
Import ListNotations.
Local Open Scope Z_scope.

(* ------------------------------------------------------------------ *)
(** ** Machine integers and bytes *)

Definition uint16 (z : Z) : Z := z mod 65536.
Definition uint32 (z : Z) : Z := z mod 4294967296.

Definition byte_val (b : byte) : Z := Z.of_N (Byte.to_N b).

Definition byte_of (z : Z) : byte :=
  match Byte.of_N (Z.to_N (z mod 256)) with
  | Some b => b
  | None => x00
  end.

(* ------------------------------------------------------------------ *)
(** ** Byte-addressed memory

    A buffer is a map from byte offset to byte.  The driver only ever
    touches offsets below [sizeof_mempool]. *)

Definition mem := nat -> byte.

Definition load8 (m : mem) (off : nat) : Z := byte_val (m off).
Definition load16 (m : mem) (off : nat) : Z :=
  load8 m off + 256 * load8 m (off + 1).
Definition load32 (m : mem) (off : nat) : Z :=
  load16 m off + 65536 * load16 m (off + 2).

Definition store8 (m : mem) (off : nat) (v : Z) : mem :=
  fun i => if Nat.eqb i off then byte_of v else m i.
Definition store16 (m : mem) (off : nat) (v : Z) : mem :=
  store8 (store8 m off v) (off + 1) (v / 256).
Definition store32 (m : mem) (off : nat) (v : Z) : mem :=
  store16 (store16 m off v) (off + 2) (v / 65536).

Definition load_bytes (m : mem) (off len : nat) : list byte :=
  map m (seq off len).

Fixpoint store_bytes (m : mem) (off : nat) (l : list byte) : mem :=
  match l with
  | [] => m
  | b :: rest =>
      store_bytes (fun i => if Nat.eqb i off then b else m i) (S off) rest
  end.

Definition zero_mem : mem := fun _ => x00.

(* ------------------------------------------------------------------ *)
(** ** Protocol constants *)

Definition GT511_NUM_SLOTS : Z := 20.

(** [GT511_Command_t] *)
Definition GT511_CMD_OPEN : Z := 0x01.
Definition GT511_CMD_CLOSE : Z := 0x02.
Definition GT511_CMD_CMOS_LED : Z := 0x12.
Definition GT511_CMD_GET_ENROLL_COUNT : Z := 0x20.
Definition GT511_CMD_CHECK_ENROLLED : Z := 0x21.
Definition GT511_CMD_ENROLL_START : Z := 0x22.
Definition GT511_CMD_ENROLL1 : Z := 0x23.
Definition GT511_CMD_ENROLL2 : Z := 0x24.
Definition GT511_CMD_ENROLL3 : Z := 0x25.
Definition GT511_CMD_IS_PRESS_FINGER : Z := 0x26.
Definition GT511_CMD_DELETE_ID : Z := 0x40.
Definition GT511_CMD_DELETE_ALL : Z := 0x41.
Definition GT511_CMD_VERIFY : Z := 0x50.
Definition GT511_CMD_IDENTIFY : Z := 0x51.
Definition GT511_CMD_CAPTURE_FINGER : Z := 0x60.

(** [GT511_Response_t] *)
Definition GT511_RESP_ACK : Z := 0x30.
Definition GT511_RESP_NACK : Z := 0x31.

(** [GT511_Error_t]: the raw code. *)
Definition GT511_Error_t := Z.
Definition GT511_ERR_NONE : GT511_Error_t := 0.
Definition GT511_ERR_TIMEOUT : GT511_Error_t := 0x1001.
Definition GT511_ERR_INVALID_BAUDRATE : GT511_Error_t := 0x1002.
Definition GT511_ERR_INVALID_POS : GT511_Error_t := 0x1003.
Definition GT511_ERR_IS_NOT_USED : GT511_Error_t := 0x1004.
Definition GT511_ERR_IS_ALREADY_USED : GT511_Error_t := 0x1005.
Definition GT511_ERR_COMM_ERR : GT511_Error_t := 0x1006.
Definition GT511_ERR_VERIFY_FAILED : GT511_Error_t := 0x1007.
Definition GT511_ERR_IDENTIFY_FAILED : GT511_Error_t := 0x1008.
Definition GT511_ERR_DB_IS_FULL : GT511_Error_t := 0x1009.
Definition GT511_ERR_DB_IS_EMPTY : GT511_Error_t := 0x100A.
Definition GT511_ERR_TURN_ERR : GT511_Error_t := 0x100B.
Definition GT511_ERR_BAD_FINGER : GT511_Error_t := 0x100C.
Definition GT511_ERR_ENROLL_FAILED : GT511_Error_t := 0x100D.
Definition GT511_ERR_IS_NOT_SUPPORTED : GT511_Error_t := 0x100E.
Definition GT511_ERR_DEV_ERR : GT511_Error_t := 0x100F.
Definition GT511_ERR_CAPTURE_CANCELED : GT511_Error_t := 0x1010.
Definition GT511_ERR_INVALID_PARAM : GT511_Error_t := 0x1011.
Definition GT511_ERR_FINGER_IS_NOT_PRESSED : GT511_Error_t := 0x1012.
Definition GT511_ERR_OTHER_ERROR : GT511_Error_t := 0xFFFF.

(** The enumerators of [GT511_Error_t], in declaration order. *)
Definition named_errors : list GT511_Error_t :=
  [ GT511_ERR_NONE; GT511_ERR_TIMEOUT; GT511_ERR_INVALID_BAUDRATE;
    GT511_ERR_INVALID_POS; GT511_ERR_IS_NOT_USED; GT511_ERR_IS_ALREADY_USED;
    GT511_ERR_COMM_ERR; GT511_ERR_VERIFY_FAILED; GT511_ERR_IDENTIFY_FAILED;
    GT511_ERR_DB_IS_FULL; GT511_ERR_DB_IS_EMPTY; GT511_ERR_TURN_ERR;
    GT511_ERR_BAD_FINGER; GT511_ERR_ENROLL_FAILED; GT511_ERR_IS_NOT_SUPPORTED;
    GT511_ERR_DEV_ERR; GT511_ERR_CAPTURE_CANCELED; GT511_ERR_INVALID_PARAM;
    GT511_ERR_FINGER_IS_NOT_PRESSED; GT511_ERR_OTHER_ERROR ].

Inductive GT511_Mode_t :=
| GT511_MODE_IDLE
| GT511_MODE_IDENTIFY
| GT511_MODE_VERIFY
| GT511_MODE_CAPTURE
| GT511_MODE_ENROLL.

Inductive GT511_UserInfo_t :=
| GT511_UI_PRESS
| GT511_UI_RELEASE
| GT511_UI_TIMEOUT
| GT511_UI_ACCEPT
| GT511_UI_REJECT
| GT511_UI_ERROR.

(** [GT511_Info_t] *)
Record GT511_Info_t := {
  firmwareVersion : Z;
  isoAreaMaxSize : Z;
  serialNumber : list byte
}.

(* ------------------------------------------------------------------ *)
(** ** Packet layout

    [GT511_Packet_t] is 12 bytes: start1 @0, start2 @1, id @2,
    parameter @4, command @8, checksum @10.  [GT511_DataPacket_t] is 6
    bytes with its payload @4, and [GT511_Info_t] is 24 bytes. *)

Definition sizeof_Packet : nat := 12.
Definition sizeof_DataPacket : nat := 6.
Definition sizeof_Info : nat := 24.
Definition sizeof_mempool : nat := sizeof_DataPacket + sizeof_Info.

Definition pkt_start1 (p : mem) : Z := load8 p 0.
Definition pkt_start2 (p : mem) : Z := load8 p 1.
Definition pkt_id (p : mem) : Z := load16 p 2.
Definition pkt_parameter (p : mem) : Z := load32 p 4.
Definition pkt_command (p : mem) : Z := load16 p 8.
Definition pkt_checksum (p : mem) : Z := load16 p 10.

Definition data_payload : nat := 4.

(** [Checksum]: a 32-bit running sum returned through [uint16_t]. *)
Fixpoint Checksum_loop (pBuf : list byte) (sum : Z) : Z :=
  match pBuf with
  | [] => sum
  | b :: rest => Checksum_loop rest (uint32 (sum + byte_val b))
  end.

Definition Checksum (pBuf : mem) (length : nat) : Z :=
  uint16 (Checksum_loop (load_bytes pBuf 0 length) 0).

(** [IsValidResponse] *)
Definition IsValidResponse (pResp : mem) : bool :=
  let computedChecksum := Checksum pResp (sizeof_Packet - 2) in
  if negb (computedChecksum =? pkt_checksum pResp) then false
  else if negb (pkt_start1 pResp =? 0x55) || negb (pkt_start2 pResp =? 0xAA)
  then false
  else if negb (pkt_id pResp =? 1) then false
  else if negb (pkt_command pResp =? GT511_RESP_ACK)
          && negb (pkt_command pResp =? GT511_RESP_NACK)
  then false
  else true.

(** The packet-construction step of [IssueCommand]: the six field
    assignments through [pCmd].  A NULL [pParameter] is [None]. *)
Definition prepare_command (command : Z) (pParameter : option Z) (pCmd : mem)
  : mem :=
  let m := store8 pCmd 0 0x55 in
  let m := store8 m 1 0xAA in
  let m := store16 m 2 1 in
  let m := store32 m 4 (match pParameter with Some v => v | None => 0 end) in
  let m := store16 m 8 command in
  store16 m 10 (Checksum m (sizeof_Packet - 2)).

(** The bytes of the command frame that [IssueCommand] hands to
    [GT511_SendMessage]. *)
Definition command_frame (command : Z) (pParameter : option Z) : list byte :=
  load_bytes (prepare_command command pParameter zero_mem) 0 sizeof_Packet.

(** A received frame seen as a buffer. *)
Definition frame_mem (data : list byte) : mem := store_bytes zero_mem 0 data.

(* ------------------------------------------------------------------ *)
(** ** The application-provided environment *)

Record Env (W : Type) := {
  GT511_SendMessage : list byte -> W -> bool * W;
  (** the bytes actually read and stored at [pMessage]; the C return
      value is their number *)
  GT511_ReceiveMessage : nat -> W -> list byte * W;
  GT511_UserCallback : GT511_Mode_t -> GT511_UserInfo_t -> W -> W;
  GT511_SetTimeout : GT511_Mode_t -> W -> W;
  GT511_CheckTimeout : GT511_Mode_t -> W -> bool * W
}.

Arguments GT511_SendMessage {W}.
Arguments GT511_ReceiveMessage {W}.
Arguments GT511_UserCallback {W}.
Arguments GT511_SetTimeout {W}.
Arguments GT511_CheckTimeout {W}.

(** Every call the driver makes to the environment, with its answer. *)
Inductive Event :=
| EvSend (msg : list byte) (ok : bool)
| EvReceive (length : nat) (data : list byte)
| EvCallback (mode : GT511_Mode_t) (ui : GT511_UserInfo_t)
| EvSetTimeout (mode : GT511_Mode_t)
| EvCheckTimeout (mode : GT511_Mode_t) (expired : bool).

(** Driver state: the world behind the environment, the static
    [mempool] and the log of calls. *)
Record St (W : Type) := {
  world : W;
  mempool : mem;
  trace : list Event
}.

Arguments world {W}.
Arguments mempool {W}.
Arguments trace {W}.

(** State-passing computations; [None] is a wait loop that ran out of
    fuel. *)
Definition M (W A : Type) := St W -> option (A * St W).

Definition ret {W A} (a : A) : M W A := fun s => Some (a, s).

Definition bind {W A B} (m : M W A) (k : A -> M W B) : M W B :=
  fun s => match m s with
           | Some (a, s') => k a s'
           | None => None
           end.

Declare Scope drv_scope.
Delimit Scope drv_scope with drv.
Notation "x <- m ;; k" := (bind m (fun x => k))
  (at level 61, m at next level, right associativity) : drv_scope.
Notation "' p <- m ;; k" := (bind m (fun x => let 'p := x in k))
  (at level 61, p pattern, m at next level, right associativity) : drv_scope.
Notation "m ;; k" := (bind m (fun _ => k))
  (at level 61, right associativity) : drv_scope.

Section Driver.
Context {W : Type} (env : Env W).
Local Open Scope drv_scope.

(** *** Calls into the environment *)

Definition SendMessage (length : nat) : M W bool := fun s =>
  let msg := load_bytes (mempool s) 0 length in
  let (ok, w) := GT511_SendMessage env msg (world s) in
  Some (ok, {| world := w; mempool := mempool s;
               trace := trace s ++ [EvSend msg ok] |}).

Definition ReceiveMessage (length : nat) : M W nat := fun s =>
  let (data, w) := GT511_ReceiveMessage env length (world s) in
  Some (List.length data,
        {| world := w; mempool := store_bytes (mempool s) 0 data;
           trace := trace s ++ [EvReceive length data] |}).

Definition UserCallback (mode : GT511_Mode_t) (ui : GT511_UserInfo_t)
  : M W unit := fun s =>
  Some (tt, {| world := GT511_UserCallback env mode ui (world s);
               mempool := mempool s;
               trace := trace s ++ [EvCallback mode ui] |}).

Definition SetTimeout (mode : GT511_Mode_t) : M W unit := fun s =>
  Some (tt, {| world := GT511_SetTimeout env mode (world s);
               mempool := mempool s;
               trace := trace s ++ [EvSetTimeout mode] |}).

Definition CheckTimeout (mode : GT511_Mode_t) : M W bool := fun s =>
  let (expired, w) := GT511_CheckTimeout env mode (world s) in
  Some (expired, {| world := w; mempool := mempool s;
                    trace := trace s ++ [EvCheckTimeout mode expired] |}).

Definition read_mempool : M W mem := fun s => Some (mempool s, s).

Definition write_mempool (f : mem -> mem) : M W unit := fun s =>
  Some (tt, {| world := world s; mempool := f (mempool s);
               trace := trace s |}).

(** *** [IssueCommand]

    A pointer argument is an [option]: [None] is NULL, [Some v] a cell
    holding [v]; the function returns the final content of the cell
    next to its result. *)
Definition IssueCommand (command : Z) (pParameter : option Z)
  : M W (GT511_Error_t * option Z) :=
  write_mempool (prepare_command command pParameter) ;;
  ok <- SendMessage sizeof_Packet ;;
  if negb ok then ret (GT511_ERR_OTHER_ERROR, pParameter)
  else
    respCount <- ReceiveMessage sizeof_Packet ;;
    if negb (Nat.eqb respCount sizeof_Packet)
    then ret (GT511_ERR_OTHER_ERROR, pParameter)
    else
      pResp <- read_mempool ;;
      let ok := IsValidResponse pResp in
      if negb ok then ret (GT511_ERR_OTHER_ERROR, pParameter)
      else if pkt_command pResp =? GT511_RESP_NACK
      then ret (pkt_parameter pResp, pParameter)
      else
        ret (GT511_ERR_NONE,
             match pParameter with
             | Some _ => Some (pkt_parameter pResp)
             | None => None
             end).

(** The value left in a local that was passed by address. *)
Definition deref (p : option Z) : Z :=
  match p with Some v => v | None => 0 end.

(** [err != GT511_ERR_NONE] *)
Definition failed (err : GT511_Error_t) : bool :=
  negb (err =? GT511_ERR_NONE).

(** *** One-command operations *)

Definition GT511_Close : M W GT511_Error_t :=
  '(err, _) <- IssueCommand GT511_CMD_CLOSE None ;;
  ret err.

Definition GT511_CmosLed (on : bool) : M W GT511_Error_t :=
  let parm := if on then 1 else 0 in
  '(err, _) <- IssueCommand GT511_CMD_CMOS_LED (Some parm) ;;
  ret err.

Definition GT511_IsPressFinger (pIsPressed : option bool)
  : M W (GT511_Error_t * option bool) :=
  let parm := 0 in
  '(err, parm) <- IssueCommand GT511_CMD_IS_PRESS_FINGER (Some parm) ;;
  ret (err,
       match pIsPressed with
       | Some _ => Some (deref parm =? 0)
       | None => None
       end).

Definition GT511_CaptureFinger (highQuality : bool) : M W GT511_Error_t :=
  let parm := if highQuality then 1 else 0 in
  '(err, _) <- IssueCommand GT511_CMD_CAPTURE_FINGER (Some parm) ;;
  ret err.

Definition GT511_Identify (pId : option Z)
  : M W (GT511_Error_t * option Z) :=
  let parm := 0 in
  '(err, parm) <- IssueCommand GT511_CMD_IDENTIFY (Some parm) ;;
  ret (err,
       match pId with
       | Some _ => Some (deref parm)
       | None => None
       end).

Definition GT511_EnrollStart (id : Z) : M W GT511_Error_t :=
  '(err, _) <- IssueCommand GT511_CMD_ENROLL_START (Some id) ;;
  ret err.

Definition GT511_Enroll1 : M W GT511_Error_t :=
  '(err, _) <- IssueCommand GT511_CMD_ENROLL1 None ;;
  ret err.

Definition GT511_Enroll2 : M W GT511_Error_t :=
  '(err, _) <- IssueCommand GT511_CMD_ENROLL2 None ;;
  ret err.

Definition GT511_Enroll3 : M W GT511_Error_t :=
  '(err, _) <- IssueCommand GT511_CMD_ENROLL3 None ;;
  ret err.

Definition GT511_DeleteAll : M W GT511_Error_t :=
  '(err, _) <- IssueCommand GT511_CMD_DELETE_ALL None ;;
  ret err.

Definition GT511_DeleteID (id : Z) : M W GT511_Error_t :=
  '(err, _) <- IssueCommand GT511_CMD_DELETE_ID (Some id) ;;
  ret err.

Definition GT511_GetEnrollCount (pEnrolledCount : option Z)
  : M W (GT511_Error_t * option Z) :=
  let parm := 0 in
  '(err, parm) <- IssueCommand GT511_CMD_GET_ENROLL_COUNT (Some parm) ;;
  ret (err,
       match pEnrolledCount with
       | Some _ => Some (deref parm)
       | None => None
       end).

Definition GT511_CheckEnrolled (id : Z) : M W GT511_Error_t :=
  '(err, _) <- IssueCommand GT511_CMD_CHECK_ENROLLED (Some id) ;;
  ret err.

Definition GT511_Verify (id : Z) : M W GT511_Error_t :=
  '(err, _) <- IssueCommand GT511_CMD_VERIFY (Some id) ;;
  ret err.

(** *** [GT511_Open] *)
Definition GT511_Open (pInfo : option GT511_Info_t)
  : M W (GT511_Error_t * option GT511_Info_t) :=
  let parm := match pInfo with Some _ => 1 | None => 0 end in
  '(err, _) <- IssueCommand GT511_CMD_OPEN (Some parm) ;;
  if failed err then ret (err, pInfo)
  else
    match pInfo with
    | Some _ =>
        let dataLength := (sizeof_DataPacket + sizeof_Info)%nat in
        dataCount <- ReceiveMessage dataLength ;;
        if negb (Nat.eqb dataCount dataLength)
        then ret (GT511_ERR_OTHER_ERROR, pInfo)
        else
          pData <- read_mempool ;;
          let pThisInfo := data_payload in
          ret (GT511_ERR_NONE,
               Some {| firmwareVersion := load32 pData pThisInfo;
                       isoAreaMaxSize := load32 pData (pThisInfo + 4);
                       serialNumber :=
                         load_bytes pData (pThisInfo + 8) 16 |})
    | None => ret (GT511_ERR_NONE, pInfo)
    end.

(** *** The touch waiters

    [fuel] bounds the number of polls of the do-while loop. *)
Fixpoint WaitFingerPress_loop (fuel : nat) (mode : GT511_Mode_t)
  (isPressed : bool) : M W GT511_Error_t :=
  match fuel with
  | O => fun _ => None
  | S fuel' =>
      timeout <- CheckTimeout mode ;;
      if timeout
      then UserCallback mode GT511_UI_TIMEOUT ;;
           ret GT511_ERR_OTHER_ERROR
      else
        '(err, p) <- GT511_IsPressFinger (Some isPressed) ;;
        let isPressed := match p with Some b => b | None => isPressed end in
        if failed err
        then GT511_CmosLed false ;;
             UserCallback mode GT511_UI_ERROR ;;
             ret err
        else if negb isPressed
        then WaitFingerPress_loop fuel' mode isPressed
        else ret err
  end.

Definition WaitFingerPress (fuel : nat) (mode : GT511_Mode_t)
  : M W GT511_Error_t :=
  UserCallback mode GT511_UI_PRESS ;;
  let isPressed := false in
  SetTimeout mode ;;
  WaitFingerPress_loop fuel mode isPressed.

Fixpoint WaitFingerRelease_loop (fuel : nat) (mode : GT511_Mode_t)
  (isPressed : bool) : M W GT511_Error_t :=
  match fuel with
  | O => fun _ => None
  | S fuel' =>
      timeout <- CheckTimeout mode ;;
      if timeout
      then UserCallback mode GT511_UI_TIMEOUT ;;
           ret GT511_ERR_OTHER_ERROR
      else
        '(err, p) <- GT511_IsPressFinger (Some isPressed) ;;
        let isPressed := match p with Some b => b | None => isPressed end in
        if failed err
        then GT511_CmosLed false ;;
             UserCallback mode GT511_UI_ERROR ;;
             ret err
        else if isPressed
        then WaitFingerRelease_loop fuel' mode isPressed
        else ret err
  end.

Definition WaitFingerRelease (fuel : nat) (mode : GT511_Mode_t)
  : M W GT511_Error_t :=
  UserCallback mode GT511_UI_RELEASE ;;
  let isPressed := true in
  SetTimeout mode ;;
  WaitFingerRelease_loop fuel mode isPressed.

(** *** [GT511_FindAvailable]

    [n] is the number of iterations the [for] loop still has to run
    and [i] its counter. *)
Fixpoint FindAvailable_loop (n : nat) (i : Z) (pId : option Z)
  : M W (GT511_Error_t * option Z) :=
  match n with
  | O => ret (GT511_ERR_INVALID_POS, pId)
  | S n' =>
      let parm := i in
      '(err, _) <- IssueCommand GT511_CMD_CHECK_ENROLLED (Some parm) ;;
      if err =? GT511_ERR_IS_NOT_USED
      then ret (GT511_ERR_NONE, Some i)
      else if failed err
      then ret (err, pId)
      else FindAvailable_loop n' (i + 1) pId
  end.

Definition GT511_FindAvailable (pId : option Z)
  : M W (GT511_Error_t * option Z) :=
  match pId with
  | None => ret (GT511_ERR_OTHER_ERROR, pId)
  | Some _ => FindAvailable_loop (Z.to_nat GT511_NUM_SLOTS) 0 pId
  end.

(** *** Workflows *)

Definition GT511_RunIdentify (fuel : nat) (pId : option Z)
  : M W (GT511_Error_t * option Z) :=
  err <- GT511_CmosLed true ;;
  if failed err
  then GT511_CmosLed false ;; ret (err, pId)
  else
    err <- WaitFingerPress fuel GT511_MODE_IDENTIFY ;;
    if failed err
    then GT511_CmosLed false ;; ret (err, pId)
    else
      err <- GT511_CaptureFinger false ;;
      if failed err
      then GT511_CmosLed false ;;
           UserCallback GT511_MODE_IDENTIFY GT511_UI_ERROR ;;
           ret (err, pId)
      else
        '(err, id) <- GT511_Identify (Some 0) ;;
        if failed err
        then GT511_CmosLed false ;;
             UserCallback GT511_MODE_IDENTIFY GT511_UI_REJECT ;;
             ret (err, pId)
        else
          let pId := match pId with
                     | Some _ => Some (deref id)
                     | None => None
                     end in
          err <- WaitFingerRelease fuel GT511_MODE_IDENTIFY ;;
          if failed err
          then GT511_CmosLed false ;; ret (err, pId)
          else
            GT511_CmosLed false ;;
            UserCallback GT511_MODE_IDENTIFY GT511_UI_ACCEPT ;;
            ret (err, pId).

Definition GT511_RunVerify (fuel : nat) (id : Z) : M W GT511_Error_t :=
  err <- GT511_CmosLed true ;;
  if failed err
  then GT511_CmosLed false ;; ret err
  else
    err <- WaitFingerPress fuel GT511_MODE_VERIFY ;;
    if failed err
    then GT511_CmosLed false ;; ret err
    else
      err <- GT511_CaptureFinger false ;;
      if failed err
      then GT511_CmosLed false ;;
           UserCallback GT511_MODE_VERIFY GT511_UI_ERROR ;;
           ret err
      else
        err <- GT511_Verify id ;;
        if failed err
        then GT511_CmosLed false ;;
             UserCallback GT511_MODE_VERIFY GT511_UI_REJECT ;;
             ret err
        else
          err <- WaitFingerRelease fuel GT511_MODE_VERIFY ;;
          if failed err
          then GT511_CmosLed false ;; ret err
          else
            GT511_CmosLed false ;;
            UserCallback GT511_MODE_VERIFY GT511_UI_ACCEPT ;;
            ret err.

(** The enrollment command of a step: the [if (step == 0) ... else if
    (step == 1) ... else ...] chain of [GT511_RunEnroll]. *)
Definition EnrollStep (step : Z) : M W GT511_Error_t :=
  if step =? 0 then GT511_Enroll1
  else if step =? 1 then GT511_Enroll2
  else GT511_Enroll3.

(** The [for (step = 0; step < 3; step++)] loop of [GT511_RunEnroll]
    together with the statements that follow it; [n] is the number of
    iterations still to run. *)
Fixpoint RunEnroll_loop (fuel : nat) (n : nat) (step : Z)
  : M W GT511_Error_t :=
  match n with
  | O =>
      UserCallback GT511_MODE_ENROLL GT511_UI_ACCEPT ;;
      ret GT511_ERR_NONE
  | S n' =>
      err <- GT511_CmosLed true ;;
      if failed err
      then GT511_CmosLed false ;; ret err
      else
        err <- WaitFingerPress fuel GT511_MODE_ENROLL ;;
        if failed err
        then GT511_CmosLed false ;; ret err
        else
          err <- GT511_CaptureFinger true ;;
          if failed err
          then GT511_CmosLed false ;;
               UserCallback GT511_MODE_ENROLL GT511_UI_ERROR ;;
               ret err
          else
            err <- EnrollStep step ;;
            if failed err
            then UserCallback GT511_MODE_ENROLL GT511_UI_REJECT ;;
                 GT511_CmosLed false ;;
                 ret err
            else
              err <- WaitFingerRelease fuel GT511_MODE_ENROLL ;;
              if failed err
              then GT511_CmosLed false ;; ret err
              else
                GT511_CmosLed false ;;
                RunEnroll_loop fuel n' (step + 1)
  end.

Definition GT511_RunEnroll (fuel : nat) (pId : option Z)
  : M W (GT511_Error_t * option Z) :=
  match pId with
  | None => ret (GT511_ERR_OTHER_ERROR, pId)
  | Some _ =>
      '(err, pId) <- GT511_FindAvailable pId ;;
      if failed err
      then UserCallback GT511_MODE_ENROLL GT511_UI_ERROR ;;
           ret (err, pId)
      else
        err <- GT511_EnrollStart (deref pId) ;;
        if failed err
        then ret (err, pId)
        else
          err <- RunEnroll_loop fuel 3 0 ;;
          ret (err, pId)
  end.

End Driver.

(* ------------------------------------------------------------------ *)
(** ** Reading the log *)

(** The command code and parameter carried by a frame handed to
    [GT511_SendMessage]. *)
Definition sent_command (e : Event) : option (Z * Z) :=
  match e with
  | EvSend msg _ =>
      Some (pkt_command (frame_mem msg), pkt_parameter (frame_mem msg))
  | _ => None
  end.

Fixpoint commands_sent (t : list Event) : list (Z * Z) :=
  match t with
  | [] => []
  | e :: rest =>
      match sent_command e with
      | Some c => c :: commands_sent rest
      | None => commands_sent rest
      end
  end.

(** The frame is the backlight command with parameter [on]. *)
Definition is_led_frame (on : bool) (msg : list byte) : bool :=
  (pkt_command (frame_mem msg) =? GT511_CMD_CMOS_LED)
  && (pkt_parameter (frame_mem msg) =? (if on then 1 else 0)).

Definition is_led (on : bool) (e : Event) : bool :=
  match e with
  | EvSend msg _ => is_led_frame on msg
  | _ => false
  end.

Definition UserInfo_eqb (a b : GT511_UserInfo_t) : bool :=
  match a, b with
  | GT511_UI_PRESS, GT511_UI_PRESS
  | GT511_UI_RELEASE, GT511_UI_RELEASE
  | GT511_UI_TIMEOUT, GT511_UI_TIMEOUT
  | GT511_UI_ACCEPT, GT511_UI_ACCEPT
  | GT511_UI_REJECT, GT511_UI_REJECT
  | GT511_UI_ERROR, GT511_UI_ERROR => true
  | _, _ => false
  end.

Definition is_notification (ui : GT511_UserInfo_t) (e : Event) : bool :=
  match e with
  | EvCallback _ ui' => UserInfo_eqb ui ui'
  | _ => false
  end.

Definition is_send (e : Event) : bool :=
  match e with
  | EvSend _ _ => true
  | _ => false
  end.

Definition count (p : Event -> bool) (t : list Event) : nat :=
  List.length (filter p t).

(** Backlight state after the events [t], starting from [lit]: the
    parameter of the last backlight command that was sent. *)
Fixpoint led_after (lit : bool) (t : list Event) : bool :=
  match t with
  | [] => lit
  | e :: rest =>
      led_after (if is_led true e then true
                 else if is_led false e then false
                 else lit) rest
  end.

(** Every illumination-on command in [t] is followed, later in [t], by
    an illumination-off command. *)
Definition led_switched_off (t : list Event) : Prop :=
  forall t1 e t2,
    t = t1 ++ e :: t2 ->
    is_led true e = true ->
    exists e', In e' t2 /\ is_led false e' = true.

(* ------------------------------------------------------------------ *)
(** ** The three workflows under one name *)

Inductive Workflow :=
| Identify (pId : option Z)
| Verify (id : Z)
| Enroll (pId : option Z).

Definition run_workflow {W} (env : Env W) (wf : Workflow) (fuel : nat)
  : M W (GT511_Error_t * option Z) :=
  match wf with
  | Identify pId => GT511_RunIdentify env fuel pId
  | Verify id => bind (GT511_RunVerify env fuel id) (fun err => ret (err, None))
  | Enroll pId => GT511_RunEnroll env fuel pId
  end.

(** The environment [env] with a sensor link on which every
    illumination-off command fails: the underlying send, and the read of
    the answer that would have followed, still happen, so the world moves
    on exactly as under [env], but the driver is told the send failed. *)
Definition LedOffFails {W} (env : Env W) : Env W :=
  {| GT511_SendMessage := fun msg w =>
       if is_led_frame false msg
       then
         let (ok, w1) := GT511_SendMessage env msg w in
         if ok
         then (false, snd (GT511_ReceiveMessage env sizeof_Packet w1))
         else (false, w1)
       else GT511_SendMessage env msg w;
     GT511_ReceiveMessage := GT511_ReceiveMessage env;
     GT511_UserCallback := GT511_UserCallback env;
     GT511_SetTimeout := GT511_SetTimeout env;
     GT511_CheckTimeout := GT511_CheckTimeout env |}.

(* ------------------------------------------------------------------ *)
(** ** A simulated sensor

    A small executable model of the GT-511C behind a loss-free serial
    link, used to run the driver on concrete scenarios. *)

Module Sim.

Record Sensor := {
  slots : list bool;             (** enrolled flag of every slot *)
  finger : list bool;            (** successive readings of the touch
                                     detector, [true] = pressed *)
  identify_reply : Z * Z;        (** response code and parameter the
                                     sensor gives to identify/verify *)
  fault : option Z;              (** when set, every command is NACKed
                                     with this code *)
  info_frame : list byte;        (** data packet sent after open *)
  timeouts : list bool;          (** successive answers of the
                                     application's timeout check *)
  rx : list (list byte)          (** frames waiting on the link *)
}.

Definition response (code param : Z) : list byte :=
  command_frame code (Some param).

Definition ack (param : Z) : list byte := response GT511_RESP_ACK param.
Definition nack (err : Z) : list byte := response GT511_RESP_NACK err.

Definition queue (frames : list (list byte)) (w : Sensor) : Sensor :=
  {| slots := slots w; finger := finger w;
     identify_reply := identify_reply w; fault := fault w;
     info_frame := info_frame w; timeouts := timeouts w;
     rx := rx w ++ frames |}.

Definition slot_used (w : Sensor) (id : Z) : option bool :=
  if (0 <=? id) && (id <? Z.of_nat (length (slots w)))
  then nth_error (slots w) (Z.to_nat id)
  else None.

Fixpoint set_used (l : list bool) (n : nat) : list bool :=
  match l, n with
  | [], _ => []
  | _ :: r, O => true :: r
  | b :: r, S n' => b :: set_used r n'
  end.

Definition respond (cmd param : Z) (w : Sensor) : Sensor :=
  match fault w with
  | Some code => queue [nack code] w
  | None =>
      if cmd =? GT511_CMD_OPEN then
        queue (ack 0 :: if param =? 0 then [] else [info_frame w]) w
      else if cmd =? GT511_CMD_CLOSE then queue [ack 0] w
      else if cmd =? GT511_CMD_CMOS_LED then queue [ack 0] w
      else if cmd =? GT511_CMD_CHECK_ENROLLED then
        match slot_used w param with
        | Some true => queue [ack 0] w
        | Some false => queue [nack GT511_ERR_IS_NOT_USED] w
        | None => queue [nack GT511_ERR_INVALID_POS] w
        end
      else if cmd =? GT511_CMD_ENROLL_START then
        match slot_used w param with
        | Some true => queue [nack GT511_ERR_IS_ALREADY_USED] w
        | Some false => queue [ack 0] w
        | None => queue [nack GT511_ERR_INVALID_POS] w
        end
      else if (cmd =? GT511_CMD_ENROLL1) || (cmd =? GT511_CMD_ENROLL2)
              || (cmd =? GT511_CMD_ENROLL3)
      then queue [ack 0] w
      else if cmd =? GT511_CMD_IS_PRESS_FINGER then
        match finger w with
        | pressed :: later =>
            queue [ack (if pressed then 0
                        else GT511_ERR_FINGER_IS_NOT_PRESSED)]
              {| slots := slots w; finger := later;
                 identify_reply := identify_reply w; fault := fault w;
                 info_frame := info_frame w; timeouts := timeouts w;
                 rx := rx w |}
        | [] => queue [ack GT511_ERR_FINGER_IS_NOT_PRESSED] w
        end
      else if cmd =? GT511_CMD_CAPTURE_FINGER then queue [ack 0] w
      else if (cmd =? GT511_CMD_IDENTIFY) || (cmd =? GT511_CMD_VERIFY)
      then queue [response (fst (identify_reply w))
                           (snd (identify_reply w))] w
      else queue [nack GT511_ERR_IS_NOT_SUPPORTED] w
  end.

Definition env : Env Sensor :=
  {| GT511_SendMessage := fun msg w =>
       (true, respond (pkt_command (frame_mem msg))
                      (pkt_parameter (frame_mem msg)) w);
     GT511_ReceiveMessage := fun _ w =>
       match rx w with
       | frame :: later =>
           (frame,
            {| slots := slots w; finger := finger w;
               identify_reply := identify_reply w; fault := fault w;
               info_frame := info_frame w; timeouts := timeouts w;
               rx := later |})
       | [] => ([], w)
       end;
     GT511_UserCallback := fun _ _ w => w;
     GT511_SetTimeout := fun _ w => w;
     GT511_CheckTimeout := fun _ w =>
       match timeouts w with
       | expired :: later =>
           (expired,
            {| slots := slots w; finger := finger w;
               identify_reply := identify_reply w; fault := fault w;
               info_frame := info_frame w; timeouts := later;
               rx := rx w |})
       | [] => (false, w)
       end |}.

(** A sensor with slots 0 and 1 enrolled out of four, a finger that is
    seen on the second poll and lifted on the second poll after that,
    three times over, and a match on slot 1. *)
Definition sensor : Sensor :=
  {| slots := [true; true; false; true];
     finger := [false; true; true; false;
                false; true; true; false;
                false; true; true; false];
     identify_reply := (GT511_RESP_ACK, 1);
     fault := None;
     info_frame := repeat x00 30;
     timeouts := [];
     rx := [] |}.

Definition boot (w : Sensor) : St Sensor :=
  {| world := w; mempool := zero_mem; trace := [] |}.

(** The same sensor when identification finds no match. *)
Definition sensor_no_match : Sensor :=
  {| slots := slots sensor; finger := finger sensor;
     identify_reply := (GT511_RESP_NACK, GT511_ERR_IDENTIFY_FAILED);
     fault := None; info_frame := info_frame sensor;
     timeouts := []; rx := [] |}.


(** A broken sensor: every command is NACKed with a code that
    [GT511_Error_t] does not name. *)
Definition sensor_faulty : Sensor :=
  {| slots := slots sensor; finger := finger sensor;
     identify_reply := identify_reply sensor;
     fault := Some 0x2222; info_frame := info_frame sensor;
     timeouts := []; rx := [] |}.

(** An application whose timeout has already expired. *)
Definition sensor_timed_out : Sensor :=
  {| slots := slots sensor; finger := finger sensor;
     identify_reply := identify_reply sensor;
     fault := None; info_frame := info_frame sensor;
     timeouts := [true]; rx := [] |}.

(** The finger is seen on the second poll and never lifted before the
    application's timeout expires. *)
Definition sensor_no_release : Sensor :=
  {| slots := slots sensor; finger := [false; true];
     identify_reply := identify_reply sensor;
     fault := None; info_frame := info_frame sensor;
     timeouts := [false; false; true]; rx := [] |}.

(** The finger is on the sensor at the first poll. *)
Definition sensor_pressed : Sensor :=
  {| slots := slots sensor; finger := [true];
     identify_reply := identify_reply sensor;
     fault := None; info_frame := info_frame sensor;
     timeouts := []; rx := [] |}.

(** A sensor whose device-info packet has wrong start bytes, a wrong
    id and no checksum: thirty bytes 0x01, 0x02, ..., 0x1e. *)
Definition sensor_odd_info : Sensor :=
  {| slots := slots sensor; finger := finger sensor;
     identify_reply := identify_reply sensor;
     fault := None;
     info_frame := map (fun n => byte_of (Z.of_nat n)) (seq 1 30);
     timeouts := []; rx := [] |}.

(** A sensor with all twenty slots enrolled. *)
Definition sensor_full : Sensor :=
  {| slots := repeat true 20; finger := finger sensor;
     identify_reply := identify_reply sensor;
     fault := None; info_frame := info_frame sensor;
     timeouts := []; rx := [] |}.

(** What a run shows from outside: its result and the log. *)
Definition observe {A} (r : option (A * St Sensor))
  : option (A * list Event) :=
  match r with
  | Some (a, s) => Some (a, trace s)
  | None => None
  end.

End Sim.


(* ------------------------------------------------------------------ *)
(** ** Reading a response

    What [IssueCommand] returns, and leaves in the caller's parameter
    cell, once [data] has been read as the answer to a command. *)
Definition response_result (pParameter : option Z) (data : list byte)
  : GT511_Error_t * option Z :=
  if negb (Nat.eqb (length data) sizeof_Packet)
  then (GT511_ERR_OTHER_ERROR, pParameter)
  else
    let pResp := frame_mem data in
    if negb (IsValidResponse pResp) then (GT511_ERR_OTHER_ERROR, pParameter)
    else if pkt_command pResp =? GT511_RESP_NACK
    then (pkt_parameter pResp, pParameter)
    else (GT511_ERR_NONE,
          match pParameter with
          | Some _ => Some (pkt_parameter pResp)
          | None => None
          end).

(** The log entries of one command/response transaction. *)
Definition transaction (command : Z) (pParameter : option Z)
  (d : list Event) : Prop :=
  d = [EvSend (command_frame command pParameter) false]
  \/ exists data,
       d = [EvSend (command_frame command pParameter) true;
            EvReceive sizeof_Packet data].

(** What the log of a touch wait that returned [err] never contains:
    no illumination-on command, no Accept or Reject notification and,
    when the wait succeeded, no illumination-off command either. *)
Definition wait_log (err : GT511_Error_t) (d : list Event) : Prop :=
  count (is_led true) d = 0%nat
  /\ count (is_notification GT511_UI_ACCEPT) d = 0%nat
  /\ count (is_notification GT511_UI_REJECT) d = 0%nat
  /\ (err = GT511_ERR_NONE -> count (is_led false) d = 0%nat).

(** The slot scan in the words of the specification: starting at index
    [i], slots are probed one by one in ascending order with the
    check-enrolled operation.  A slot reported "not used" is stored and
    ends the scan with [GT511_ERR_NONE]; any other result than "in use"
    ([GT511_ERR_NONE]) ends it with that result and nothing stored; when
    index [GT511_NUM_SLOTS] is reached the scan gives
    [GT511_ERR_INVALID_POS] and nothing is stored. *)
Inductive ascending_scan {W} (env : Env W)
  : Z -> St W -> option Z -> GT511_Error_t * option Z -> St W -> Prop :=
| scan_exhausted s pId :
    ascending_scan env GT511_NUM_SLOTS s pId (GT511_ERR_INVALID_POS, pId) s
| scan_free i s s' pId :
    0 <= i < GT511_NUM_SLOTS ->
    GT511_CheckEnrolled env i s = Some (GT511_ERR_IS_NOT_USED, s') ->
    ascending_scan env i s pId (GT511_ERR_NONE, Some i) s'
| scan_abort i s s' err pId :
    0 <= i < GT511_NUM_SLOTS ->
    GT511_CheckEnrolled env i s = Some (err, s') ->
    err <> GT511_ERR_NONE ->
    err <> GT511_ERR_IS_NOT_USED ->
    ascending_scan env i s pId (err, pId) s'
| scan_in_use i s s1 pId r s' :
    0 <= i < GT511_NUM_SLOTS ->
    GT511_CheckEnrolled env i s = Some (GT511_ERR_NONE, s1) ->
    ascending_scan env (i + 1) s1 pId r s' ->
    ascending_scan env i s pId r s'.

(** One iteration of the enrollment loop in which every checked step
    succeeds: illumination on, press, high-quality capture, the
    enrollment command of the step, release; the iteration then ends
    with the illumination-off command, whatever its result. *)
Definition enroll_iteration_succeeds {W} (env : Env W) (fuel : nat)
  (step : Z) (s s' : St W) : Prop :=
  exists s1 s2 s3 s4 s5 err_off,
    GT511_CmosLed env true s = Some (GT511_ERR_NONE, s1)
    /\ WaitFingerPress env fuel GT511_MODE_ENROLL s1
       = Some (GT511_ERR_NONE, s2)
    /\ GT511_CaptureFinger env true s2 = Some (GT511_ERR_NONE, s3)
    /\ EnrollStep env step s3 = Some (GT511_ERR_NONE, s4)
    /\ WaitFingerRelease env fuel GT511_MODE_ENROLL s4
       = Some (GT511_ERR_NONE, s5)
    /\ GT511_CmosLed env false s5 = Some (err_off, s').

(** Two runs end alike: both return, with results related by [R], in
    the same world; or neither returns within its fuel. *)
Definition same_outcome {W A} (R : A -> A -> Prop)
  (x y : option (A * St W)) : Prop :=
  match x, y with
  | Some (a, t), Some (a', t') => R a a' /\ world t = world t'
  | None, None => True
  | _, _ => False
  end.

(** [m'] does to the world what [m] does, whatever the buffer and the
    log hold. *)
Definition simulates {W A} (R : A -> A -> Prop) (m m' : M W A) : Prop :=
  forall s s', world s = world s' -> same_outcome R (m s) (m' s').

Definition any {A} : A -> A -> Prop := fun _ _ => True.


(* ------------------------------------------------------------------ *)
(** ** Error names

    [errorStringTable] and [GT511_ErrorString]: the table is searched
    from its first entry and the first matching code gives the name. *)

Definition errorStringTable : list (GT511_Error_t * String.string) :=
  [ (GT511_ERR_NONE, "NONE"%string);
    (GT511_ERR_TIMEOUT, "TIMEOUT"%string);
    (GT511_ERR_INVALID_BAUDRATE, "INVALID_BAUDRATE"%string);
    (GT511_ERR_INVALID_POS, "INVALID_POS"%string);
    (GT511_ERR_IS_NOT_USED, "IS_NOT_USED"%string);
    (GT511_ERR_IS_ALREADY_USED, "IS_ALREADY_USED"%string);
    (GT511_ERR_COMM_ERR, "COMM_ERR"%string);
    (GT511_ERR_VERIFY_FAILED, "VERIFY_FAILED"%string);
    (GT511_ERR_IDENTIFY_FAILED, "IDENTIFY_FAILED"%string);
    (GT511_ERR_DB_IS_FULL, "DB_IS_FULL"%string);
    (GT511_ERR_DB_IS_EMPTY, "DB_IS_EMPTY"%string);
    (GT511_ERR_TURN_ERR, "TURN_ERR"%string);
    (GT511_ERR_BAD_FINGER, "BAD_FINGER"%string);
    (GT511_ERR_ENROLL_FAILED, "ENROLL_FAILED"%string);
    (GT511_ERR_IS_NOT_SUPPORTED, "IS_NOT_SUPPORTED"%string);
    (GT511_ERR_DEV_ERR, "DEV_ERR"%string);
    (GT511_ERR_CAPTURE_CANCELED, "CAPTURE_CANCELED"%string);
    (GT511_ERR_INVALID_PARAM, "INVALID_PARAM"%string);
    (GT511_ERR_FINGER_IS_NOT_PRESSED, "FINGER_IS_NOT_PRESSED"%string);
    (GT511_ERR_OTHER_ERROR, "OTHER_ERROR"%string) ].

Fixpoint ErrorString_loop (table : list (GT511_Error_t * String.string))
  (err : GT511_Error_t) : String.string :=
  match table with
  | [] => "UNKNOWN"%string
  | (errCode, errString) :: rest =>
      if errCode =? err then errString else ErrorString_loop rest err
  end.

Definition GT511_ErrorString (err : GT511_Error_t) : String.string :=
  ErrorString_loop errorStringTable err.

(* ------------------------------------------------------------------ *)
(** ** More ways to read the log *)

(** The plain sum of the bytes of a buffer. *)
Definition byte_sum (l : list byte) : Z :=
  fold_right (fun b acc => byte_val b + acc) 0 l.

Definition is_receive (e : Event) : bool :=
  match e with
  | EvReceive _ _ => true
  | _ => false
  end.

Definition is_callback (e : Event) : bool :=
  match e with
  | EvCallback _ _ => true
  | _ => false
  end.

Definition is_set_timeout (e : Event) : bool :=
  match e with
  | EvSetTimeout _ => true
  | _ => false
  end.

(** A poll of the timeout that answered [expired]. *)
Definition is_poll (expired : bool) (e : Event) : bool :=
  match e with
  | EvCheckTimeout _ b => Bool.eqb b expired
  | _ => false
  end.

(** A frame sent with the command code [command]. *)
Definition is_command (command : Z) (e : Event) : bool :=
  match e with
  | EvSend msg _ => pkt_command (frame_mem msg) =? command
  | _ => false
  end.

Definition Mode_eqb (a b : GT511_Mode_t) : bool :=
  match a, b with
  | GT511_MODE_IDLE, GT511_MODE_IDLE
  | GT511_MODE_IDENTIFY, GT511_MODE_IDENTIFY
  | GT511_MODE_VERIFY, GT511_MODE_VERIFY
  | GT511_MODE_CAPTURE, GT511_MODE_CAPTURE
  | GT511_MODE_ENROLL, GT511_MODE_ENROLL => true
  | _, _ => false
  end.

(** The event carries no mode, or carries [mode]. *)
Definition in_mode (mode : GT511_Mode_t) (e : Event) : bool :=
  match e with
  | EvCallback m _ => Mode_eqb m mode
  | EvSetTimeout m => Mode_eqb m mode
  | EvCheckTimeout m _ => Mode_eqb m mode
  | _ => true
  end.

Definition workflow_mode (wf : Workflow) : GT511_Mode_t :=
  match wf with
  | Identify _ => GT511_MODE_IDENTIFY
  | Verify _ => GT511_MODE_VERIFY
  | Enroll _ => GT511_MODE_ENROLL
  end.

(** The buffer [p] with the byte at offset [i] replaced by [b]. *)
Definition corrupt (p : mem) (i : nat) (b : byte) : mem :=
  fun j => if Nat.eqb j i then b else p j.

(** The operations that are one command and nothing else, with the
    command code and the parameter each one puts in its frame. *)
Inductive Operation :=
| OpClose
| OpCmosLed (on : bool)
| OpCaptureFinger (highQuality : bool)
| OpEnrollStart (id : Z)
| OpEnroll1
| OpEnroll2
| OpEnroll3
| OpDeleteAll
| OpDeleteID (id : Z)
| OpCheckEnrolled (id : Z)
| OpVerify (id : Z).

Definition run_operation {W} (env : Env W) (op : Operation)
  : M W GT511_Error_t :=
  match op with
  | OpClose => GT511_Close env
  | OpCmosLed on => GT511_CmosLed env on
  | OpCaptureFinger highQuality => GT511_CaptureFinger env highQuality
  | OpEnrollStart id => GT511_EnrollStart env id
  | OpEnroll1 => GT511_Enroll1 env
  | OpEnroll2 => GT511_Enroll2 env
  | OpEnroll3 => GT511_Enroll3 env
  | OpDeleteAll => GT511_DeleteAll env
  | OpDeleteID id => GT511_DeleteID env id
  | OpCheckEnrolled id => GT511_CheckEnrolled env id
  | OpVerify id => GT511_Verify env id
  end.

Definition operation_command (op : Operation) : Z :=
  match op with
  | OpClose => GT511_CMD_CLOSE
  | OpCmosLed _ => GT511_CMD_CMOS_LED
  | OpCaptureFinger _ => GT511_CMD_CAPTURE_FINGER
  | OpEnrollStart _ => GT511_CMD_ENROLL_START
  | OpEnroll1 => GT511_CMD_ENROLL1
  | OpEnroll2 => GT511_CMD_ENROLL2
  | OpEnroll3 => GT511_CMD_ENROLL3
  | OpDeleteAll => GT511_CMD_DELETE_ALL
  | OpDeleteID _ => GT511_CMD_DELETE_ID
  | OpCheckEnrolled _ => GT511_CMD_CHECK_ENROLLED
  | OpVerify _ => GT511_CMD_VERIFY
  end.

Definition operation_parameter (op : Operation) : Z :=
  match op with
  | OpCmosLed on => if on then 1 else 0
  | OpCaptureFinger highQuality => if highQuality then 1 else 0
  | OpEnrollStart id | OpDeleteID id | OpCheckEnrolled id | OpVerify id =>
      uint32 id
  | OpClose | OpEnroll1 | OpEnroll2 | OpEnroll3 | OpDeleteAll => 0
  end.

(* ------------------------------------------------------------------ *)
(** ** Both touch waits under one name *)

Definition touch_wait {W} (env : Env W) (press : bool) (fuel : nat)
  (mode : GT511_Mode_t) : M W GT511_Error_t :=
  if press then WaitFingerPress env fuel mode
  else WaitFingerRelease env fuel mode.

Definition touch_prompt (press : bool) : GT511_UserInfo_t :=
  if press then GT511_UI_PRESS else GT511_UI_RELEASE.

(** How the polls of a touch wait end, by the value returned.
    - [GT511_ERR_NONE]: with a poll that found the timeout not expired
      and a press query whose valid response showed the awaited state
      (parameter 0 when waiting for a press, non-zero for a release);
    - [GT511_ERR_OTHER_ERROR]: with a poll that found the timeout
      expired, followed by the Timeout notification;
    - any error: with a press query, then the illumination-off
      transaction, then the Error notification. *)
Definition wait_ending (mode : GT511_Mode_t) (press : bool)
  (err : GT511_Error_t) (polls : list Event) : Prop :=
  (err = GT511_ERR_NONE
   /\ exists p0 data,
        polls = p0 ++ [EvCheckTimeout mode false;
                       EvSend (command_frame GT511_CMD_IS_PRESS_FINGER
                                 (Some 0)) true;
                       EvReceive sizeof_Packet data]
        /\ IsValidResponse (frame_mem data) = true
        /\ (pkt_parameter (frame_mem data) =? 0) = press)
  \/ (err = GT511_ERR_OTHER_ERROR
      /\ exists p0,
           polls = p0 ++ [EvCheckTimeout mode true;
                          EvCallback mode GT511_UI_TIMEOUT])
  \/ (err <> GT511_ERR_NONE
      /\ exists p0 dq doff,
           polls = p0 ++ [EvCheckTimeout mode false] ++ dq ++ doff
                      ++ [EvCallback mode GT511_UI_ERROR]
           /\ transaction GT511_CMD_IS_PRESS_FINGER (Some 0) dq
           /\ transaction GT511_CMD_CMOS_LED (Some 0) doff).

(** What holds of the polls of a touch wait however it ends: the
    timeout is never armed again, every press query follows a poll that
    found the timeout not expired, at most one poll finds it expired, at
    most one notification is made, nothing but press queries and
    illumination-off is sent, and every call carries the mode of the
    wait. *)
Definition polling_discipline (mode : GT511_Mode_t) (polls : list Event)
  : Prop :=
  count is_set_timeout polls = 0%nat
  /\ count (is_poll false) polls
     = count (is_command GT511_CMD_IS_PRESS_FINGER) polls
  /\ (count (is_poll true) polls <= 1)%nat
  /\ (count is_callback polls <= 1)%nat
  /\ count is_send polls
     = (count (is_command GT511_CMD_IS_PRESS_FINGER) polls
        + count (is_led false) polls)%nat
  /\ forallb (in_mode mode) polls = true.

(** The log holds only frames sent and bytes read. *)
Definition link_only (d : list Event) : Prop :=
  forallb (fun e => is_send e || is_receive e) d = true.

(** A stretch of log without Accept or Reject notification, in which
    every notification and timeout call carries [mode]. *)
Definition quiet_log (mode : GT511_Mode_t) (d : list Event) : Prop :=
  count (is_notification GT511_UI_ACCEPT) d = 0%nat
  /\ count (is_notification GT511_UI_REJECT) d = 0%nat
  /\ forallb (in_mode mode) d = true.

(** The notifications of a workflow that returned [err]: Accept exactly
    once when [err] is [GT511_ERR_NONE] and never otherwise, Reject at
    most once and never on success, and every notification and timeout
    call in [mode]. *)
Definition workflow_log (mode : GT511_Mode_t) (err : GT511_Error_t)
  (t : list Event) : Prop :=
  count (is_notification GT511_UI_ACCEPT) t
  = (if failed err then 0%nat else 1%nat)
  /\ (count (is_notification GT511_UI_REJECT) t <= 1)%nat
  /\ (failed err = false -> count (is_notification GT511_UI_REJECT) t = 0%nat)
  /\ forallb (in_mode mode) t = true.

(** The environment [env] with a link that refuses every frame of
    command [cmd]: the send reports a failure and the world stays as it
    is. *)
Definition LinkRefuses {W} (cmd : Z) (env : Env W) : Env W :=
  {| GT511_SendMessage := fun msg w =>
       if pkt_command (frame_mem msg) =? cmd
       then (false, w)
       else GT511_SendMessage env msg w;
     GT511_ReceiveMessage := GT511_ReceiveMessage env;
     GT511_UserCallback := GT511_UserCallback env;
     GT511_SetTimeout := GT511_SetTimeout env;
     GT511_CheckTimeout := GT511_CheckTimeout env |}.

(* ================================================================== *)
(** * Properties *)

(** ** Bytes and fields *)

Lemma byte_val_range (b : byte) : 0 <= byte_val b < 256.
Proof.
  unfold byte_val.
  pose proof (Byte.to_N_bounded b) as H.
  lia.
Qed.

Lemma byte_val_of (z : Z) : byte_val (byte_of z) = z mod 256.
Proof.
  unfold byte_val, byte_of.
  pose proof (Z.mod_pos_bound z 256 ltac:(lia)) as Hr.
  destruct (Byte.of_N (Z.to_N (z mod 256))) as [b|] eqn:E.
  - apply Byte.to_of_N in E. rewrite E. lia.
  - apply Byte.of_N_None_iff in E. lia.
Qed.

Lemma byte_of_val (b : byte) : byte_of (byte_val b) = b.
Proof.
  unfold byte_of, byte_val.
  pose proof (Byte.to_N_bounded b) as H.
  rewrite Z.mod_small by lia.
  rewrite N2Z.id, Byte.of_to_N. reflexivity.
Qed.

Lemma le16_value (v : Z) :
  byte_val (byte_of v) + 256 * byte_val (byte_of (v / 256)) = uint16 v.
Proof.
  rewrite !byte_val_of. unfold uint16.
  change 65536 with (256 * 256).
  rewrite Z.rem_mul_r by lia. reflexivity.
Qed.

Lemma le32_value (v : Z) :
  (byte_val (byte_of v) + 256 * byte_val (byte_of (v / 256)))
  + 65536 * (byte_val (byte_of (v / 65536))
             + 256 * byte_val (byte_of (v / 65536 / 256)))
  = uint32 v.
Proof.
  rewrite !le16_value. unfold uint16, uint32.
  change 4294967296 with (65536 * 65536).
  rewrite (Z.rem_mul_r v 65536 65536) by lia. reflexivity.
Qed.

Lemma uint16_idem (v : Z) : uint16 (uint16 v) = uint16 v.
Proof. unfold uint16. apply Z.mod_mod. lia. Qed.

Lemma uint16_range (v : Z) : 0 <= uint16 v < 65536.
Proof. unfold uint16. apply Z.mod_pos_bound. lia. Qed.

Lemma uint32_range (v : Z) : 0 <= uint32 v < 4294967296.
Proof. unfold uint32. apply Z.mod_pos_bound. lia. Qed.

(** ** The fields of a prepared command frame *)

Section PreparedFrame.
Variables (command : Z) (pParameter : option Z) (pCmd : mem).

Let frame := prepare_command command pParameter pCmd.

Lemma prepared_start1 : pkt_start1 frame = 0x55.
Proof. reflexivity. Qed.

Lemma prepared_start2 : pkt_start2 frame = 0xAA.
Proof. reflexivity. Qed.

Lemma prepared_id : pkt_id frame = 1.
Proof. reflexivity. Qed.

Lemma prepared_parameter :
  pkt_parameter frame = uint32 (deref pParameter).
Proof. apply le32_value. Qed.

Lemma prepared_command : pkt_command frame = uint16 command.
Proof. apply le16_value. Qed.

Lemma prepared_checksum :
  pkt_checksum frame = Checksum frame (sizeof_Packet - 2).
Proof.
  unfold pkt_checksum, load16, load8, frame, prepare_command.
  cbn [store16 store8 Nat.eqb Nat.add].
  rewrite le16_value. unfold Checksum at 1. rewrite uint16_idem. reflexivity.
Qed.
End PreparedFrame.

(** ** Claim C1: validating a built command frame *)

(** C1, as stated, fails: the frame that [IssueCommand] builds for the
    open command with parameter 0 is rejected by [IsValidResponse],
    because its code field (0x01) is neither ACK nor NACK. *)
Lemma open_command_frame_is_not_a_valid_response :
  IsValidResponse (prepare_command GT511_CMD_OPEN (Some 0) zero_mem) = false.
Proof. vm_compute. reflexivity. Qed.

(** C1 (amended): for every command code and parameter, and whatever the
    buffer held before, the frame built by the packet-construction step
    of [IssueCommand] carries the start bytes 0x55/0xAA, id 1, the
    parameter and the command code truncated to their field widths, and
    a checksum field equal to the 16-bit sum of the ten preceding bytes;
    [IsValidResponse] accepts it exactly when the command code is one of
    the two response codes, ACK (0x30) or NACK (0x31). *)
Theorem command_frame_validation (command : Z) (pParameter : option Z)
  (pCmd : mem) :
  let frame := prepare_command command pParameter pCmd in
  pkt_start1 frame = 0x55
  /\ pkt_start2 frame = 0xAA
  /\ pkt_id frame = 1
  /\ pkt_parameter frame = uint32 (deref pParameter)
  /\ pkt_command frame = uint16 command
  /\ pkt_checksum frame = Checksum frame (sizeof_Packet - 2)
  /\ IsValidResponse frame
     = (uint16 command =? GT511_RESP_ACK)
       || (uint16 command =? GT511_RESP_NACK).
Proof.
  intro frame. subst frame.
  repeat split;
    try (apply prepared_parameter || apply prepared_command
         || apply prepared_checksum).
  unfold IsValidResponse.
  rewrite <- prepared_checksum, Z.eqb_refl.
  rewrite prepared_start1, prepared_start2, prepared_id, prepared_command.
  cbn [negb orb Z.eqb Pos.eqb].
  destruct (uint16 command =? GT511_RESP_ACK),
           (uint16 command =? GT511_RESP_NACK); reflexivity.
Qed.


(** ** One transaction *)

Lemma prepared_frame_bytes (command : Z) (pParameter : option Z) (m : mem) :
  load_bytes (prepare_command command pParameter m) 0 sizeof_Packet
  = command_frame command pParameter.
Proof. reflexivity. Qed.

Lemma frame_mem_fields (m : mem) :
  let f := frame_mem (load_bytes m 0 sizeof_Packet) in
  pkt_command f = pkt_command m /\ pkt_parameter f = pkt_parameter m
  /\ IsValidResponse f = IsValidResponse m.
Proof. repeat split; reflexivity. Qed.

Lemma command_frame_command (command : Z) (pParameter : option Z) :
  pkt_command (frame_mem (command_frame command pParameter)) = uint16 command.
Proof.
  unfold command_frame.
  rewrite (proj1 (frame_mem_fields _)). apply prepared_command.
Qed.

Lemma command_frame_parameter (command : Z) (pParameter : option Z) :
  pkt_parameter (frame_mem (command_frame command pParameter))
  = uint32 (deref pParameter).
Proof.
  unfold command_frame.
  rewrite (proj1 (proj2 (frame_mem_fields _))). apply prepared_parameter.
Qed.

Lemma length_12 {A} (l : list A) :
  length l = 12%nat ->
  exists a0 a1 a2 a3 a4 a5 a6 a7 a8 a9 a10 a11,
    l = [a0; a1; a2; a3; a4; a5; a6; a7; a8; a9; a10; a11].
Proof.
  intro H.
  do 12 (destruct l as [|? l]; [discriminate H|]).
  destruct l; [|discriminate H].
  repeat eexists.
Qed.

Lemma received_frame_fields (m : mem) (data : list byte) :
  length data = sizeof_Packet ->
  let r := store_bytes m 0 data in
  pkt_command r = pkt_command (frame_mem data)
  /\ pkt_parameter r = pkt_parameter (frame_mem data)
  /\ IsValidResponse r = IsValidResponse (frame_mem data).
Proof.
  intro H. apply length_12 in H.
  destruct H as (a0&a1&a2&a3&a4&a5&a6&a7&a8&a9&a10&a11&->).
  repeat split; reflexivity.
Qed.

Section Transactions.
Context {W : Type} (env : Env W).

Lemma IssueCommand_run (command : Z) (pParameter : option Z) (s : St W) :
  IssueCommand env command pParameter s =
  let msg := command_frame command pParameter in
  let pCmd := prepare_command command pParameter (mempool s) in
  let (ok, w1) := GT511_SendMessage env msg (world s) in
  if ok then
    let (data, w2) := GT511_ReceiveMessage env sizeof_Packet w1 in
    Some (response_result pParameter data,
          {| world := w2; mempool := store_bytes pCmd 0 data;
             trace := trace s ++ [EvSend msg true;
                                  EvReceive sizeof_Packet data] |})
  else
    Some ((GT511_ERR_OTHER_ERROR, pParameter),
          {| world := w1; mempool := pCmd;
             trace := trace s ++ [EvSend msg false] |}).
Proof.
  unfold IssueCommand, bind, write_mempool, SendMessage, ReceiveMessage,
    read_mempool, ret.
  cbn [world mempool trace].
  rewrite prepared_frame_bytes.
  destruct (GT511_SendMessage env _ (world s)) as [[|] w1];
    cbn [negb world mempool trace]; [|reflexivity].
  destruct (GT511_ReceiveMessage env sizeof_Packet w1) as [data w2].
  cbn [world mempool trace].
  rewrite <- app_assoc. cbn [app].
  unfold response_result.
  destruct (Nat.eqb (length data) sizeof_Packet) eqn:L; cbn [negb];
    [|reflexivity].
  cbn [mempool].
  apply Nat.eqb_eq in L.
  destruct (received_frame_fields
              (prepare_command command pParameter (mempool s)) data L)
    as (-> & -> & ->).
  destruct (IsValidResponse (frame_mem data)); cbn [negb]; [|reflexivity].
  destruct (pkt_command (frame_mem data) =? GT511_RESP_NACK); reflexivity.
Qed.

Lemma IssueCommand_total (command : Z) (pParameter : option Z) (s : St W) :
  exists r s', IssueCommand env command pParameter s = Some (r, s').
Proof.
  rewrite IssueCommand_run. cbv zeta.
  destruct (GT511_SendMessage env _ (world s)) as [[|] w1].
  - destruct (GT511_ReceiveMessage env sizeof_Packet w1) as [data w2].
    eauto.
  - eauto.
Qed.

Lemma IssueCommand_trace (command : Z) (pParameter : option Z)
  (s s' : St W) r :
  IssueCommand env command pParameter s = Some (r, s') ->
  exists d, trace s' = trace s ++ d /\ transaction command pParameter d.
Proof.
  rewrite IssueCommand_run. cbv zeta.
  destruct (GT511_SendMessage env _ (world s)) as [[|] w1].
  - destruct (GT511_ReceiveMessage env sizeof_Packet w1) as [data w2].
    intros [= <- <-]. eexists; split; [reflexivity|].
    right. eauto.
  - intros [= <- <-]. eexists; split; [reflexivity|]. left. reflexivity.
Qed.

End Transactions.


Lemma store_bytes_spec (l : list byte) : forall (m : mem) (off i : nat),
  store_bytes m off l i =
  if (off <=? i)%nat && (i <? off + length l)%nat
  then nth (i - off) l x00
  else m i.
Proof.
  induction l as [|b r IH]; intros m off i; cbn [store_bytes length].
  - destruct (Nat.leb_spec off i), (Nat.ltb_spec i (off + 0)); cbn [andb];
      try reflexivity; lia.
  - rewrite IH.
    destruct (Nat.leb_spec (S off) i), (Nat.ltb_spec i (S off + length r)),
      (Nat.leb_spec off i), (Nat.ltb_spec i (off + S (length r)));
      cbn [andb]; try lia;
      destruct (Nat.eqb_spec i off) as [->|Hne]; try lia; try reflexivity.
    + replace (i - off)%nat with (S (i - S off)) by lia. reflexivity.
    + rewrite Nat.sub_diag. reflexivity.
Qed.

Lemma frame_mem_nth (data : list byte) (i : nat) :
  frame_mem data i = nth i data x00.
Proof.
  unfold frame_mem. rewrite store_bytes_spec.
  cbn [Nat.leb andb Nat.add]. rewrite Nat.sub_0_r.
  destruct (Nat.ltb_spec i (length data)); [reflexivity|].
  rewrite nth_overflow by lia. reflexivity.
Qed.

Lemma received_bytes (m : mem) (data : list byte) (i : nat) :
  (i < length data)%nat ->
  store_bytes m 0 data i = frame_mem data i.
Proof.
  intro H. unfold frame_mem. rewrite !store_bytes_spec.
  cbn [Nat.leb andb Nat.add].
  destruct (Nat.ltb_spec i (length data)); [reflexivity | lia].
Qed.

Lemma received_load32 (m : mem) (data : list byte) (off : nat) :
  (off + 3 < length data)%nat ->
  load32 (store_bytes m 0 data) off = load32 (frame_mem data) off.
Proof.
  intro H. unfold load32, load16, load8.
  rewrite !received_bytes by lia. reflexivity.
Qed.

Lemma received_load_bytes (m : mem) (data : list byte) (off len : nat) :
  (off + len <= length data)%nat ->
  load_bytes (store_bytes m 0 data) off len
  = load_bytes (frame_mem data) off len.
Proof.
  intro H. unfold load_bytes. apply map_ext_in.
  intros i Hi. apply in_seq in Hi. apply received_bytes. lia.
Qed.

Section TransactionClaims.
Context {W : Type} (env : Env W).



(** An ACKed transaction returns no error and hands back the response
    parameter. *)
Lemma IssueCommand_ack
  (command : Z) (pParameter : option Z) (s : St W)
  (w1 w2 : W) (data : list byte) :
  GT511_SendMessage env (command_frame command pParameter) (world s)
    = (true, w1) ->
  GT511_ReceiveMessage env sizeof_Packet w1 = (data, w2) ->
  length data = sizeof_Packet ->
  IsValidResponse (frame_mem data) = true ->
  pkt_command (frame_mem data) = GT511_RESP_ACK ->
  IssueCommand env command pParameter s
  = Some ((GT511_ERR_NONE,
           match pParameter with
           | Some _ => Some (pkt_parameter (frame_mem data))
           | None => None
           end),
          {| world := w2;
             mempool := store_bytes
                          (prepare_command command pParameter (mempool s))
                          0 data;
             trace := trace s
                      ++ [EvSend (command_frame command pParameter) true;
                          EvReceive sizeof_Packet data] |}).
Proof.
  intros Hsend Hrecv Hlen Hvalid Hack.
  rewrite IssueCommand_run. cbv zeta.
  rewrite Hsend, Hrecv.
  unfold response_result.
  rewrite Hlen, Nat.eqb_refl, Hvalid, Hack. reflexivity.
Qed.

(** C9: when the is-finger-pressed command is answered by a valid ACK
    frame, [GT511_IsPressFinger] returns [GT511_ERR_NONE] and stores in
    [*pIsPressed] the negation of the response parameter: [true]
    exactly when that parameter is 0. *)
Theorem IsPressFinger_negates_parameter
  (old : bool) (s : St W) (w1 w2 : W) (data : list byte) :
  GT511_SendMessage env
    (command_frame GT511_CMD_IS_PRESS_FINGER (Some 0)) (world s)
    = (true, w1) ->
  GT511_ReceiveMessage env sizeof_Packet w1 = (data, w2) ->
  length data = sizeof_Packet ->
  IsValidResponse (frame_mem data) = true ->
  pkt_command (frame_mem data) = GT511_RESP_ACK ->
  exists s',
    GT511_IsPressFinger env (Some old) s
      = Some ((GT511_ERR_NONE,
               Some (pkt_parameter (frame_mem data) =? 0)), s')
    /\ (forall pressed,
           GT511_IsPressFinger env (Some old) s
             = Some ((GT511_ERR_NONE, Some pressed), s') ->
           (pressed = true <-> pkt_parameter (frame_mem data) = 0)).
Proof.
  intros Hsend Hrecv Hlen Hvalid Hack.
  unfold GT511_IsPressFinger, bind.
  rewrite (IssueCommand_ack _ _ _ _ _ _ Hsend Hrecv Hlen Hvalid Hack).
  cbn [deref ret].
  eexists; split; [reflexivity|].
  intros pressed [= <-]. apply Z.eqb_eq.
Qed.

(** C8: once the open command, sent with a non-null [pInfo], has been
    ACKed, the next read asks for 30 bytes and is judged by its length
    alone.  Any other length gives [GT511_ERR_OTHER_ERROR] and leaves
    [*pInfo] untouched; any 30 bytes whatever (no condition on their
    start bytes, id or checksum) give [GT511_ERR_NONE], with bytes
    4..7, 8..11 and 12..27 copied into the firmware version, iso area
    size and serial number. *)
Theorem Open_info_checked_by_length_only
  (info : GT511_Info_t) (s : St W) (w1 w2 w3 : W) (resp data : list byte) :
  GT511_SendMessage env (command_frame GT511_CMD_OPEN (Some 1)) (world s)
    = (true, w1) ->
  GT511_ReceiveMessage env sizeof_Packet w1 = (resp, w2) ->
  length resp = sizeof_Packet ->
  IsValidResponse (frame_mem resp) = true ->
  pkt_command (frame_mem resp) = GT511_RESP_ACK ->
  GT511_ReceiveMessage env sizeof_mempool w2 = (data, w3) ->
  exists s',
    GT511_Open env (Some info) s
      = Some (if Nat.eqb (length data) sizeof_mempool
              then (GT511_ERR_NONE,
                    Some {| firmwareVersion := load32 (frame_mem data) 4;
                            isoAreaMaxSize := load32 (frame_mem data) 8;
                            serialNumber :=
                              load_bytes (frame_mem data) 12 16 |})
              else (GT511_ERR_OTHER_ERROR, Some info),
              s')
    /\ world s' = w3.
Proof.
  intros Hsend Hrecv Hlen Hvalid Hack Hdata.
  unfold GT511_Open, bind.
  rewrite (IssueCommand_ack _ _ _ _ _ _ Hsend Hrecv Hlen Hvalid Hack).
  cbn [failed GT511_ERR_NONE Z.eqb negb].
  unfold ReceiveMessage. cbn [world mempool trace].
  change (sizeof_DataPacket + sizeof_Info)%nat with sizeof_mempool.
  rewrite Hdata.
  destruct (Nat.eqb (length data) sizeof_mempool) eqn:L; cbn [negb].
  - apply Nat.eqb_eq in L. change sizeof_mempool with 30%nat in L.
    unfold read_mempool, ret, data_payload. cbn [mempool Nat.add].
    rewrite !received_load32, received_load_bytes by lia.
    eexists; split; reflexivity.
  - unfold ret. eexists; split; reflexivity.
Qed.

End TransactionClaims.


(** ** Logs *)

Lemma count_app (p : Event -> bool) (d1 d2 : list Event) :
  count p (d1 ++ d2) = (count p d1 + count p d2)%nat.
Proof. unfold count. rewrite filter_app, length_app. reflexivity. Qed.

Lemma led_after_app (d1 d2 : list Event) (lit : bool) :
  led_after lit (d1 ++ d2) = led_after (led_after lit d1) d2.
Proof.
  revert lit. induction d1 as [|e d1 IH]; intro lit; cbn [app led_after].
  - reflexivity.
  - apply IH.
Qed.

Lemma led_after_off (t : list Event) : forall lit,
  led_after lit t = false ->
  lit = false \/ exists e, In e t /\ is_led false e = true.
Proof.
  induction t as [|a t IH]; intros lit H; cbn [led_after] in H.
  - left. exact H.
  - destruct (is_led true a) eqn:On.
    + destruct (IH _ H) as [C | (e & Hin & He)]; [discriminate|].
      right. exists e. split; [right; exact Hin | exact He].
    + destruct (is_led false a) eqn:Off.
      * right. exists a. split; [left; reflexivity | exact Off].
      * destruct (IH _ H) as [C | (e & Hin & He)]; [left; exact C|].
        right. exists e. split; [right; exact Hin | exact He].
Qed.

Lemma led_after_switched_off (t : list Event) : forall lit,
  led_after lit t = false -> led_switched_off t.
Proof.
  induction t as [|a t IH]; intros lit H t1 e t2 Heq He.
  - destruct t1; discriminate Heq.
  - cbn [led_after] in H.
    destruct t1 as [|a' t1]; cbn [app] in Heq; injection Heq as <- ->.
    + rewrite He in H.
      destruct (led_after_off _ _ H) as [C | Hex]; [discriminate | exact Hex].
    + exact (IH _ H t1 e t2 eq_refl He).
Qed.

Lemma is_led_command_frame (on : bool) (command : Z) (pParameter : option Z) :
  is_led_frame on (command_frame command pParameter)
  = (uint16 command =? GT511_CMD_CMOS_LED)
    && (uint32 (deref pParameter) =? (if on then 1 else 0)).
Proof.
  unfold is_led_frame.
  rewrite command_frame_command, command_frame_parameter. reflexivity.
Qed.

Lemma sent_command_frame (command : Z) (pParameter : option Z) (ok : bool) :
  sent_command (EvSend (command_frame command pParameter) ok)
  = Some (uint16 command, uint32 (deref pParameter)).
Proof.
  cbn [sent_command].
  rewrite command_frame_command, command_frame_parameter. reflexivity.
Qed.

(** *** The log of one transaction *)

Section TransactionLog.
Variables (command : Z) (pParameter : option Z) (d : list Event).
Hypothesis Hd : transaction command pParameter d.

Lemma transaction_commands :
  commands_sent d = [(uint16 command, uint32 (deref pParameter))].
Proof.
  destruct Hd as [-> | (data & ->)]; cbn [commands_sent];
    rewrite sent_command_frame; reflexivity.
Qed.

Lemma transaction_count_led (on : bool) :
  count (is_led on) d
  = if is_led_frame on (command_frame command pParameter)
    then 1%nat else 0%nat.
Proof.
  destruct Hd as [-> | (data & ->)]; unfold count; cbn [filter is_led];
    destruct (is_led_frame on _); reflexivity.
Qed.

Lemma transaction_count_notification (ui : GT511_UserInfo_t) :
  count (is_notification ui) d = 0%nat.
Proof. destruct Hd as [-> | (data & ->)]; reflexivity. Qed.

Lemma transaction_led_after (lit : bool) :
  led_after lit d
  = if is_led_frame true (command_frame command pParameter) then true
    else if is_led_frame false (command_frame command pParameter)
         then false
         else lit.
Proof. destruct Hd as [-> | (data & ->)]; reflexivity. Qed.

Lemma transaction_first :
  exists ok rest, d = EvSend (command_frame command pParameter) ok :: rest.
Proof. destruct Hd as [-> | (data & ->)]; eauto. Qed.
End TransactionLog.

(** ** Running the driver step by step *)

Lemma bind_inv {W A B} (m : M W A) (k : A -> M W B) (s : St W) r :
  bind m k s = Some r ->
  exists a s1, m s = Some (a, s1) /\ k a s1 = Some r.
Proof.
  unfold bind. destruct (m s) as [[a s1]|]; [eauto | discriminate].
Qed.

Lemma ret_inv {W A} (a : A) (s : St W) r s' :
  ret a s = Some (r, s') -> r = a /\ s' = s.
Proof. unfold ret. intros [= <- <-]. split; reflexivity. Qed.

Section Steps.
Context {W : Type} (env : Env W).

Lemma UserCallback_log mode ui (s s' : St W) u :
  UserCallback env mode ui s = Some (u, s') ->
  trace s' = trace s ++ [EvCallback mode ui].
Proof. unfold UserCallback. intros [= _ <-]. reflexivity. Qed.

Lemma SetTimeout_log mode (s s' : St W) u :
  SetTimeout env mode s = Some (u, s') ->
  trace s' = trace s ++ [EvSetTimeout mode].
Proof. unfold SetTimeout. intros [= _ <-]. reflexivity. Qed.

Lemma CheckTimeout_log mode (s s' : St W) b :
  CheckTimeout env mode s = Some (b, s') ->
  trace s' = trace s ++ [EvCheckTimeout mode b].
Proof.
  unfold CheckTimeout.
  destruct (GT511_CheckTimeout env mode (world s)) as [x w].
  intros [= <- <-]. reflexivity.
Qed.

(** A one-command operation is a transaction whose parameter cell is
    dropped. *)
Lemma command_inv (command : Z) (pParameter : option Z) (s s' : St W) err :
  bind (IssueCommand env command pParameter)
       (fun x => let '(err, _) := x in ret err) s = Some (err, s') ->
  exists q, IssueCommand env command pParameter s = Some ((err, q), s').
Proof.
  intro H. apply bind_inv in H. destruct H as ([e q] & s1 & E & H).
  apply ret_inv in H. destruct H as [-> ->]. eauto.
Qed.

Lemma command_log (command : Z) (pParameter : option Z) (s s' : St W) err :
  bind (IssueCommand env command pParameter)
       (fun x => let '(err, _) := x in ret err) s = Some (err, s') ->
  exists d, trace s' = trace s ++ d /\ transaction command pParameter d.
Proof.
  intro H. apply command_inv in H. destruct H as (q & H).
  exact (IssueCommand_trace env _ _ _ _ _ H).
Qed.

Lemma command_total (command : Z) (pParameter : option Z) (s : St W) :
  exists err s',
    bind (IssueCommand env command pParameter)
         (fun x => let '(err, _) := x in ret err) s = Some (err, s').
Proof.
  destruct (IssueCommand_total env command pParameter s) as ([e q] & s' & E).
  unfold bind. rewrite E. unfold ret. eauto.
Qed.

Lemma CmosLed_log on (s s' : St W) err :
  GT511_CmosLed env on s = Some (err, s') ->
  exists d, trace s' = trace s ++ d
            /\ transaction GT511_CMD_CMOS_LED (Some (if on then 1 else 0)) d.
Proof. apply command_log. Qed.

Lemma CmosLed_total on (s : St W) :
  exists err s', GT511_CmosLed env on s = Some (err, s').
Proof. apply command_total. Qed.

Lemma CaptureFinger_log hq (s s' : St W) err :
  GT511_CaptureFinger env hq s = Some (err, s') ->
  exists d, trace s' = trace s ++ d
            /\ transaction GT511_CMD_CAPTURE_FINGER
                 (Some (if hq then 1 else 0)) d.
Proof. apply command_log. Qed.

Lemma Verify_log id (s s' : St W) err :
  GT511_Verify env id s = Some (err, s') ->
  exists d, trace s' = trace s ++ d
            /\ transaction GT511_CMD_VERIFY (Some id) d.
Proof. apply command_log. Qed.

Lemma EnrollStart_log id (s s' : St W) err :
  GT511_EnrollStart env id s = Some (err, s') ->
  exists d, trace s' = trace s ++ d
            /\ transaction GT511_CMD_ENROLL_START (Some id) d.
Proof. apply command_log. Qed.

Lemma CheckEnrolled_log id (s s' : St W) err :
  GT511_CheckEnrolled env id s = Some (err, s') ->
  exists d, trace s' = trace s ++ d
            /\ transaction GT511_CMD_CHECK_ENROLLED (Some id) d.
Proof. apply command_log. Qed.

Lemma Enroll1_log (s s' : St W) err :
  GT511_Enroll1 env s = Some (err, s') ->
  exists d, trace s' = trace s ++ d
            /\ transaction GT511_CMD_ENROLL1 None d.
Proof. apply command_log. Qed.

Lemma Enroll2_log (s s' : St W) err :
  GT511_Enroll2 env s = Some (err, s') ->
  exists d, trace s' = trace s ++ d
            /\ transaction GT511_CMD_ENROLL2 None d.
Proof. apply command_log. Qed.

Lemma Enroll3_log (s s' : St W) err :
  GT511_Enroll3 env s = Some (err, s') ->
  exists d, trace s' = trace s ++ d
            /\ transaction GT511_CMD_ENROLL3 None d.
Proof. apply command_log. Qed.

Lemma IsPressFinger_log p (s s' : St W) r :
  GT511_IsPressFinger env p s = Some (r, s') ->
  exists d, trace s' = trace s ++ d
            /\ transaction GT511_CMD_IS_PRESS_FINGER (Some 0) d.
Proof.
  intro H. apply bind_inv in H. destruct H as ([e q] & s1 & E & H).
  apply ret_inv in H. destruct H as [_ ->].
  exact (IssueCommand_trace env _ _ _ _ _ E).
Qed.

Lemma Identify_log p (s s' : St W) r :
  GT511_Identify env p s = Some (r, s') ->
  exists d, trace s' = trace s ++ d
            /\ transaction GT511_CMD_IDENTIFY (Some 0) d.
Proof.
  intro H. apply bind_inv in H. destruct H as ([e q] & s1 & E & H).
  apply ret_inv in H. destruct H as [_ ->].
  exact (IssueCommand_trace env _ _ _ _ _ E).
Qed.

End Steps.


Lemma commands_sent_app (d1 d2 : list Event) :
  commands_sent (d1 ++ d2) = commands_sent d1 ++ commands_sent d2.
Proof.
  induction d1 as [|e d1 IH]; cbn [app commands_sent].
  - reflexivity.
  - destruct (sent_command e); rewrite IH; reflexivity.
Qed.

Lemma count_led_commands (on : bool) (d : list Event) :
  count (is_led on) d
  = length (filter (fun c => (fst c =? GT511_CMD_CMOS_LED)
                             && (snd c =? (if on then 1 else 0)))
                   (commands_sent d)).
Proof.
  unfold count.
  induction d as [|e d IH]; [reflexivity|].
  destruct e; cbn [filter is_led commands_sent sent_command]; try exact IH.
  unfold is_led_frame. cbn [fst snd].
  destruct (_ && _); cbn [length]; rewrite IH; reflexivity.
Qed.

Lemma failed_false (err : GT511_Error_t) :
  failed err = false <-> err = GT511_ERR_NONE.
Proof.
  unfold failed. rewrite negb_false_iff. apply Z.eqb_eq.
Qed.

Lemma failed_true (err : GT511_Error_t) :
  failed err = true <-> err <> GT511_ERR_NONE.
Proof.
  unfold failed. rewrite negb_true_iff. apply Z.eqb_neq.
Qed.

(** ** The touch waiters *)

Section Waits.
Context {W : Type} (env : Env W).

Lemma wait_poll_log (mode : GT511_Mode_t) (isPressed : bool)
  (continue : bool -> bool)
  (again : bool -> M W GT511_Error_t) (s s' : St W) err :
  (forall b s1 e s2,
      again b s1 = Some (e, s2) ->
      exists d, trace s2 = trace s1 ++ d /\ wait_log e d) ->
  (timeout <- CheckTimeout env mode ;;
   if timeout
   then UserCallback env mode GT511_UI_TIMEOUT ;;
        ret GT511_ERR_OTHER_ERROR
   else
     '(err, p) <- GT511_IsPressFinger env (Some isPressed) ;;
     let isPressed := match p with Some b => b | None => isPressed end in
     if failed err
     then GT511_CmosLed env false ;;
          UserCallback env mode GT511_UI_ERROR ;;
          ret err
     else if continue isPressed
     then again isPressed
     else ret err)%drv s = Some (err, s') ->
  exists d, trace s' = trace s ++ d /\ wait_log err d.
Proof.
  intros IH H.
  apply bind_inv in H. destruct H as (timeout & s1 & E1 & H).
  apply CheckTimeout_log in E1.
  destruct timeout.
  - apply bind_inv in H. destruct H as (u & s2 & E2 & H).
    apply UserCallback_log in E2. apply ret_inv in H. destruct H as [-> ->].
    eexists. split.
    + rewrite E2, E1, <- app_assoc. reflexivity.
    + repeat split; reflexivity.
  - apply bind_inv in H. destruct H as ([e p] & s2 & E2 & H).
    apply IsPressFinger_log in E2. destruct E2 as (d2 & E2 & T2).
    destruct (failed e) eqn:F.
    + apply bind_inv in H. destruct H as (e3 & s3 & E3 & H).
      apply CmosLed_log in E3. destruct E3 as (d3 & E3 & T3).
      apply bind_inv in H. destruct H as (u & s4 & E4 & H).
      apply UserCallback_log in E4. apply ret_inv in H.
      destruct H as [-> ->].
      eexists. split.
      * rewrite E4, E3, E2, E1, <- !app_assoc. reflexivity.
      * apply failed_true in F.
        unfold wait_log. rewrite !count_app.
        rewrite (transaction_count_led _ _ _ T2),
          (transaction_count_led _ _ _ T3),
          !(transaction_count_notification _ _ _ T2),
          !(transaction_count_notification _ _ _ T3).
        repeat split; try reflexivity. intro C. contradiction.
    + cbv zeta in H. destruct (continue _).
      * apply IH in H. destruct H as (d3 & E3 & (L1 & L2 & L3 & L4)).
        eexists. split.
        -- rewrite E3, E2, E1, <- !app_assoc. reflexivity.
        -- unfold wait_log. rewrite !count_app.
           rewrite !(transaction_count_led _ _ _ T2),
             !(transaction_count_notification _ _ _ T2), L1, L2, L3.
           repeat split; try reflexivity.
           intro C. rewrite (L4 C). reflexivity.
      * apply ret_inv in H. destruct H as [-> ->].
        eexists. split.
        -- rewrite E2, E1, <- !app_assoc. reflexivity.
        -- unfold wait_log. rewrite !count_app.
           rewrite !(transaction_count_led _ _ _ T2),
             !(transaction_count_notification _ _ _ T2).
           repeat split; reflexivity.
Qed.

Lemma WaitFingerPress_loop_log (fuel : nat) (mode : GT511_Mode_t) :
  forall isPressed (s s' : St W) err,
    WaitFingerPress_loop env fuel mode isPressed s = Some (err, s') ->
    exists d, trace s' = trace s ++ d /\ wait_log err d.
Proof.
  induction fuel as [|fuel IH]; intros isPressed s s' err H.
  - discriminate H.
  - cbn [WaitFingerPress_loop] in H.
    exact (wait_poll_log mode isPressed negb
             (WaitFingerPress_loop env fuel mode) s s' err
             (fun b s1 e s2 => IH b s1 s2 e) H).
Qed.

Lemma WaitFingerRelease_loop_log (fuel : nat) (mode : GT511_Mode_t) :
  forall isPressed (s s' : St W) err,
    WaitFingerRelease_loop env fuel mode isPressed s = Some (err, s') ->
    exists d, trace s' = trace s ++ d /\ wait_log err d.
Proof.
  induction fuel as [|fuel IH]; intros isPressed s s' err H.
  - discriminate H.
  - cbn [WaitFingerRelease_loop] in H.
    exact (wait_poll_log mode isPressed (fun b => b)
             (WaitFingerRelease_loop env fuel mode) s s' err
             (fun b s1 e s2 => IH b s1 s2 e) H).
Qed.

Lemma wait_prologue_log (mode : GT511_Mode_t) (ui : GT511_UserInfo_t)
  (loop : M W GT511_Error_t) (s s' : St W) err :
  UserInfo_eqb GT511_UI_ACCEPT ui = false ->
  UserInfo_eqb GT511_UI_REJECT ui = false ->
  (forall s1 e s2,
      loop s1 = Some (e, s2) ->
      exists d, trace s2 = trace s1 ++ d /\ wait_log e d) ->
  (UserCallback env mode ui ;; SetTimeout env mode ;; loop)%drv s
    = Some (err, s') ->
  exists d, trace s' = trace s ++ d /\ wait_log err d.
Proof.
  intros Ha Hr IH H.
  apply bind_inv in H. destruct H as (u1 & s1 & E1 & H).
  apply UserCallback_log in E1.
  apply bind_inv in H. destruct H as (u2 & s2 & E2 & H).
  apply SetTimeout_log in E2.
  apply IH in H. destruct H as (d & E3 & (L1 & L2 & L3 & L4)).
  eexists. split.
  - rewrite E3, E2, E1, <- !app_assoc. reflexivity.
  - unfold wait_log. rewrite !count_app, L1, L2, L3.
    unfold count at 1 2 3 4 5 6 7 8.
    cbn [filter is_led is_notification length].
    rewrite Ha, Hr. cbn [length Nat.add].
    repeat split; try reflexivity.
    intro C. rewrite (L4 C). reflexivity.
Qed.

Lemma WaitFingerPress_log (fuel : nat) (mode : GT511_Mode_t)
  (s s' : St W) err :
  WaitFingerPress env fuel mode s = Some (err, s') ->
  exists d, trace s' = trace s ++ d /\ wait_log err d.
Proof.
  apply wait_prologue_log; try reflexivity.
  intros s1 e s2. apply WaitFingerPress_loop_log.
Qed.

Lemma WaitFingerRelease_log (fuel : nat) (mode : GT511_Mode_t)
  (s s' : St W) err :
  WaitFingerRelease env fuel mode s = Some (err, s') ->
  exists d, trace s' = trace s ++ d /\ wait_log err d.
Proof.
  apply wait_prologue_log; try reflexivity.
  intros s1 e s2. apply WaitFingerRelease_loop_log.
Qed.

(** C6: when the application's timeout check answers "expired" the
    first time it is polled, [WaitFingerPress] (given fuel for at least
    one poll) returns [GT511_ERR_OTHER_ERROR] after exactly four calls
    to the environment: the Press notification, the arming of the
    timeout, the one poll, and one Timeout notification.  Nothing is
    sent to the sensor: no press query and no illumination command. *)
Theorem WaitFingerPress_timeout_on_first_poll
  (fuel : nat) (mode : GT511_Mode_t) (s : St W) (w : W) :
  GT511_CheckTimeout env mode
    (GT511_SetTimeout env mode
       (GT511_UserCallback env mode GT511_UI_PRESS (world s)))
    = (true, w) ->
  exists s' t,
    WaitFingerPress env (S fuel) mode s = Some (GT511_ERR_OTHER_ERROR, s')
    /\ trace s' = trace s ++ t
    /\ t = [EvCallback mode GT511_UI_PRESS; EvSetTimeout mode;
            EvCheckTimeout mode true; EvCallback mode GT511_UI_TIMEOUT]
    /\ count (is_notification GT511_UI_TIMEOUT) t = 1%nat
    /\ count is_send t = 0%nat
    /\ count (is_led true) t = 0%nat
    /\ count (is_led false) t = 0%nat.
Proof.
  intro H.
  unfold WaitFingerPress, bind, UserCallback, SetTimeout.
  cbn [WaitFingerPress_loop bind].
  unfold bind, CheckTimeout. cbn [world mempool trace].
  rewrite H. unfold UserCallback, ret. cbn [world mempool trace].
  eexists. eexists. split; [reflexivity|].
  cbn [trace]. rewrite <- !app_assoc. cbn [app].
  repeat split; reflexivity.
Qed.

End Waits.


(** ** The slot allocator *)

Section SlotAllocator.
Context {W : Type} (env : Env W).

Lemma CheckEnrolled_run (i : Z) (s : St W) :
  exists err q s',
    IssueCommand env GT511_CMD_CHECK_ENROLLED (Some i) s
      = Some ((err, q), s')
    /\ GT511_CheckEnrolled env i s = Some (err, s').
Proof.
  destruct (IssueCommand_total env GT511_CMD_CHECK_ENROLLED (Some i) s)
    as ([err q] & s' & E).
  exists err, q, s'. split; [exact E|].
  unfold GT511_CheckEnrolled, bind. rewrite E. reflexivity.
Qed.

(** The scan relation leaves no choice: its outcome is a function of
    the environment and the starting state. *)
Lemma ascending_scan_deterministic (i : Z) (s : St W) (pId : option Z)
  r1 s1 r2 s2 :
  ascending_scan env i s pId r1 s1 ->
  ascending_scan env i s pId r2 s2 ->
  r1 = r2 /\ s1 = s2.
Proof.
  intro H1. revert r2 s2.
  induction H1 as [s pId | i s s' pId Hi E | i s s' err pId Hi E Hn Hu
                   | i s sa pId r s' Hi E Hrest IH];
    intros r2 s2 H2; inversion H2; subst;
    try (unfold GT511_NUM_SLOTS in *; lia);
    try (split; reflexivity);
    match goal with
    | E1 : ?x = Some (?a, ?t1), E2 : ?x = Some (?b, ?t2) |- _ =>
        let H := fresh in
        assert (H : a = b /\ t1 = t2)
          by (rewrite E1 in E2; injection E2; auto);
        destruct H; clear E2
    end;
    subst;
    try discriminate; try contradiction;
    try (split; reflexivity).
  apply IH. assumption.
Qed.

Lemma FindAvailable_loop_scan (n : nat) :
  forall (i : Z) (pId : option Z) (s : St W),
    0 <= i ->
    i + Z.of_nat n = GT511_NUM_SLOTS ->
    exists r s' d k,
      FindAvailable_loop env n i pId s = Some (r, s')
      /\ ascending_scan env i s pId r s'
      /\ trace s' = trace s ++ d
      /\ (k <= n)%nat
      /\ (n <> O -> k <> O)
      /\ commands_sent d
         = map (fun j => (GT511_CMD_CHECK_ENROLLED, i + Z.of_nat j))
               (seq 0 k)
      /\ (forall ui, count (is_notification ui) d = 0%nat).
Proof.
  induction n as [|n IH]; intros i pId s Hi Hn.
  - exists (GT511_ERR_INVALID_POS, pId), s, [], O.
    replace i with GT511_NUM_SLOTS by lia.
    repeat split; try reflexivity.
    + constructor.
    + rewrite app_nil_r. reflexivity.
    + intro C. exact C.
  - assert (Hr : 0 <= i < GT511_NUM_SLOTS) by lia.
    cbn [FindAvailable_loop].
    destruct (CheckEnrolled_run i s) as (err & q & s1 & E & EC).
    pose proof (IssueCommand_trace env _ _ _ _ _ E) as (d1 & T1 & X1).
    assert (C1 : commands_sent d1 = [(GT511_CMD_CHECK_ENROLLED, i)]).
    { rewrite (transaction_commands _ _ _ X1). cbn [deref].
      unfold uint32, GT511_NUM_SLOTS in *.
      rewrite Z.mod_small by lia. reflexivity. }
    unfold bind at 1. rewrite E.
    destruct (err =? GT511_ERR_IS_NOT_USED) eqn:Efree.
    + apply Z.eqb_eq in Efree. subst err.
      exists (GT511_ERR_NONE, Some i), s1, d1, 1%nat.
      repeat split; try reflexivity; try lia.
      * apply scan_free; assumption.
      * exact T1.
      * rewrite C1. cbn [seq map Z.of_nat]. rewrite Z.add_0_r. reflexivity.
      * intro ui. apply (transaction_count_notification _ _ _ X1).
    + apply Z.eqb_neq in Efree.
      destruct (failed err) eqn:F.
      * apply failed_true in F.
        exists (err, pId), s1, d1, 1%nat.
        repeat split; try reflexivity; try lia.
        -- apply scan_abort with (1 := Hr); assumption.
        -- exact T1.
        -- rewrite C1. cbn [seq map Z.of_nat]. rewrite Z.add_0_r.
           reflexivity.
        -- intro ui. apply (transaction_count_notification _ _ _ X1).
      * apply failed_false in F. subst err.
        destruct (IH (i + 1) pId s1 ltac:(lia) ltac:(lia))
          as (r & s' & d & k & Erun & Hscan & T & Hk & _ & C & N).
        exists r, s', (d1 ++ d), (S k).
        repeat split; try lia.
        -- exact Erun.
        -- apply scan_in_use with (s1 := s1); assumption.
        -- rewrite T, T1, app_assoc. reflexivity.
        -- rewrite commands_sent_app, C1, C.
           cbn [seq map app Z.of_nat]. rewrite Z.add_0_r. f_equal.
           rewrite <- seq_shift, map_map.
           apply map_ext. intro j. f_equal. lia.
        -- intro ui. rewrite count_app, N,
             (transaction_count_notification _ _ _ X1).
           reflexivity.
Qed.

(** C2: called with a non-null pointer, [GT511_FindAvailable] always
    returns, and what it returns is the outcome of the ascending scan
    from slot 0: the first slot whose check-enrolled result is
    [GT511_ERR_IS_NOT_USED] is stored and [GT511_ERR_NONE] returned; a
    check-enrolled result other than [GT511_ERR_NONE] and
    [GT511_ERR_IS_NOT_USED] ends the scan and is returned unchanged,
    the cell being left as it was; and when all 20 slots report
    [GT511_ERR_NONE] the result is [GT511_ERR_INVALID_POS].  The
    commands sent are check-enrolled for slots 0, 1, ..., k-1 in this
    order, for some 1 <= k <= 20. *)
Theorem FindAvailable_ascending_scan (old : Z) (s : St W) :
  exists r s' t k,
    GT511_FindAvailable env (Some old) s = Some (r, s')
    /\ ascending_scan env 0 s (Some old) r s'
    /\ trace s' = trace s ++ t
    /\ (1 <= k <= 20)%nat
    /\ commands_sent t
       = map (fun j => (GT511_CMD_CHECK_ENROLLED, Z.of_nat j)) (seq 0 k).
Proof.
  destruct (FindAvailable_loop_scan (Z.to_nat GT511_NUM_SLOTS) 0 (Some old) s
              ltac:(lia) ltac:(reflexivity))
    as (r & s' & d & k & Erun & Hscan & T & Hk & Hk0 & C & _).
  exists r, s', d, k.
  repeat split; try assumption.
  assert (k <> O) by (apply Hk0; discriminate). lia.
Qed.

Lemma FindAvailable_log (pId : option Z) (s s' : St W) r :
  GT511_FindAvailable env pId s = Some (r, s') ->
  exists d, trace s' = trace s ++ d
            /\ (forall on, count (is_led on) d = 0%nat)
            /\ (forall ui, count (is_notification ui) d = 0%nat).
Proof.
  destruct pId as [old|]; cbn [GT511_FindAvailable].
  - destruct (FindAvailable_loop_scan (Z.to_nat GT511_NUM_SLOTS) 0
                (Some old) s ltac:(lia) ltac:(reflexivity))
      as (r0 & s0 & d & k & Erun & _ & T & _ & _ & C & N).
    rewrite Erun. intros [= <- <-].
    exists d. repeat split; try assumption.
    intro on. rewrite count_led_commands, C.
    clear. induction (seq 0 k) as [|j l IH]; [reflexivity|].
    cbn [map filter]. exact IH.
  - intro H. apply ret_inv in H. destruct H as [_ ->].
    exists []. rewrite app_nil_r. repeat split; reflexivity.
Qed.

End SlotAllocator.


(** ** The workflows *)

Lemma transaction_not_led (command : Z) (pParameter : option Z)
  (d : list Event) (on : bool) :
  transaction command pParameter d ->
  uint16 command <> GT511_CMD_CMOS_LED ->
  count (is_led on) d = 0%nat.
Proof.
  intros T H. rewrite (transaction_count_led _ _ _ T), is_led_command_frame.
  apply Z.eqb_neq in H. rewrite H. reflexivity.
Qed.

Lemma transaction_led (on on' : bool) (d : list Event) :
  transaction GT511_CMD_CMOS_LED (Some (if on then 1 else 0)) d ->
  count (is_led on') d = if Bool.eqb on on' then 1%nat else 0%nat.
Proof.
  intro T. rewrite (transaction_count_led _ _ _ T).
  destruct on, on'; reflexivity.
Qed.

Lemma transaction_led_off_after (d : list Event) (lit : bool) :
  transaction GT511_CMD_CMOS_LED (Some 0) d ->
  led_after lit d = false.
Proof. intro T. rewrite (transaction_led_after _ _ _ T). reflexivity. Qed.


Section WorkflowClaims.
Context {W : Type} (env : Env W).


(** C10: in [GT511_RunIdentify], once the identify operation has
    returned [GT511_ERR_NONE] with the matched id, the id is in [*pId]
    whatever the release wait then does: if the release wait returns
    an error, the function returns that error and [*pId] holds the
    matched id, not its previous value. *)
Theorem RunIdentify_id_stored_before_release
  (fuel : nat) (old id : Z) (s s1 s2 s3 s4 s5 : St W)
  (err : GT511_Error_t) :
  GT511_CmosLed env true s = Some (GT511_ERR_NONE, s1) ->
  WaitFingerPress env fuel GT511_MODE_IDENTIFY s1
    = Some (GT511_ERR_NONE, s2) ->
  GT511_CaptureFinger env false s2 = Some (GT511_ERR_NONE, s3) ->
  GT511_Identify env (Some 0) s3 = Some ((GT511_ERR_NONE, Some id), s4) ->
  WaitFingerRelease env fuel GT511_MODE_IDENTIFY s4 = Some (err, s5) ->
  err <> GT511_ERR_NONE ->
  exists s',
    GT511_RunIdentify env fuel (Some old) s = Some ((err, Some id), s').
Proof.
  intros Hled Hpress Hcap Hid Hrel Hne.
  destruct (CmosLed_total env false s5) as (eoff & s6 & Hoff).
  apply failed_true in Hne.
  exists s6.
  unfold GT511_RunIdentify.
  unfold bind at 1. rewrite Hled.
  change (failed GT511_ERR_NONE) with false. cbv iota.
  unfold bind at 1. rewrite Hpress.
  change (failed GT511_ERR_NONE) with false. cbv iota.
  unfold bind at 1. rewrite Hcap.
  change (failed GT511_ERR_NONE) with false. cbv iota.
  unfold bind at 1. rewrite Hid.
  change (failed GT511_ERR_NONE) with false. cbv iota beta zeta.
  unfold bind at 1. rewrite Hrel, Hne.
  unfold bind. rewrite Hoff. reflexivity.
Qed.

Lemma EnrollStep_log (step : Z) (s s' : St W) err :
  EnrollStep env step s = Some (err, s') ->
  exists d, trace s' = trace s ++ d
            /\ (forall on, count (is_led on) d = 0%nat)
            /\ (forall ui, count (is_notification ui) d = 0%nat).
Proof.
  unfold EnrollStep. intro H.
  destruct (step =? 0); [|destruct (step =? 1)];
    [apply Enroll1_log in H | apply Enroll2_log in H
     | apply Enroll3_log in H];
    destruct H as (d & T & X); exists d; (split; [exact T|]); split;
    try (intro on; apply (transaction_not_led _ _ _ _ X); discriminate);
    intro ui; apply (transaction_count_notification _ _ _ X).
Qed.

Lemma enroll_iteration_log (fuel : nat) (step : Z) (s s' : St W) :
  enroll_iteration_succeeds env fuel step s s' ->
  exists d, trace s' = trace s ++ d
            /\ count (is_led true) d = 1%nat
            /\ count (is_led false) d = 1%nat
            /\ count (is_notification GT511_UI_ACCEPT) d = 0%nat.
Proof.
  intros (s1 & s2 & s3 & s4 & s5 & eoff & H1 & H2 & H3 & H4 & H5 & H6).
  apply CmosLed_log in H1. destruct H1 as (d1 & T1 & X1).
  apply WaitFingerPress_log in H2.
  destruct H2 as (d2 & T2 & (A2 & B2 & _ & C2)).
  apply CaptureFinger_log in H3. destruct H3 as (d3 & T3 & X3).
  apply EnrollStep_log in H4. destruct H4 as (d4 & T4 & A4 & B4).
  apply WaitFingerRelease_log in H5.
  destruct H5 as (d5 & T5 & (A5 & B5 & _ & C5)).
  apply CmosLed_log in H6. destruct H6 as (d6 & T6 & X6).
  exists (d1 ++ d2 ++ d3 ++ d4 ++ d5 ++ d6). split.
  - rewrite T6, T5, T4, T3, T2, T1, <- !app_assoc. reflexivity.
  - rewrite !count_app.
    rewrite !(transaction_led true _ _ X1), !(transaction_led false _ _ X6).
    rewrite !(transaction_not_led _ _ _ _ X3) by discriminate.
    rewrite !A4, B4, A2, B2, A5, B5, (C2 eq_refl), (C5 eq_refl).
    rewrite (transaction_count_notification _ _ _ X1),
      (transaction_count_notification _ _ _ X3),
      (transaction_count_notification _ _ _ X6).
    repeat split; reflexivity.
Qed.

Lemma enroll_iteration_run (fuel : nat) (n : nat) (step : Z)
  (s s' : St W) :
  enroll_iteration_succeeds env fuel step s s' ->
  RunEnroll_loop env fuel (S n) step s
  = RunEnroll_loop env fuel n (step + 1) s'.
Proof.
  intros (s1 & s2 & s3 & s4 & s5 & eoff & H1 & H2 & H3 & H4 & H5 & H6).
  cbn [RunEnroll_loop].
  unfold bind at 1. rewrite H1.
  change (failed GT511_ERR_NONE) with false. cbv iota.
  unfold bind at 1. rewrite H2.
  change (failed GT511_ERR_NONE) with false. cbv iota.
  unfold bind at 1. rewrite H3.
  change (failed GT511_ERR_NONE) with false. cbv iota.
  unfold bind at 1. rewrite H4.
  change (failed GT511_ERR_NONE) with false. cbv iota.
  unfold bind at 1. rewrite H5.
  change (failed GT511_ERR_NONE) with false. cbv iota.
  unfold bind at 1. rewrite H6. reflexivity.
Qed.

(** C5: in an execution of [GT511_RunEnroll] where the slot allocator
    returns slot [slot], enroll-start succeeds, and each of the three
    iterations succeeds in all its checked steps, the function returns
    [GT511_ERR_NONE] with [*pId = slot]; its log contains exactly one
    Accept notification, exactly three illumination-on commands and
    exactly three illumination-off commands. *)
Theorem RunEnroll_success
  (fuel : nat) (old slot : Z) (s s1 s2 s3 s4 s5 : St W) :
  GT511_FindAvailable env (Some old) s
    = Some ((GT511_ERR_NONE, Some slot), s1) ->
  GT511_EnrollStart env slot s1 = Some (GT511_ERR_NONE, s2) ->
  enroll_iteration_succeeds env fuel 0 s2 s3 ->
  enroll_iteration_succeeds env fuel 1 s3 s4 ->
  enroll_iteration_succeeds env fuel 2 s4 s5 ->
  exists s' t,
    GT511_RunEnroll env fuel (Some old) s
      = Some ((GT511_ERR_NONE, Some slot), s')
    /\ trace s' = trace s ++ t
    /\ count (is_notification GT511_UI_ACCEPT) t = 1%nat
    /\ count (is_led true) t = 3%nat
    /\ count (is_led false) t = 3%nat.
Proof.
  intros Hfind Hstart I0 I1 I2.
  pose proof (FindAvailable_log env _ _ _ _ Hfind) as (d0 & T0 & A0 & B0).
  pose proof (EnrollStart_log env _ _ _ _ Hstart) as (d1 & T1 & X1).
  pose proof (enroll_iteration_log _ _ _ _ I0) as (d2 & T2 & A2 & B2 & C2).
  pose proof (enroll_iteration_log _ _ _ _ I1) as (d3 & T3 & A3 & B3 & C3).
  pose proof (enroll_iteration_log _ _ _ _ I2) as (d4 & T4 & A4 & B4 & C4).
  eexists. eexists. split; [|split].
  - unfold GT511_RunEnroll.
    unfold bind at 1. rewrite Hfind.
    change (failed GT511_ERR_NONE) with false. cbv iota beta.
    unfold bind at 1. cbn [deref]. rewrite Hstart.
    change (failed GT511_ERR_NONE) with false. cbv iota.
    unfold bind at 1.
    rewrite (enroll_iteration_run fuel 2 0 _ _ I0).
    rewrite (enroll_iteration_run fuel 1 (0 + 1) _ _ I1).
    rewrite (enroll_iteration_run fuel 0 (0 + 1 + 1) _ _ I2).
    cbn [RunEnroll_loop]. unfold bind, UserCallback, ret. reflexivity.
  - cbn [trace].
    rewrite T4, T3, T2, T1, T0, <- !app_assoc. reflexivity.
  - rewrite !count_app.
    rewrite !A0, B0, A2, B2, C2, A3, B3, C3, A4, B4, C4.
    rewrite !(transaction_not_led _ _ _ _ X1) by discriminate.
    rewrite (transaction_count_notification _ _ _ X1).
    repeat split; reflexivity.
Qed.

End WorkflowClaims.


(** ** Illumination is switched off on every exit path *)

Lemma led_after_neutral (d : list Event) (lit : bool) :
  count (is_led true) d = 0%nat ->
  count (is_led false) d = 0%nat ->
  led_after lit d = lit.
Proof.
  revert lit. induction d as [|e d IH]; intros lit H1 H0; [reflexivity|].
  unfold count in H1, H0. cbn [filter led_after] in *.
  destruct (is_led true e); [discriminate H1|].
  destruct (is_led false e); [discriminate H0|].
  apply IH; assumption.
Qed.

Ltac log_of m E :=
  let d := fresh "d" in
  let T := fresh "T" in
  let X := fresh "X" in
  lazymatch m with
  | UserCallback _ _ _ => apply UserCallback_log in E
  | GT511_CmosLed _ _ => apply CmosLed_log in E; destruct E as (d & T & X)
  | WaitFingerPress _ _ _ =>
      apply WaitFingerPress_log in E; destruct E as (d & T & X)
  | WaitFingerRelease _ _ _ =>
      apply WaitFingerRelease_log in E; destruct E as (d & T & X)
  | GT511_CaptureFinger _ _ =>
      apply CaptureFinger_log in E; destruct E as (d & T & X)
  | GT511_Identify _ _ => apply Identify_log in E; destruct E as (d & T & X)
  | GT511_Verify _ _ => apply Verify_log in E; destruct E as (d & T & X)
  | GT511_EnrollStart _ _ =>
      apply EnrollStart_log in E; destruct E as (d & T & X)
  | EnrollStep _ _ => apply EnrollStep_log in E; destruct E as (d & T & X)
  | GT511_FindAvailable _ _ =>
      apply FindAvailable_log in E; destruct E as (d & T & X)
  | _ => idtac
  end.

Ltac run_step H :=
  lazymatch type of H with
  | bind ?m _ _ = Some _ =>
      let a := fresh "a" in
      let s := fresh "s" in
      let E := fresh "E" in
      apply bind_inv in H; destruct H as (a & s & E & H);
      log_of m E; cbv beta in H
  | ret _ _ = Some _ =>
      let Hs := fresh "Hs" in
      apply ret_inv in H; destruct H as [? Hs]; subst
  | (if failed ?e then _ else _) _ = Some _ =>
      let F := fresh "F" in destruct (failed e) eqn:F
  | (let '(_, _) := ?p in _) _ = Some _ => destruct p
  end.

Ltac run_all H := repeat (run_step H).

Ltac chain_logs :=
  repeat match goal with
         | T : trace ?x = _ |- context [trace ?x] => rewrite T; clear T
         end;
  rewrite <- ?app_assoc; reflexivity.

Ltac led_off_last :=
  rewrite ?app_assoc; rewrite ?led_after_app;
  cbn [led_after is_led];
  rewrite ?led_after_app;
  solve [ eauto using transaction_led_off_after ].

Section IlluminationOff.
Context {W : Type} (env : Env W).

Lemma RunIdentify_led (fuel : nat) (pId : option Z) (s s' : St W) r :
  GT511_RunIdentify env fuel pId s = Some (r, s') ->
  exists t, trace s' = trace s ++ t /\ led_after false t = false.
Proof.
  intro H. unfold GT511_RunIdentify in H.
  run_all H.
  all: eexists; (split; [chain_logs|]).
  all: led_off_last.
Qed.

Lemma RunVerify_led (fuel : nat) (id : Z) (s s' : St W) r :
  GT511_RunVerify env fuel id s = Some (r, s') ->
  exists t, trace s' = trace s ++ t /\ led_after false t = false.
Proof.
  intro H. unfold GT511_RunVerify in H.
  run_all H.
  all: eexists; (split; [chain_logs|]).
  all: led_off_last.
Qed.

Lemma RunEnroll_loop_led (fuel n : nat) :
  forall (step : Z) (s s' : St W) r,
    RunEnroll_loop env fuel n step s = Some (r, s') ->
    exists t, trace s' = trace s ++ t /\ led_after false t = false.
Proof.
  induction n as [|n IH]; intros step s s' r H; cbn [RunEnroll_loop] in H.
  - run_all H. eexists; split; [chain_logs | reflexivity].
  - run_all H.
    all: try (apply IH in H; destruct H as (trec & Trec & Lrec)).
    all: eexists; (split; [chain_logs|]).
    all: first
           [ led_off_last
           | rewrite !app_assoc, led_after_app;
             rewrite ?led_after_app;
             match goal with
             | X : transaction GT511_CMD_CMOS_LED (Some 0) ?d |- _ =>
                 rewrite (transaction_led_off_after d _ X)
             end;
             exact Lrec ].
Qed.

Lemma RunEnroll_led (fuel : nat) (pId : option Z) (s s' : St W) r :
  GT511_RunEnroll env fuel pId s = Some (r, s') ->
  exists t, trace s' = trace s ++ t /\ led_after false t = false.
Proof.
  intro H. unfold GT511_RunEnroll in H.
  destruct pId as [old|].
  - run_all H.
    all: try match goal with
             | E : RunEnroll_loop _ _ _ _ _ = Some _ |- _ =>
                 apply RunEnroll_loop_led in E;
                 destruct E as (trec & Trec & Lrec)
             end.
    all: eexists; (split; [chain_logs|]).
    all: rewrite ?led_after_app.
    all: match goal with
         | A : (forall on, count (is_led on) ?d = 0%nat) /\ _ |- _ =>
             rewrite (led_after_neutral d) by apply A
         end.
    all: try match goal with
             | X : transaction GT511_CMD_ENROLL_START _ ?d |- _ =>
                 rewrite (transaction_led_after _ _ _ X),
                   !is_led_command_frame
             end.
    all: first [reflexivity | exact Lrec].
  - run_all H. exists []. rewrite app_nil_r. split; reflexivity.
Qed.

Lemma workflow_led (wf : Workflow) (fuel : nat) (s s' : St W) r :
  run_workflow env wf fuel s = Some (r, s') ->
  exists t, trace s' = trace s ++ t /\ led_switched_off t.
Proof.
  intro H.
  assert (exists t, trace s' = trace s ++ t /\ led_after false t = false)
    as (t & T & L).
  { destruct wf as [pId | id | pId]; cbn [run_workflow] in H.
    - exact (RunIdentify_led _ _ _ _ _ H).
    - apply bind_inv in H. destruct H as (e & s1 & E & H).
      apply ret_inv in H. destruct H as [_ ->].
      exact (RunVerify_led _ _ _ _ _ E).
    - exact (RunEnroll_led _ _ _ _ _ H). }
  exists t. split; [exact T|].
  exact (led_after_switched_off _ _ L).
Qed.

End IlluminationOff.


(** ** The result of illumination-off is never used *)

Create HintDb sim discriminated.

Section Simulation.
Context {W : Type}.

Lemma simulates_ret {A} (R : A -> A -> Prop) (a a' : A) :
  R a a' -> simulates (W := W) R (ret a) (ret a').
Proof. intros H s s' Hw. split; assumption. Qed.

Lemma simulates_bind {A B} (R : A -> A -> Prop) (Q : B -> B -> Prop)
  (m m' : M W A) (k k' : A -> M W B) :
  simulates R m m' ->
  (forall a a', R a a' -> simulates Q (k a) (k' a')) ->
  simulates Q (bind m k) (bind m' k').
Proof.
  intros Hm Hk s s' Hw. unfold bind.
  specialize (Hm s s' Hw). unfold same_outcome in Hm.
  destruct (m s) as [[a t]|], (m' s') as [[a' t']|];
    try contradiction; [|exact I].
  destruct Hm as [Ha Ht]. exact (Hk a a' Ha t t' Ht).
Qed.

Lemma simulates_weaken {A} (R : A -> A -> Prop) (m m' : M W A) :
  simulates R m m' -> simulates any m m'.
Proof.
  intros H s s' Hw. specialize (H s s' Hw). unfold same_outcome in *.
  destruct (m s) as [[a t]|], (m' s') as [[a' t']|]; try assumption.
  split; [exact I | apply H].
Qed.

Variable env : Env W.
Local Abbreviation env' := (LedOffFails env).

Lemma simulates_IssueCommand (command : Z) (pParameter : option Z) :
  is_led_frame false (command_frame command pParameter) = false ->
  simulates eq (IssueCommand env command pParameter)
               (IssueCommand env' command pParameter).
Proof.
  intros H s s' Hw. rewrite !IssueCommand_run. cbv zeta.
  cbn [LedOffFails GT511_SendMessage GT511_ReceiveMessage].
  rewrite H, Hw.
  destruct (GT511_SendMessage env _ (world s')) as [[|] w1].
  - destruct (GT511_ReceiveMessage env sizeof_Packet w1) as [data w2].
    split; reflexivity.
  - split; reflexivity.
Qed.

Lemma simulates_command (command : Z) (pParameter : option Z) :
  is_led_frame false (command_frame command pParameter) = false ->
  simulates eq
    (bind (IssueCommand env command pParameter)
          (fun x => let '(err, _) := x in ret err))
    (bind (IssueCommand env' command pParameter)
          (fun x => let '(err, _) := x in ret err)).
Proof.
  intro H. apply simulates_bind with (R := eq).
  - apply simulates_IssueCommand. exact H.
  - intros [e q] a' <-. apply simulates_ret. reflexivity.
Qed.

Lemma simulates_CmosLed_on :
  simulates eq (GT511_CmosLed env true) (GT511_CmosLed env' true).
Proof. apply simulates_command. reflexivity. Qed.

(** The one place where the two runs see different results. *)
Lemma simulates_CmosLed_off :
  simulates any (GT511_CmosLed env false) (GT511_CmosLed env' false).
Proof.
  intros s s' Hw. unfold GT511_CmosLed, bind.
  rewrite !IssueCommand_run. cbv zeta.
  cbn [LedOffFails GT511_SendMessage GT511_ReceiveMessage].
  change (is_led_frame false (command_frame GT511_CMD_CMOS_LED (Some 0)))
    with true.
  cbv iota. rewrite Hw.
  destruct (GT511_SendMessage env _ (world s')) as [[|] w1].
  - destruct (GT511_ReceiveMessage env sizeof_Packet w1) as [data w2].
    cbn [snd]. destruct (response_result (Some 0) data).
    split; [exact I | reflexivity].
  - split; [exact I | reflexivity].
Qed.

Lemma simulates_CaptureFinger hq :
  simulates eq (GT511_CaptureFinger env hq) (GT511_CaptureFinger env' hq).
Proof.
  apply simulates_command. rewrite is_led_command_frame. reflexivity.
Qed.

Lemma simulates_Verify id :
  simulates eq (GT511_Verify env id) (GT511_Verify env' id).
Proof.
  apply simulates_command. rewrite is_led_command_frame. reflexivity.
Qed.

Lemma simulates_EnrollStart id :
  simulates eq (GT511_EnrollStart env id) (GT511_EnrollStart env' id).
Proof.
  apply simulates_command. rewrite is_led_command_frame. reflexivity.
Qed.

Lemma simulates_EnrollStep step :
  simulates eq (EnrollStep env step) (EnrollStep env' step).
Proof.
  unfold EnrollStep.
  destruct (step =? 0); [|destruct (step =? 1)];
    apply simulates_command; reflexivity.
Qed.

Lemma simulates_IsPressFinger p :
  simulates eq (GT511_IsPressFinger env p) (GT511_IsPressFinger env' p).
Proof.
  apply simulates_bind with (R := eq).
  - apply simulates_IssueCommand. reflexivity.
  - intros [e q] a' <-. apply simulates_ret. reflexivity.
Qed.

Lemma simulates_Identify p :
  simulates eq (GT511_Identify env p) (GT511_Identify env' p).
Proof.
  apply simulates_bind with (R := eq).
  - apply simulates_IssueCommand. reflexivity.
  - intros [e q] a' <-. apply simulates_ret. reflexivity.
Qed.

Lemma simulates_UserCallback mode ui :
  simulates eq (UserCallback env mode ui) (UserCallback env' mode ui).
Proof.
  intros s s' Hw. unfold UserCallback. cbn. rewrite Hw.
  split; reflexivity.
Qed.

Lemma simulates_SetTimeout mode :
  simulates eq (SetTimeout env mode) (SetTimeout env' mode).
Proof.
  intros s s' Hw. unfold SetTimeout. cbn. rewrite Hw. split; reflexivity.
Qed.

Lemma simulates_CheckTimeout mode :
  simulates eq (CheckTimeout env mode) (CheckTimeout env' mode).
Proof.
  intros s s' Hw. unfold CheckTimeout.
  cbn [LedOffFails GT511_CheckTimeout]. rewrite Hw.
  destruct (GT511_CheckTimeout env mode (world s')) as [b w].
  split; reflexivity.
Qed.

#[local] Hint Resolve simulates_CmosLed_on simulates_CaptureFinger
  simulates_Verify simulates_EnrollStart simulates_EnrollStep
  simulates_IsPressFinger simulates_Identify simulates_UserCallback
  simulates_SetTimeout simulates_CheckTimeout : sim.

Ltac sim_step :=
  lazymatch goal with
  | |- simulates _ (ret _) (ret _) => apply simulates_ret; reflexivity
  | |- simulates _ (bind (GT511_CmosLed _ false) _) _ =>
      apply simulates_bind with (R := any);
      [apply simulates_CmosLed_off | intros ? ? _]
  | |- simulates _ (bind _ _) _ =>
      apply simulates_bind with (R := eq);
      [solve [auto 1 with sim nocore] | intros ? ? <-]
  | |- simulates _ (if ?b then _ else _) _ => destruct b
  | |- simulates _ (let '(_, _) := ?p in _) _ => destruct p
  | |- simulates _ (match ?p with Some _ => _ | None => _ end) _ =>
      destruct p
  | |- simulates _ _ _ => solve [auto 1 with sim nocore]
  end.

Ltac sim_flow := repeat sim_step.

Lemma simulates_WaitFingerPress_loop (fuel : nat) (mode : GT511_Mode_t) :
  forall isPressed,
    simulates eq (WaitFingerPress_loop env fuel mode isPressed)
                 (WaitFingerPress_loop env' fuel mode isPressed).
Proof.
  induction fuel as [|fuel IH]; intro isPressed;
    cbn [WaitFingerPress_loop].
  - intros s s' Hw. exact I.
  - sim_flow.
Qed.

Lemma simulates_WaitFingerRelease_loop (fuel : nat) (mode : GT511_Mode_t) :
  forall isPressed,
    simulates eq (WaitFingerRelease_loop env fuel mode isPressed)
                 (WaitFingerRelease_loop env' fuel mode isPressed).
Proof.
  induction fuel as [|fuel IH]; intro isPressed;
    cbn [WaitFingerRelease_loop].
  - intros s s' Hw. exact I.
  - sim_flow.
Qed.

Lemma simulates_WaitFingerPress (fuel : nat) (mode : GT511_Mode_t) :
  simulates eq (WaitFingerPress env fuel mode)
               (WaitFingerPress env' fuel mode).
Proof.
  unfold WaitFingerPress. sim_flow.
  apply simulates_WaitFingerPress_loop.
Qed.

Lemma simulates_WaitFingerRelease (fuel : nat) (mode : GT511_Mode_t) :
  simulates eq (WaitFingerRelease env fuel mode)
               (WaitFingerRelease env' fuel mode).
Proof.
  unfold WaitFingerRelease. sim_flow.
  apply simulates_WaitFingerRelease_loop.
Qed.

Lemma simulates_FindAvailable_loop (n : nat) :
  forall i pId,
    simulates eq (FindAvailable_loop env n i pId)
                 (FindAvailable_loop env' n i pId).
Proof.
  induction n as [|n IH]; intros i pId; cbn [FindAvailable_loop].
  - sim_step.
  - apply simulates_bind with (R := eq).
    + apply simulates_IssueCommand. rewrite is_led_command_frame.
      reflexivity.
    + intros [e q] a' <-. sim_flow.
Qed.

Lemma simulates_FindAvailable pId :
  simulates eq (GT511_FindAvailable env pId) (GT511_FindAvailable env' pId).
Proof.
  unfold GT511_FindAvailable. destruct pId.
  - apply simulates_FindAvailable_loop.
  - sim_step.
Qed.

#[local] Hint Resolve simulates_WaitFingerPress simulates_WaitFingerRelease
  simulates_FindAvailable : sim.

Lemma simulates_RunIdentify (fuel : nat) (pId : option Z) :
  simulates eq (GT511_RunIdentify env fuel pId)
               (GT511_RunIdentify env' fuel pId).
Proof. unfold GT511_RunIdentify. sim_flow. Qed.

Lemma simulates_RunVerify (fuel : nat) (id : Z) :
  simulates eq (GT511_RunVerify env fuel id)
               (GT511_RunVerify env' fuel id).
Proof. unfold GT511_RunVerify. sim_flow. Qed.

Lemma simulates_RunEnroll_loop (fuel n : nat) :
  forall step,
    simulates eq (RunEnroll_loop env fuel n step)
                 (RunEnroll_loop env' fuel n step).
Proof.
  induction n as [|n IH]; intro step; cbn [RunEnroll_loop]; sim_flow.
Qed.

Lemma simulates_RunEnroll (fuel : nat) (pId : option Z) :
  simulates eq (GT511_RunEnroll env fuel pId)
               (GT511_RunEnroll env' fuel pId).
Proof.
  pose proof (simulates_RunEnroll_loop fuel 3 0) as Hloop.
  unfold GT511_RunEnroll. destruct pId; sim_flow.
Qed.

Lemma simulates_workflow (wf : Workflow) (fuel : nat) :
  simulates eq (run_workflow env wf fuel) (run_workflow env' wf fuel).
Proof.
  destruct wf as [pId | id | pId]; cbn [run_workflow].
  - apply simulates_RunIdentify.
  - apply simulates_bind with (R := eq);
      [apply simulates_RunVerify | intros ? ? <-; sim_step].
  - apply simulates_RunEnroll.
Qed.

(** C4: in every execution of [GT511_RunIdentify], [GT511_RunVerify]
    and [GT511_RunEnroll] that returns, every illumination-on command
    that was issued is followed, before the return, by an
    illumination-off command; and the value returned by the
    illumination-off calls is never used: on a link where every
    illumination-off command fails, the workflow returns the same
    error code and the same output, and leaves the world in the same
    state. *)
Theorem workflow_illumination_off
  (wf : Workflow) (fuel : nat) (s s' : St W) (r : GT511_Error_t * option Z) :
  run_workflow env wf fuel s = Some (r, s') ->
  (exists t, trace s' = trace s ++ t /\ led_switched_off t)
  /\ (exists s'',
         run_workflow (LedOffFails env) wf fuel s = Some (r, s'')
         /\ world s'' = world s').
Proof.
  intro H. split.
  - exact (workflow_led env wf fuel s s' r H).
  - pose proof (simulates_workflow wf fuel s s eq_refl) as S.
    rewrite H in S. unfold same_outcome in S.
    destruct (run_workflow (LedOffFails env) wf fuel s) as [[r' s'']|];
      [|contradiction].
    destruct S as [<- Hw]. exists s''. split; [reflexivity | symmetry; exact Hw].
Qed.

End Simulation.


(** ** Runs on the simulated sensor *)



(** With a timeout that has already expired, the press wait gives up at
    its first poll. *)
Lemma WaitFingerPress_timeout_on_first_poll_witness :
  exists s' t,
    WaitFingerPress Sim.env 1 GT511_MODE_IDENTIFY
      (Sim.boot Sim.sensor_timed_out) = Some (GT511_ERR_OTHER_ERROR, s')
    /\ trace s' = trace (Sim.boot Sim.sensor_timed_out) ++ t
    /\ t = [EvCallback GT511_MODE_IDENTIFY GT511_UI_PRESS;
            EvSetTimeout GT511_MODE_IDENTIFY;
            EvCheckTimeout GT511_MODE_IDENTIFY true;
            EvCallback GT511_MODE_IDENTIFY GT511_UI_TIMEOUT]
    /\ count (is_notification GT511_UI_TIMEOUT) t = 1%nat
    /\ count is_send t = 0%nat
    /\ count (is_led true) t = 0%nat
    /\ count (is_led false) t = 0%nat.
Proof.
  apply (WaitFingerPress_timeout_on_first_poll Sim.env 0 GT511_MODE_IDENTIFY
           (Sim.boot Sim.sensor_timed_out) Sim.sensor).
  vm_compute. reflexivity.
Defined.

(** A finger on the sensor: the response parameter is 0 and the flag
    stored is [true]. *)
Lemma IsPressFinger_negates_parameter_witness :
  exists s',
    GT511_IsPressFinger Sim.env (Some false) (Sim.boot Sim.sensor_pressed)
    = Some ((GT511_ERR_NONE, Some true), s').
Proof.
  destruct (IsPressFinger_negates_parameter Sim.env false
              (Sim.boot Sim.sensor_pressed)
              (snd (GT511_SendMessage Sim.env
                      (command_frame GT511_CMD_IS_PRESS_FINGER (Some 0))
                      Sim.sensor_pressed))
              (snd (GT511_ReceiveMessage Sim.env sizeof_Packet
                      (snd (GT511_SendMessage Sim.env
                              (command_frame GT511_CMD_IS_PRESS_FINGER
                                 (Some 0))
                              Sim.sensor_pressed))))
              (Sim.ack 0))
    as (s' & Hrun & _).
  - vm_compute. reflexivity.
  - vm_compute. reflexivity.
  - vm_compute. reflexivity.
  - vm_compute. reflexivity.
  - vm_compute. reflexivity.
  - exists s'. exact Hrun.
Defined.

(** A device-info packet that starts with 0x01 0x02 instead of 0x55 0xAA
    is accepted and its bytes 4..27 are copied out. *)
Lemma Open_info_checked_by_length_only_witness :
  exists s',
    GT511_Open Sim.env
      (Some {| firmwareVersion := 0; isoAreaMaxSize := 0;
               serialNumber := [] |})
      (Sim.boot Sim.sensor_odd_info)
    = Some ((GT511_ERR_NONE,
             Some {| firmwareVersion := 0x08070605;
                     isoAreaMaxSize := 0x0c0b0a09;
                     serialNumber :=
                       map (fun n => byte_of (Z.of_nat n)) (seq 13 16) |}),
            s')
    /\ pkt_start1 (frame_mem (Sim.info_frame Sim.sensor_odd_info)) = 0x01
    /\ pkt_start2 (frame_mem (Sim.info_frame Sim.sensor_odd_info)) = 0x02.
Proof.
  destruct (Open_info_checked_by_length_only Sim.env
              {| firmwareVersion := 0; isoAreaMaxSize := 0;
                 serialNumber := [] |}
              (Sim.boot Sim.sensor_odd_info)
              (snd (GT511_SendMessage Sim.env
                      (command_frame GT511_CMD_OPEN (Some 1))
                      Sim.sensor_odd_info))
              (Sim.queue [Sim.info_frame Sim.sensor_odd_info]
                 Sim.sensor_odd_info)
              Sim.sensor_odd_info
              (Sim.ack 0) (Sim.info_frame Sim.sensor_odd_info))
    as (s' & Hrun & _).
  - vm_compute. reflexivity.
  - vm_compute. reflexivity.
  - vm_compute. reflexivity.
  - vm_compute. reflexivity.
  - vm_compute. reflexivity.
  - vm_compute. reflexivity.
  - exists s'. split; [|split; vm_compute; reflexivity].
    rewrite Hrun. reflexivity.
Defined.



(** The finger is never lifted: the release wait times out, and [*pId],
    7 before the call, holds the matched id 1. *)
Lemma RunIdentify_id_stored_before_release_witness :
  exists s',
    GT511_RunIdentify Sim.env 4 (Some 7) (Sim.boot Sim.sensor_no_release)
    = Some ((GT511_ERR_OTHER_ERROR, Some 1), s').
Proof.
  eapply (RunIdentify_id_stored_before_release Sim.env 4 7 1
            (Sim.boot Sim.sensor_no_release)).
  - vm_compute. reflexivity.
  - vm_compute. reflexivity.
  - vm_compute. reflexivity.
  - vm_compute. reflexivity.
  - vm_compute. reflexivity.
  - discriminate.
Defined.

(** A complete enrollment on the simulated sensor, into slot 2. *)
Lemma RunEnroll_success_witness :
  exists s' t,
    GT511_RunEnroll Sim.env 4 (Some 99) (Sim.boot Sim.sensor)
      = Some ((GT511_ERR_NONE, Some 2), s')
    /\ trace s' = trace (Sim.boot Sim.sensor) ++ t
    /\ count (is_notification GT511_UI_ACCEPT) t = 1%nat
    /\ count (is_led true) t = 3%nat
    /\ count (is_led false) t = 3%nat.
Proof.
  eapply (RunEnroll_success Sim.env 4 99 2 (Sim.boot Sim.sensor)).
  - vm_compute. reflexivity.
  - vm_compute. reflexivity.
  - do 6 eexists.
    repeat (lazymatch goal with |- _ /\ _ => split end;
            [vm_compute; reflexivity|]).
    vm_compute. reflexivity.
  - do 6 eexists.
    repeat (lazymatch goal with |- _ /\ _ => split end;
            [vm_compute; reflexivity|]).
    vm_compute. reflexivity.
  - do 6 eexists.
    repeat (lazymatch goal with |- _ /\ _ => split end;
            [vm_compute; reflexivity|]).
    vm_compute. reflexivity.
Defined.

(** The failed identification, on the plain link and on the link where
    illumination-off fails. *)
Lemma workflow_illumination_off_witness :
  exists s',
    run_workflow Sim.env (Identify (Some 7)) 4 (Sim.boot Sim.sensor_no_match)
      = Some ((GT511_ERR_IDENTIFY_FAILED, Some 7), s')
    /\ (exists t, trace s' = trace (Sim.boot Sim.sensor_no_match) ++ t
                  /\ led_switched_off t)
    /\ (exists s'',
           run_workflow (LedOffFails Sim.env) (Identify (Some 7)) 4
             (Sim.boot Sim.sensor_no_match)
           = Some ((GT511_ERR_IDENTIFY_FAILED, Some 7), s'')
           /\ world s'' = world s').
Proof.
  eexists. split.
  - vm_compute. reflexivity.
  - eapply (workflow_illumination_off Sim.env (Identify (Some 7)) 4
              (Sim.boot Sim.sensor_no_match)).
    vm_compute. reflexivity.
Defined.

(** The slot allocator on the simulated sensor: slots used, used, free,
    used give index 2 after probing 0, 1, 2; twenty used slots give
    [GT511_ERR_INVALID_POS] after probing all of them. *)
Example FindAvailable_first_free :
  option_map (fun r => (fst r, commands_sent (snd r)))
    (Sim.observe (GT511_FindAvailable Sim.env (Some 99)
                    (Sim.boot Sim.sensor)))
  = Some ((GT511_ERR_NONE, Some 2),
          [(GT511_CMD_CHECK_ENROLLED, 0); (GT511_CMD_CHECK_ENROLLED, 1);
           (GT511_CMD_CHECK_ENROLLED, 2)]).
Proof. vm_compute. reflexivity. Qed.

Example FindAvailable_all_used :
  option_map (fun r => (fst r, length (commands_sent (snd r))))
    (Sim.observe (GT511_FindAvailable Sim.env (Some 99)
                    (Sim.boot Sim.sensor_full)))
  = Some ((GT511_ERR_INVALID_POS, Some 99), 20%nat).
Proof. vm_compute. reflexivity. Qed.


(* ================================================================== *)
(** * Further properties of the driver *)

(** ** The checksum *)

Lemma Checksum_loop_mod (l : list byte) : forall sum,
  Checksum_loop l sum mod 65536 = (sum + byte_sum l) mod 65536.
Proof.
  induction l as [|b l IH]; intro sum; cbn [Checksum_loop byte_sum fold_right].
  - rewrite Z.add_0_r. reflexivity.
  - rewrite IH. fold (byte_sum l). unfold uint32.
    rewrite Z.add_mod by lia.
    rewrite (Z.mod_mod_divide (sum + byte_val b) 4294967296 65536)
      by (exists 65536; reflexivity).
    rewrite <- Z.add_mod by lia.
    f_equal. lia.
Qed.

Lemma Checksum_is_byte_sum_aux (pBuf : mem) (length : nat) :
  Checksum pBuf length = byte_sum (load_bytes pBuf 0 length) mod 65536.
Proof.
  unfold Checksum, uint16. rewrite Checksum_loop_mod. reflexivity.
Qed.

(** The checksum of a buffer of any length is the sum of its bytes
    modulo 65536: the wrap-around of the 32-bit accumulator never shows
    in the 16-bit result. *)
Theorem Checksum_is_byte_sum (pBuf : mem) (length : nat) :
  Checksum pBuf length = byte_sum (load_bytes pBuf 0 length) mod 65536.
Proof. apply Checksum_is_byte_sum_aux. Qed.

Lemma byte_val_inj (a b : byte) : byte_val a = byte_val b -> a = b.
Proof.
  intro H. rewrite <- (byte_of_val a), <- (byte_of_val b), H. reflexivity.
Qed.

Lemma Checksum_header (p : mem) :
  Checksum p (sizeof_Packet - 2)
  = byte_val (p 0%nat) + byte_val (p 1%nat) + byte_val (p 2%nat)
    + byte_val (p 3%nat) + byte_val (p 4%nat) + byte_val (p 5%nat)
    + byte_val (p 6%nat) + byte_val (p 7%nat) + byte_val (p 8%nat)
    + byte_val (p 9%nat).
Proof.
  rewrite Checksum_is_byte_sum_aux.
  cbn [sizeof_Packet Nat.sub load_bytes seq map byte_sum fold_right].
  pose proof (byte_val_range (p 0%nat)). pose proof (byte_val_range (p 1%nat)).
  pose proof (byte_val_range (p 2%nat)). pose proof (byte_val_range (p 3%nat)).
  pose proof (byte_val_range (p 4%nat)). pose proof (byte_val_range (p 5%nat)).
  pose proof (byte_val_range (p 6%nat)). pose proof (byte_val_range (p 7%nat)).
  pose proof (byte_val_range (p 8%nat)). pose proof (byte_val_range (p 9%nat)).
  rewrite Z.mod_small by lia. lia.
Qed.

(** ** Corrupted responses *)

Lemma valid_checksum (p : mem) :
  IsValidResponse p = true ->
  Checksum p (sizeof_Packet - 2) = pkt_checksum p.
Proof.
  unfold IsValidResponse. cbv zeta.
  destruct (Checksum p (sizeof_Packet - 2) =? pkt_checksum p) eqn:E;
    [|discriminate].
  intros _. apply Z.eqb_eq. exact E.
Qed.

Lemma bad_checksum (p : mem) :
  Checksum p (sizeof_Packet - 2) <> pkt_checksum p ->
  IsValidResponse p = false.
Proof.
  intro H. unfold IsValidResponse. cbv zeta.
  apply Z.eqb_neq in H. rewrite H. reflexivity.
Qed.

(** Changing any single byte of a valid response frame, whichever of
    its twelve bytes and whatever the new value, makes [IsValidResponse]
    reject it. *)
Theorem single_byte_corruption_rejected (p : mem) (i : nat) (b : byte) :
  IsValidResponse p = true ->
  (i < sizeof_Packet)%nat ->
  b <> p i ->
  IsValidResponse (corrupt p i b) = false.
Proof.
  intros Hvalid Hi Hb.
  apply valid_checksum in Hvalid.
  apply bad_checksum.
  rewrite Checksum_header in *.
  assert (Hv : byte_val b <> byte_val (p i))
    by (intro C; apply Hb; apply byte_val_inj; exact C).
  unfold pkt_checksum, load16, load8 in *.
  change (10 + 1)%nat with 11%nat in *.
  pose proof (byte_val_range b).
  pose proof (byte_val_range (p 0%nat)). pose proof (byte_val_range (p 1%nat)).
  pose proof (byte_val_range (p 2%nat)). pose proof (byte_val_range (p 3%nat)).
  pose proof (byte_val_range (p 4%nat)). pose proof (byte_val_range (p 5%nat)).
  pose proof (byte_val_range (p 6%nat)). pose proof (byte_val_range (p 7%nat)).
  pose proof (byte_val_range (p 8%nat)). pose proof (byte_val_range (p 9%nat)).
  pose proof (byte_val_range (p 10%nat)).
  pose proof (byte_val_range (p 11%nat)).
  unfold sizeof_Packet in Hi.
  do 12 (destruct i as [|i];
         [unfold corrupt; cbn [Nat.eqb Nat.add]; lia|]).
  lia.
Qed.

(** A valid ACK for the identify command with match 1, and the same
    frame with its parameter byte changed from 1 to 2. *)
Lemma single_byte_corruption_rejected_witness :
  IsValidResponse (frame_mem (Sim.ack 1)) = true
  /\ IsValidResponse (corrupt (frame_mem (Sim.ack 1)) 4 (byte_of 2)) = false.
Proof.
  split.
  - vm_compute. reflexivity.
  - apply (single_byte_corruption_rejected (frame_mem (Sim.ack 1)) 4
             (byte_of 2)).
    + vm_compute. reflexivity.
    + vm_compute. lia.
    + vm_compute. discriminate.
Defined.

(** ** Error names *)

Ltac split_codes err :=
  repeat match goal with
         | |- context [?c =? err] =>
             let E := fresh "E" in
             destruct (Z.eqb_spec c err) as [E|E]; [try subst err|]
         end.

(** [GT511_ErrorString] gives the name UNKNOWN exactly for the codes that
    are not enumerators of [GT511_Error_t]. *)
Theorem ErrorString_unknown (err : GT511_Error_t) :
  GT511_ErrorString err = "UNKNOWN"%string <-> ~ In err named_errors.
Proof.
  unfold GT511_ErrorString, errorStringTable, named_errors.
  cbn [ErrorString_loop In].
  split.
  - intros H Hin.
    repeat (destruct Hin as [<- | Hin]; [vm_compute in H; discriminate H|]).
    exact Hin.
  - intro H. split_codes err;
      try (exfalso; apply H; tauto); reflexivity.
Qed.

(** The code 0x2222 has no name. *)
Lemma ErrorString_unknown_witness :
  GT511_ErrorString 0x2222 = "UNKNOWN"%string.
Proof.
  apply (proj2 (ErrorString_unknown 0x2222)).
  unfold named_errors. cbn [In].
  intros [H|[H|[H|[H|[H|[H|[H|[H|[H|[H|[H|[H|[H|[H|[H|[H|[H|[H|[H|[H|[]]]]]]]]]]]]]]]]]]]]];
    discriminate H.
Defined.

(** No two error codes share a name: when [a] is an enumerator and [b]
    any code with the same name, [b] is [a]. *)
Theorem ErrorString_injective (a b : GT511_Error_t) :
  In a named_errors ->
  GT511_ErrorString a = GT511_ErrorString b ->
  a = b.
Proof.
  unfold named_errors. cbn [In]. intros Hin H.
  repeat (destruct Hin as [<- | Hin];
          [ unfold GT511_ErrorString, errorStringTable in H;
            cbn [ErrorString_loop] in H;
            match type of H with
            | ?l = _ => let v := eval vm_compute in l in change l with v in H
            end;
            revert H; split_codes b; intro H;
            try reflexivity; try discriminate H | ]).
  contradiction.
Qed.

(** The code 0x1000 + 9 has the name of [GT511_ERR_DB_IS_FULL]. *)
Lemma ErrorString_injective_witness :
  GT511_ERR_DB_IS_FULL = 0x1000 + 9.
Proof.
  apply (ErrorString_injective GT511_ERR_DB_IS_FULL (0x1000 + 9)).
  - unfold named_errors. cbn [In]. tauto.
  - vm_compute. reflexivity.
Defined.

(** ** Failed and successful transactions *)

Section TransactionEdges.
Context {W : Type} (env : Env W).

(** When [GT511_SendMessage] reports a failure, [IssueCommand] returns
    [GT511_ERR_OTHER_ERROR] at once: the failed send is its only call to
    the environment (nothing is read), and the caller's parameter cell
    keeps its value. *)
Theorem IssueCommand_send_failure
  (command : Z) (pParameter : option Z) (s : St W) (w1 : W) :
  GT511_SendMessage env (command_frame command pParameter) (world s)
    = (false, w1) ->
  exists s',
    IssueCommand env command pParameter s
      = Some ((GT511_ERR_OTHER_ERROR, pParameter), s')
    /\ world s' = w1
    /\ trace s' = trace s ++ [EvSend (command_frame command pParameter) false].
Proof.
  intro Hsend. rewrite IssueCommand_run. cbv zeta. rewrite Hsend.
  eexists. repeat split.
Qed.

(** When the bytes read as the response are not twelve, or are twelve
    bytes that [IsValidResponse] rejects, [IssueCommand] returns
    [GT511_ERR_OTHER_ERROR] and the caller's parameter cell keeps its
    value, whatever the bytes say. *)
Theorem IssueCommand_bad_response
  (command : Z) (pParameter : option Z) (s : St W) (w1 w2 : W)
  (data : list byte) :
  GT511_SendMessage env (command_frame command pParameter) (world s)
    = (true, w1) ->
  GT511_ReceiveMessage env sizeof_Packet w1 = (data, w2) ->
  length data <> sizeof_Packet \/ IsValidResponse (frame_mem data) = false ->
  exists s',
    IssueCommand env command pParameter s
      = Some ((GT511_ERR_OTHER_ERROR, pParameter), s')
    /\ world s' = w2.
Proof.
  intros Hsend Hrecv Hbad. rewrite IssueCommand_run. cbv zeta.
  rewrite Hsend, Hrecv. unfold response_result.
  destruct (Nat.eqb_spec (length data) sizeof_Packet) as [L|L]; cbn [negb].
  - destruct Hbad as [C|Hv]; [contradiction|]. rewrite Hv. cbn [negb].
    eexists. split; reflexivity.
  - eexists. split; reflexivity.
Qed.

Lemma response_result_cell (pParameter : option Z) (data : list byte) :
  (fst (response_result pParameter data) <> GT511_ERR_NONE ->
   snd (response_result pParameter data) = pParameter)
  /\ (pParameter = None -> snd (response_result pParameter data) = None)
  /\ 0 <= fst (response_result pParameter data) < 4294967296.
Proof.
  unfold response_result.
  assert (R : 0 <= pkt_parameter (frame_mem data) < 4294967296).
  { unfold pkt_parameter, load32, load16, load8.
    pose proof (byte_val_range (frame_mem data 4%nat)).
    pose proof (byte_val_range (frame_mem data (4 + 1)%nat)).
    pose proof (byte_val_range (frame_mem data (4 + 2)%nat)).
    pose proof (byte_val_range (frame_mem data (4 + 2 + 1)%nat)).
    lia. }
  destruct (negb (Nat.eqb (length data) sizeof_Packet));
    [|cbv zeta; destruct (negb (IsValidResponse (frame_mem data)));
      [|destruct (pkt_command (frame_mem data) =? GT511_RESP_NACK)]];
    cbn [fst snd]; (split; [|split]);
    try (intro H; reflexivity || (exfalso; apply H; reflexivity));
    try (intros ->; reflexivity);
    try exact R;
    unfold GT511_ERR_OTHER_ERROR, GT511_ERR_NONE; lia.
Qed.

Lemma IssueCommand_result_cell
  (command : Z) (pParameter : option Z) (s s' : St W)
  (err : GT511_Error_t) (cell : option Z) :
  IssueCommand env command pParameter s = Some ((err, cell), s') ->
  (err <> GT511_ERR_NONE -> cell = pParameter)
  /\ (pParameter = None -> cell = None)
  /\ 0 <= err < 4294967296.
Proof.
  rewrite IssueCommand_run. cbv zeta.
  destruct (GT511_SendMessage env _ (world s)) as [[|] w1].
  - destruct (GT511_ReceiveMessage env sizeof_Packet w1) as [data w2].
    intros [= Hr _].
    pose proof (response_result_cell pParameter data) as H.
    rewrite Hr in H. exact H.
  - intros [= <- <- _].
    split; [|split]; try (intros; (reflexivity || assumption)).
    unfold GT511_ERR_OTHER_ERROR. lia.
Qed.

(** Whatever the environment does, [IssueCommand] changes the caller's
    parameter cell only when it returns [GT511_ERR_NONE]: with any other
    result the cell holds what it held before.  A NULL pointer stays
    NULL, and the result is always a 32-bit value. *)
Theorem IssueCommand_error_keeps_parameter
  (command : Z) (pParameter : option Z) (s s' : St W)
  (err : GT511_Error_t) (cell : option Z) :
  IssueCommand env command pParameter s = Some ((err, cell), s') ->
  (err <> GT511_ERR_NONE -> cell = pParameter)
  /\ (pParameter = None -> cell = None)
  /\ 0 <= err < 4294967296.
Proof. apply IssueCommand_result_cell. Qed.

(** A valid ACK makes [IssueCommand] return [GT511_ERR_NONE] and write
    the 32-bit parameter of the response into the caller's cell when
    there is one. *)
Theorem IssueCommand_ack_writes_back
  (command old : Z) (s : St W) (w1 w2 : W) (data : list byte) :
  GT511_SendMessage env (command_frame command (Some old)) (world s)
    = (true, w1) ->
  GT511_ReceiveMessage env sizeof_Packet w1 = (data, w2) ->
  length data = sizeof_Packet ->
  IsValidResponse (frame_mem data) = true ->
  pkt_command (frame_mem data) = GT511_RESP_ACK ->
  exists s',
    IssueCommand env command (Some old) s
      = Some ((GT511_ERR_NONE, Some (pkt_parameter (frame_mem data))), s')
    /\ world s' = w2
    /\ trace s' = trace s
                  ++ [EvSend (command_frame command (Some old)) true;
                      EvReceive sizeof_Packet data].
Proof.
  intros Hsend Hrecv Hlen Hvalid Hack.
  rewrite (IssueCommand_ack env _ _ _ _ _ _ Hsend Hrecv Hlen Hvalid Hack).
  eexists. repeat split.
Qed.

(** Nothing leaks from one transaction to the next through the shared
    [mempool]: started in the same world with different buffer contents,
    [IssueCommand] returns the same result, leaves the same world and
    makes the same calls. *)
Theorem IssueCommand_ignores_stale_buffer
  (command : Z) (pParameter : option Z) (s1 s2 : St W) :
  world s1 = world s2 ->
  exists r t1 t2 d,
    IssueCommand env command pParameter s1 = Some (r, t1)
    /\ IssueCommand env command pParameter s2 = Some (r, t2)
    /\ world t1 = world t2
    /\ trace t1 = trace s1 ++ d
    /\ trace t2 = trace s2 ++ d.
Proof.
  intro Hw. rewrite !IssueCommand_run. cbv zeta. rewrite Hw.
  destruct (GT511_SendMessage env _ (world s2)) as [[|] w1].
  - destruct (GT511_ReceiveMessage env sizeof_Packet w1) as [data w2].
    do 4 eexists. repeat split.
  - do 4 eexists. repeat split.
Qed.

End TransactionEdges.

(** ** The one-command operations *)

Section Operations.
Context {W : Type} (env : Env W).

(** Each one-command operation always returns, after exactly one frame
    handed to [GT511_SendMessage]: the frame carries the command code of
    the operation and its argument as parameter (1 or 0 for a flag, 0
    when the operation has no argument).  It makes no notification and
    touches no timeout. *)
Theorem operation_is_one_transaction (op : Operation) (s : St W) :
  exists err s' d,
    run_operation env op s = Some (err, s')
    /\ trace s' = trace s ++ d
    /\ commands_sent d = [(operation_command op, operation_parameter op)]
    /\ count is_send d = 1%nat
    /\ (count is_receive d <= 1)%nat
    /\ forallb (fun e => is_send e || is_receive e) d = true.
Proof.
  assert (G : forall c p,
             uint16 c = c ->
             exists err s' d,
               bind (IssueCommand env c p)
                    (fun x => let '(err, _) := x in ret err) s
                 = Some (err, s')
               /\ trace s' = trace s ++ d
               /\ commands_sent d = [(c, uint32 (deref p))]
               /\ count is_send d = 1%nat
               /\ (count is_receive d <= 1)%nat
               /\ forallb (fun e => is_send e || is_receive e) d = true).
  { intros c p Hc.
    destruct (command_total env c p s) as (err & s' & E).
    destruct (command_log env c p s s' err E) as (d & T & X).
    exists err, s', d. split; [exact E|]. split; [exact T|].
    split; [rewrite (transaction_commands _ _ _ X), Hc; reflexivity|].
    destruct X as [-> | (data & ->)];
      (split; [reflexivity|]); (split; [|reflexivity]);
      unfold count; cbn [filter is_receive length]; lia. }
  destruct op as [ | on | hq | id | | | | | id | id | id ];
    cbn [run_operation operation_command operation_parameter].
  - apply (G GT511_CMD_CLOSE None). reflexivity.
  - destruct on.
    + apply (G GT511_CMD_CMOS_LED (Some 1)). reflexivity.
    + apply (G GT511_CMD_CMOS_LED (Some 0)). reflexivity.
  - destruct hq.
    + apply (G GT511_CMD_CAPTURE_FINGER (Some 1)). reflexivity.
    + apply (G GT511_CMD_CAPTURE_FINGER (Some 0)). reflexivity.
  - apply (G GT511_CMD_ENROLL_START (Some id)). reflexivity.
  - apply (G GT511_CMD_ENROLL1 None). reflexivity.
  - apply (G GT511_CMD_ENROLL2 None). reflexivity.
  - apply (G GT511_CMD_ENROLL3 None). reflexivity.
  - apply (G GT511_CMD_DELETE_ALL None). reflexivity.
  - apply (G GT511_CMD_DELETE_ID (Some id)). reflexivity.
  - apply (G GT511_CMD_CHECK_ENROLLED (Some id)). reflexivity.
  - apply (G GT511_CMD_VERIFY (Some id)). reflexivity.
Qed.

(** When its transaction fails, [GT511_IsPressFinger] still stores a
    flag, and the flag says "pressed": the local parameter keeps its
    initial 0, and the flag is its negation. *)
Theorem IsPressFinger_failure_reports_pressed
  (old : bool) (s s' : St W) (err : GT511_Error_t) (flag : option bool) :
  GT511_IsPressFinger env (Some old) s = Some ((err, flag), s') ->
  err <> GT511_ERR_NONE ->
  flag = Some true.
Proof.
  intros H Hne. apply bind_inv in H. destruct H as ([e q] & s1 & E & H).
  apply ret_inv in H. destruct H as [Hr ->].
  injection Hr as Herr Hflag. subst err flag.
  destruct (IssueCommand_result_cell env _ _ _ _ _ _ E) as (Hc & _ & _).
  rewrite (Hc Hne). reflexivity.
Qed.

(** When their transaction fails, [GT511_Identify] and
    [GT511_GetEnrollCount] still write through a non-null pointer, and
    what they write is 0, the initial value of their local parameter. *)
Theorem failed_query_stores_zero
  (old : Z) (s s' : St W) (err : GT511_Error_t) (cell : option Z) :
  err <> GT511_ERR_NONE ->
  (GT511_Identify env (Some old) s = Some ((err, cell), s') ->
   cell = Some 0)
  /\ (GT511_GetEnrollCount env (Some old) s = Some ((err, cell), s') ->
      cell = Some 0).
Proof.
  intro Hne. split; intro H;
    apply bind_inv in H; destruct H as ([e q] & s1 & E & H);
    apply ret_inv in H; destruct H as [Hr ->];
    injection Hr as Herr Hcell; subst err cell;
    destruct (IssueCommand_result_cell env _ _ _ _ _ _ E) as (Hc & _ & _);
    rewrite (Hc Hne); reflexivity.
Qed.

(** On success a query hands back the response parameter: when the
    get-enroll-count command is answered by a valid ACK,
    [GT511_GetEnrollCount] returns [GT511_ERR_NONE] and stores the
    parameter of the response. *)
Theorem GetEnrollCount_ack
  (old : Z) (s : St W) (w1 w2 : W) (data : list byte) :
  GT511_SendMessage env
    (command_frame GT511_CMD_GET_ENROLL_COUNT (Some 0)) (world s)
    = (true, w1) ->
  GT511_ReceiveMessage env sizeof_Packet w1 = (data, w2) ->
  length data = sizeof_Packet ->
  IsValidResponse (frame_mem data) = true ->
  pkt_command (frame_mem data) = GT511_RESP_ACK ->
  exists s',
    GT511_GetEnrollCount env (Some old) s
    = Some ((GT511_ERR_NONE, Some (pkt_parameter (frame_mem data))), s').
Proof.
  intros Hsend Hrecv Hlen Hvalid Hack.
  unfold GT511_GetEnrollCount, bind.
  rewrite (IssueCommand_ack env _ _ _ _ _ _ Hsend Hrecv Hlen Hvalid Hack).
  eexists. reflexivity.
Qed.

(** ** Opening the sensor *)

(** Called with a NULL [pInfo], [GT511_Open] is one transaction of the
    open command with parameter 0 and nothing more: it returns what the
    transaction returns and never reads a device-info packet. *)
Theorem Open_without_info (s : St W) :
  exists err cell s' d,
    IssueCommand env GT511_CMD_OPEN (Some 0) s = Some ((err, cell), s')
    /\ GT511_Open env None s = Some ((err, None), s')
    /\ trace s' = trace s ++ d
    /\ transaction GT511_CMD_OPEN (Some 0) d.
Proof.
  destruct (IssueCommand_total env GT511_CMD_OPEN (Some 0) s)
    as ([err cell] & s' & E).
  destruct (IssueCommand_trace env _ _ _ _ _ E) as (d & T & X).
  exists err, cell, s', d. repeat split; try assumption.
  unfold GT511_Open, bind. rewrite E.
  destruct (failed err) eqn:F; [reflexivity|].
  apply failed_false in F. subst err. reflexivity.
Qed.

(** Called with a non-null [pInfo], [GT511_Open] leaves [*pInfo] as it
    was whenever it returns an error; and when it is the open command
    itself that fails, the function stops there: the device-info packet
    is not read. *)
Theorem Open_failure_keeps_info
  (info : GT511_Info_t) (s s' : St W) (err : GT511_Error_t)
  (out : option GT511_Info_t) :
  GT511_Open env (Some info) s = Some ((err, out), s') ->
  err <> GT511_ERR_NONE ->
  out = Some info
  /\ (forall e cell s1,
         IssueCommand env GT511_CMD_OPEN (Some 1) s = Some ((e, cell), s1) ->
         e <> GT511_ERR_NONE ->
         err = e /\ s' = s1).
Proof.
  intros H Hne.
  apply bind_inv in H. destruct H as ([e q] & s1 & E & H).
  destruct (failed e) eqn:F.
  - apply ret_inv in H. destruct H as [Hr ->].
    injection Hr as Herr Hout. subst err out.
    split; [reflexivity|].
    intros e' cell s2 E'. rewrite E in E'. injection E' as He _ Hs.
    intros _. split; [exact He | exact Hs].
  - apply failed_false in F. subst e.
    apply bind_inv in H. destruct H as (n & s2 & E2 & H).
    destruct (negb (Nat.eqb n (sizeof_DataPacket + sizeof_Info))).
    + apply ret_inv in H. destruct H as [Hr ->].
      injection Hr as Herr Hout. subst err out.
      split; [reflexivity|].
      intros e' cell s3 E'. rewrite E in E'. injection E' as He _ _.
      intro C. exfalso. apply C. symmetry. exact He.
    + apply bind_inv in H. destruct H as (m & s3 & E3 & H).
      apply ret_inv in H. destruct H as [Hr _].
      injection Hr as Herr _.
      exfalso. apply Hne. exact Herr.
Qed.

End Operations.

(** ** The touch waits, poll by poll *)

Lemma forallb_app_true {A} (f : A -> bool) (l1 l2 : list A) :
  forallb f l1 = true -> forallb f l2 = true -> forallb f (l1 ++ l2) = true.
Proof. intros H1 H2. rewrite forallb_app, H1, H2. reflexivity. Qed.

Lemma transaction_link_only (command : Z) (pParameter : option Z)
  (d : list Event) :
  transaction command pParameter d -> link_only d.
Proof. intros [-> | (data & ->)]; reflexivity. Qed.

Lemma link_only_in_mode (mode : GT511_Mode_t) (d : list Event) :
  link_only d -> forallb (in_mode mode) d = true.
Proof.
  unfold link_only. induction d as [|e d IH]; [reflexivity|].
  cbn [forallb]. intro H. apply andb_prop in H. destruct H as [He Hd].
  rewrite (IH Hd). destruct e; try discriminate He; reflexivity.
Qed.

Lemma link_only_count (p : Event -> bool) (d : list Event) :
  (forall e, is_send e || is_receive e = true -> p e = false) ->
  link_only d -> count p d = 0%nat.
Proof.
  intro Hp. unfold link_only, count.
  induction d as [|e d IH]; [reflexivity|].
  cbn [forallb filter]. intro H. apply andb_prop in H.
  destruct H as [He Hd]. rewrite (Hp e He). exact (IH Hd).
Qed.

Lemma transaction_count_command (command : Z) (pParameter : option Z)
  (d : list Event) (c : Z) :
  transaction command pParameter d ->
  count (is_command c) d = if uint16 command =? c then 1%nat else 0%nat.
Proof.
  intros [-> | (data & ->)]; unfold count; cbn [filter is_command];
    rewrite command_frame_command; destruct (uint16 command =? c);
    reflexivity.
Qed.

Lemma transaction_count_send (command : Z) (pParameter : option Z)
  (d : list Event) :
  transaction command pParameter d -> count is_send d = 1%nat.
Proof. intros [-> | (data & ->)]; reflexivity. Qed.

Lemma transaction_count_other (command : Z) (pParameter : option Z)
  (d : list Event) (p : Event -> bool) :
  (forall e, is_send e || is_receive e = true -> p e = false) ->
  transaction command pParameter d -> count p d = 0%nat.
Proof.
  intros Hp X. apply link_only_count; [exact Hp|].
  exact (transaction_link_only _ _ _ X).
Qed.

Lemma transaction_quiet (command : Z) (pParameter : option Z)
  (d : list Event) :
  transaction command pParameter d ->
  count is_set_timeout d = 0%nat
  /\ (forall b, count (is_poll b) d = 0%nat)
  /\ count is_callback d = 0%nat.
Proof. intros [-> | (data & ->)]; repeat split. Qed.

Ltac use_transaction X :=
  rewrite ?(transaction_count_command _ _ _ _ X),
    ?(transaction_count_send _ _ _ X),
    ?(transaction_count_led _ _ _ X),
    ?(transaction_count_notification _ _ _ X),
    ?(proj1 (transaction_quiet _ _ _ X)),
    ?(proj1 (proj2 (transaction_quiet _ _ _ X))),
    ?(proj2 (proj2 (transaction_quiet _ _ _ X))),
    ?(link_only_in_mode _ _ (transaction_link_only _ _ _ X)).

Ltac split_all :=
  repeat lazymatch goal with |- _ /\ _ => split end.

Ltac count_events :=
  unfold count in *;
  cbn [filter is_set_timeout is_poll is_command is_callback is_send
         is_led is_notification UserInfo_eqb forallb in_mode length
         Bool.eqb app];
  rewrite ?is_led_command_frame;
  cbn [andb orb length Nat.add].

Section Polls.
Context {W : Type} (env : Env W).

(** What a press query that returned no error has seen. *)
Lemma IsPressFinger_answer (old : bool) (s s' : St W)
  (err : GT511_Error_t) (p : option bool) :
  GT511_IsPressFinger env (Some old) s = Some ((err, p), s') ->
  exists dq flag,
    trace s' = trace s ++ dq
    /\ transaction GT511_CMD_IS_PRESS_FINGER (Some 0) dq
    /\ p = Some flag
    /\ (err = GT511_ERR_NONE ->
        exists data,
          dq = [EvSend (command_frame GT511_CMD_IS_PRESS_FINGER (Some 0))
                  true;
                EvReceive sizeof_Packet data]
          /\ IsValidResponse (frame_mem data) = true
          /\ (pkt_parameter (frame_mem data) =? 0) = flag).
Proof.
  intro H. apply bind_inv in H. destruct H as ([e q] & s1 & E & H).
  apply ret_inv in H. destruct H as [Hr ->].
  injection Hr as Herr Hp. subst err p.
  pose proof (IssueCommand_trace env _ _ _ _ _ E) as (dq & T & X).
  exists dq, (deref q =? 0). repeat split; try assumption.
  intro He. subst e.
  rewrite IssueCommand_run in E. cbv zeta in E.
  destruct (GT511_SendMessage env _ (world s)) as [[|] w1];
    [|discriminate E].
  destruct (GT511_ReceiveMessage env sizeof_Packet w1) as [data w2].
  injection E as Hr Hs. subst s1. cbn [trace] in T.
  apply app_inv_head in T. subst dq.
  exists data. split; [reflexivity|].
  unfold response_result in Hr.
  destruct (negb (Nat.eqb (length data) sizeof_Packet)); [discriminate Hr|].
  cbv zeta in Hr.
  destruct (IsValidResponse (frame_mem data)); cbn [negb] in Hr;
    [|discriminate Hr].
  split; [reflexivity|].
  destruct (pkt_command (frame_mem data) =? GT511_RESP_NACK).
  - injection Hr as Hz Hq. subst q.
    unfold GT511_ERR_NONE in Hz. rewrite Hz. reflexivity.
  - injection Hr as Hq. subst q. reflexivity.
Qed.

Lemma poll_round (mode : GT511_Mode_t) (press isPressed : bool)
  (continue : bool -> bool)
  (again : bool -> M W GT511_Error_t) (s s' : St W) err :
  (forall b, continue b = false -> b = press) ->
  (forall b s1 e s2,
      again b s1 = Some (e, s2) ->
      exists polls, trace s2 = trace s1 ++ polls
                    /\ wait_ending mode press e polls
                    /\ polling_discipline mode polls) ->
  (bind (CheckTimeout env mode) (fun timeout =>
   if timeout
   then bind (UserCallback env mode GT511_UI_TIMEOUT)
             (fun _ => ret GT511_ERR_OTHER_ERROR)
   else
     bind (GT511_IsPressFinger env (Some isPressed)) (fun x =>
     let '(err, p) := x in
     let isPressed := match p with Some b => b | None => isPressed end in
     if failed err
     then bind (GT511_CmosLed env false) (fun _ =>
          bind (UserCallback env mode GT511_UI_ERROR) (fun _ => ret err))
     else if continue isPressed
     then again isPressed
     else ret err))) s = Some (err, s') ->
  exists polls, trace s' = trace s ++ polls
                /\ wait_ending mode press err polls
                /\ polling_discipline mode polls.
Proof.
  intros Hstop IH H.
  assert (Hm : Mode_eqb mode mode = true) by (destruct mode; reflexivity).
  apply bind_inv in H. destruct H as (timeout & s1 & E1 & H).
  apply CheckTimeout_log in E1.
  destruct timeout.
  - apply bind_inv in H. destruct H as (u & s2 & E2 & H).
    apply UserCallback_log in E2. apply ret_inv in H. destruct H as [-> ->].
    exists [EvCheckTimeout mode true; EvCallback mode GT511_UI_TIMEOUT].
    split; [rewrite E2, E1, <- app_assoc; reflexivity|]. split.
    + right. left. split; [reflexivity|]. exists []. reflexivity.
    + unfold polling_discipline. count_events.
      rewrite Hm. split_all; cbn [length Nat.add]; lia || reflexivity.
  - apply bind_inv in H. destruct H as ([e p] & s2 & E2 & H).
    apply IsPressFinger_answer in E2.
    destruct E2 as (dq & flag & T2 & X2 & -> & Hans).
    cbv zeta in H.
    destruct (failed e) eqn:F.
    + apply bind_inv in H. destruct H as (e3 & s3 & E3 & H).
      apply CmosLed_log in E3. destruct E3 as (doff & T3 & X3).
      apply bind_inv in H. destruct H as (u & s4 & E4 & H).
      apply UserCallback_log in E4. apply ret_inv in H.
      destruct H as [-> ->].
      exists ([EvCheckTimeout mode false] ++ dq ++ doff
              ++ [EvCallback mode GT511_UI_ERROR]).
      split; [rewrite E4, T3, T2, E1, <- !app_assoc; reflexivity|]. split.
      * right. right. split; [apply failed_true; exact F|].
        exists [], dq, doff. repeat split; assumption.
      * unfold polling_discipline. rewrite !count_app, !forallb_app.
        use_transaction X2. use_transaction X3. count_events.
        rewrite Hm. split_all; cbn [length Nat.add]; lia || reflexivity.
    + apply failed_false in F. subst e.
      destruct (Hans eq_refl) as (data & -> & Hvalid & Hflag).
      destruct (continue flag) eqn:C.
      * apply IH in H. destruct H as (polls & T3 & Hend & Hdisc).
        exists ([EvCheckTimeout mode false]
                ++ [EvSend (command_frame GT511_CMD_IS_PRESS_FINGER (Some 0))
                      true;
                    EvReceive sizeof_Packet data] ++ polls).
        split; [rewrite T3, T2, E1, <- !app_assoc; reflexivity|]. split.
        -- destruct Hend as [(He & p0 & d0 & -> & Hv & Hp)
                            | [(He & p0 & ->)
                              | (He & p0 & dq & doff & -> & Xq & Xo)]].
           ++ left. split; [exact He|].
              eexists (_ :: _ :: _ :: p0), d0.
              repeat split; try assumption; try reflexivity.
           ++ right. left. split; [exact He|].
              eexists (_ :: _ :: _ :: p0). reflexivity.
           ++ right. right. split; [exact He|].
              eexists (_ :: _ :: _ :: p0), dq, doff.
              repeat split; try assumption; try reflexivity.
        -- destruct Hdisc as (D1 & D2 & D3 & D4 & D5 & D6).
           unfold polling_discipline. rewrite !count_app, !forallb_app.
           rewrite D1, D2, D5, D6.
           use_transaction X2. count_events.
           rewrite Hm. split_all; cbn [length Nat.add]; lia || reflexivity.
      * apply ret_inv in H. destruct H as [-> ->].
        exists ([EvCheckTimeout mode false]
                ++ [EvSend (command_frame GT511_CMD_IS_PRESS_FINGER (Some 0))
                      true;
                    EvReceive sizeof_Packet data]).
        split; [rewrite T2, E1, <- !app_assoc; reflexivity|]. split.
        -- left. split; [reflexivity|]. exists [], data.
           repeat split; try assumption.
           rewrite Hflag. apply Hstop. exact C.
        -- unfold polling_discipline. rewrite !count_app, !forallb_app.
           use_transaction X2. count_events.
           rewrite Hm. split_all; cbn [length Nat.add]; lia || reflexivity.
Qed.

End Polls.

Section TouchWaits.
Context {W : Type} (env : Env W).

Lemma WaitFingerPress_loop_polls (fuel : nat) (mode : GT511_Mode_t) :
  forall isPressed (s : St W) err s',
    WaitFingerPress_loop env fuel mode isPressed s = Some (err, s') ->
    exists polls, trace s' = trace s ++ polls
                  /\ wait_ending mode true err polls
                  /\ polling_discipline mode polls.
Proof.
  induction fuel as [|fuel IH]; intros isPressed s err s' H.
  - discriminate H.
  - cbn [WaitFingerPress_loop] in H.
    apply (poll_round env mode true isPressed negb
             (WaitFingerPress_loop env fuel mode) s s' err).
    + intros [|] Hb; [reflexivity | discriminate Hb].
    + exact IH.
    + exact H.
Qed.

Lemma WaitFingerRelease_loop_polls (fuel : nat) (mode : GT511_Mode_t) :
  forall isPressed (s : St W) err s',
    WaitFingerRelease_loop env fuel mode isPressed s = Some (err, s') ->
    exists polls, trace s' = trace s ++ polls
                  /\ wait_ending mode false err polls
                  /\ polling_discipline mode polls.
Proof.
  induction fuel as [|fuel IH]; intros isPressed s err s' H.
  - discriminate H.
  - cbn [WaitFingerRelease_loop] in H.
    apply (poll_round env mode false isPressed (fun b => b)
             (WaitFingerRelease_loop env fuel mode) s s' err).
    + intros [|] Hb; [discriminate Hb | reflexivity].
    + exact IH.
    + exact H.
Qed.

Lemma touch_wait_polls (press : bool) (fuel : nat) (mode : GT511_Mode_t)
  (s s' : St W) (err : GT511_Error_t) :
  touch_wait env press fuel mode s = Some (err, s') ->
  exists polls,
    trace s' = trace s ++ EvCallback mode (touch_prompt press)
                          :: EvSetTimeout mode :: polls
    /\ wait_ending mode press err polls
    /\ polling_discipline mode polls.
Proof.
  intro H. unfold touch_wait in H.
  destruct press; [unfold WaitFingerPress in H | unfold WaitFingerRelease in H];
    apply bind_inv in H; destruct H as (u1 & s1 & E1 & H);
    apply UserCallback_log in E1;
    apply bind_inv in H; destruct H as (u2 & s2 & E2 & H);
    apply SetTimeout_log in E2;
    [apply WaitFingerPress_loop_polls in H
    | apply WaitFingerRelease_loop_polls in H];
    destruct H as (polls & T & Hend & Hdisc);
    exists polls; (split; [|split; assumption]);
    rewrite T, E2, E1, <- !app_assoc; reflexivity.
Qed.


(** In every touch wait that returns, after the prompt and the arming
    of the timeout: the timeout is never armed again, there are exactly
    as many press queries as polls that found the timeout not expired,
    at most one poll finds it expired, at most one more notification is
    made, the only frames sent are press queries and illumination-off,
    and every notification and timeout call carries the mode given to
    the wait. *)
Theorem touch_wait_discipline (press : bool) (fuel : nat)
  (mode : GT511_Mode_t) (s s' : St W) (err : GT511_Error_t) :
  touch_wait env press fuel mode s = Some (err, s') ->
  exists polls,
    trace s' = trace s ++ EvCallback mode (touch_prompt press)
                          :: EvSetTimeout mode :: polls
    /\ polling_discipline mode polls.
Proof.
  intro H. destruct (touch_wait_polls press fuel mode s s' err H)
    as (polls & T & _ & Hdisc).
  exists polls. split; assumption.
Qed.

(** The release wait gives up at its first poll when the timeout has
    already expired: one Release notification, the arming of the
    timeout, one poll, one Timeout notification, and nothing sent to the
    sensor. *)
Theorem WaitFingerRelease_timeout_on_first_poll
  (fuel : nat) (mode : GT511_Mode_t) (s : St W) (w : W) :
  GT511_CheckTimeout env mode
    (GT511_SetTimeout env mode
       (GT511_UserCallback env mode GT511_UI_RELEASE (world s)))
    = (true, w) ->
  exists s',
    WaitFingerRelease env (S fuel) mode s = Some (GT511_ERR_OTHER_ERROR, s')
    /\ world s' = GT511_UserCallback env mode GT511_UI_TIMEOUT w
    /\ trace s' = trace s
                  ++ [EvCallback mode GT511_UI_RELEASE; EvSetTimeout mode;
                      EvCheckTimeout mode true;
                      EvCallback mode GT511_UI_TIMEOUT].
Proof.
  intro H.
  unfold WaitFingerRelease, bind, UserCallback, SetTimeout.
  cbn [WaitFingerRelease_loop bind].
  unfold bind, CheckTimeout. cbn [world mempool trace].
  rewrite H. unfold UserCallback, ret. cbn [world mempool trace].
  eexists. split; [reflexivity|]. split; [reflexivity|].
  cbn [trace]. rewrite <- !app_assoc. reflexivity.
Qed.

End TouchWaits.


(** The release wait on the sensor whose finger is never lifted. *)
Lemma touch_wait_discipline_witness :
  exists s' polls,
    touch_wait Sim.env false 4 GT511_MODE_VERIFY
      (Sim.boot Sim.sensor_timed_out) = Some (GT511_ERR_OTHER_ERROR, s')
    /\ trace s' = trace (Sim.boot Sim.sensor_timed_out)
                  ++ EvCallback GT511_MODE_VERIFY (touch_prompt false)
                     :: EvSetTimeout GT511_MODE_VERIFY :: polls
    /\ polling_discipline GT511_MODE_VERIFY polls.
Proof.
  eexists.
  assert (H : touch_wait Sim.env false 4 GT511_MODE_VERIFY
                (Sim.boot Sim.sensor_timed_out)
              = Some (GT511_ERR_OTHER_ERROR, _))
    by (vm_compute; reflexivity).
  destruct (touch_wait_discipline Sim.env false 4 GT511_MODE_VERIFY _ _ _ H)
    as (polls & T & Hd).
  exists polls. split; [exact H|]. split; assumption.
Defined.

(** The release wait when the timeout has already expired. *)
Lemma WaitFingerRelease_timeout_on_first_poll_witness :
  exists s',
    WaitFingerRelease Sim.env 1 GT511_MODE_ENROLL
      (Sim.boot Sim.sensor_timed_out) = Some (GT511_ERR_OTHER_ERROR, s')
    /\ count is_send (trace s') = 0%nat.
Proof.
  destruct (WaitFingerRelease_timeout_on_first_poll Sim.env 0
              GT511_MODE_ENROLL (Sim.boot Sim.sensor_timed_out) Sim.sensor)
    as (s' & H & _ & T).
  - vm_compute. reflexivity.
  - exists s'. split; [exact H|]. rewrite T. reflexivity.
Defined.

(** ** The slot allocator, once more *)

Section SlotResults.
Context {W : Type} (env : Env W).

Lemma FindAvailable_loop_result (n : nat) :
  forall (i : Z) (pId : option Z) (s s' : St W) err out,
    0 <= i ->
    i + Z.of_nat n = GT511_NUM_SLOTS ->
    FindAvailable_loop env n i pId s = Some ((err, out), s') ->
    (err = GT511_ERR_NONE ->
     exists slot, out = Some slot /\ i <= slot < GT511_NUM_SLOTS)
    /\ (err <> GT511_ERR_NONE -> out = pId)
    /\ err <> GT511_ERR_IS_NOT_USED
    /\ exists d, trace s' = trace s ++ d /\ link_only d.
Proof.
  unfold GT511_NUM_SLOTS.
  induction n as [|n IH]; intros i pId s s' err out Hi Hn H;
    cbn [FindAvailable_loop] in H.
  - apply ret_inv in H. destruct H as [Hr ->].
    injection Hr as Herr Hout. subst err out.
    split; [discriminate|]. split; [reflexivity|]. split; [discriminate|].
    exists []. rewrite app_nil_r. split; reflexivity.
  - assert (Hlt : i < 20) by lia.
    assert (Hi' : 0 <= i + 1) by lia.
    assert (Hn' : i + 1 + Z.of_nat n = 20) by lia.
    apply bind_inv in H. destruct H as ([e q] & s1 & E & H).
    pose proof (IssueCommand_trace env _ _ _ _ _ E) as (d1 & T1 & X1).
    apply transaction_link_only in X1.
    destruct (e =? GT511_ERR_IS_NOT_USED) eqn:Efree.
    + apply ret_inv in H. destruct H as [Hr ->].
      injection Hr as Herr Hout. subst err out.
      split; [|split; [|split]].
      * intros _. exists i. split; [reflexivity|]. split; [apply Z.le_refl | exact Hlt].
      * intro C. exfalso. apply C. reflexivity.
      * discriminate.
      * exists d1. split; assumption.
    + apply Z.eqb_neq in Efree.
      destruct (failed e) eqn:F.
      * apply failed_true in F.
        apply ret_inv in H. destruct H as [Hr ->].
        injection Hr as Herr Hout. subst err out.
        split; [intro C; contradiction|].
        split; [reflexivity|]. split; [exact Efree|].
        exists d1. split; assumption.
      * destruct (IH (i + 1) pId s1 s' err out Hi' Hn' H)
          as (A & B & C & d & T & L).
        split; [|split; [exact B|split; [exact C|]]].
        -- intro He. destruct (A He) as (slot & Ho & Hs).
           exists slot. split; [exact Ho|]. clear - Hs. lia.
        -- exists (d1 ++ d). split.
           ++ rewrite T, T1, app_assoc. reflexivity.
           ++ apply forallb_app_true; assumption.
Qed.

(** What [GT511_FindAvailable] can return.  With a NULL pointer:
    [GT511_ERR_OTHER_ERROR], without a single call to the environment.
    Otherwise: [GT511_ERR_NONE] only together with a slot index in
    0..19 stored through the pointer; any error leaves the pointed cell
    as it was; and the result is never [GT511_ERR_IS_NOT_USED]. *)
Theorem FindAvailable_result (s : St W) :
  GT511_FindAvailable env None s = Some ((GT511_ERR_OTHER_ERROR, None), s)
  /\ forall old err out s',
       GT511_FindAvailable env (Some old) s = Some ((err, out), s') ->
       (err = GT511_ERR_NONE ->
        exists slot, out = Some slot /\ 0 <= slot < GT511_NUM_SLOTS)
       /\ (err <> GT511_ERR_NONE -> out = Some old)
       /\ err <> GT511_ERR_IS_NOT_USED.
Proof.
  split; [reflexivity|].
  intros old err out s' H. cbn [GT511_FindAvailable] in H.
  destruct (FindAvailable_loop_result (Z.to_nat GT511_NUM_SLOTS) 0
              (Some old) s s' err out (Z.le_refl 0) eq_refl H)
    as (A & B & C & _).
  split; [exact A | split; [exact B | exact C]].
Qed.

Lemma FindAvailable_link (pId : option Z) (s s' : St W) r :
  GT511_FindAvailable env pId s = Some (r, s') ->
  exists d, trace s' = trace s ++ d /\ link_only d.
Proof.
  destruct pId as [old|]; cbn [GT511_FindAvailable]; intro H.
  - destruct r as [err out].
    destruct (FindAvailable_loop_result (Z.to_nat GT511_NUM_SLOTS) 0
                (Some old) s s' err out (Z.le_refl 0) eq_refl H)
      as (_ & _ & _ & L).
    exact L.
  - apply ret_inv in H. destruct H as [_ ->].
    exists []. rewrite app_nil_r. split; reflexivity.
Qed.

End SlotResults.

(** The allocator on the simulated sensor with twenty used slots. *)
Lemma FindAvailable_result_witness :
  exists s',
    GT511_FindAvailable Sim.env (Some 99) (Sim.boot Sim.sensor_full)
      = Some ((GT511_ERR_INVALID_POS, Some 99), s')
    /\ GT511_ERR_INVALID_POS <> GT511_ERR_IS_NOT_USED.
Proof.
  eexists.
  assert (H : GT511_FindAvailable Sim.env (Some 99)
                (Sim.boot Sim.sensor_full)
              = Some ((GT511_ERR_INVALID_POS, Some 99), _))
    by (vm_compute; reflexivity).
  split; [exact H|].
  exact (proj2 (proj2 (proj2 (FindAvailable_result Sim.env
                                (Sim.boot Sim.sensor_full))
                         99 _ _ _ H))).
Defined.

(** ** Notifications of the workflows *)

Lemma transaction_quiet_log (command : Z) (pParameter : option Z)
  (d : list Event) (mode : GT511_Mode_t) :
  transaction command pParameter d -> quiet_log mode d.
Proof.
  intro X. unfold quiet_log.
  rewrite !(transaction_count_notification _ _ _ X),
    (link_only_in_mode mode _ (transaction_link_only _ _ _ X)).
  repeat split.
Qed.

Lemma link_only_quiet_log (d : list Event) (mode : GT511_Mode_t) :
  link_only d -> quiet_log mode d.
Proof.
  intro L. unfold quiet_log.
  rewrite !(link_only_count _ d) by
      (assumption || (intros [] He; try discriminate He; reflexivity)).
  rewrite (link_only_in_mode mode d L). repeat split.
Qed.

Ltac quiet_of m E :=
  let d := fresh "d" in
  let T := fresh "T" in
  let X := fresh "Q" in
  let QQ := fresh "QQ" in
  lazymatch m with
  | UserCallback _ _ _ => apply UserCallback_log in E
  | GT511_CmosLed _ _ =>
      apply CmosLed_log in E; destruct E as (d & T & X);
      pose proof (fun mode => transaction_quiet_log _ _ _ mode X) as QQ;
      clear X
  | GT511_CaptureFinger _ _ =>
      apply CaptureFinger_log in E; destruct E as (d & T & X);
      pose proof (fun mode => transaction_quiet_log _ _ _ mode X) as QQ;
      clear X
  | GT511_Identify _ _ =>
      apply Identify_log in E; destruct E as (d & T & X);
      pose proof (fun mode => transaction_quiet_log _ _ _ mode X) as QQ;
      clear X
  | GT511_Verify _ _ =>
      apply Verify_log in E; destruct E as (d & T & X);
      pose proof (fun mode => transaction_quiet_log _ _ _ mode X) as QQ;
      clear X
  | GT511_EnrollStart _ _ =>
      apply EnrollStart_log in E; destruct E as (d & T & X);
      pose proof (fun mode => transaction_quiet_log _ _ _ mode X) as QQ;
      clear X
  | _ => idtac
  end.

Ltac flow_step H :=
  lazymatch type of H with
  | bind ?m _ _ = Some _ =>
      let a := fresh "a" in
      let s := fresh "s" in
      let E := fresh "E" in
      apply bind_inv in H; destruct H as (a & s & E & H);
      quiet_of m E; cbv beta zeta in H
  | ret _ _ = Some _ =>
      let Hs := fresh "Hs" in
      apply ret_inv in H; destruct H as [? Hs]; subst
  | (if failed ?e then _ else _) _ = Some _ =>
      let F := fresh "F" in destruct (failed e) eqn:F
  | (let '(_, _) := ?p in _) _ = Some _ => destruct p; cbv beta zeta in H
  end.

Ltac spec_quiet :=
  lazymatch goal with
  | |- context [workflow_log ?M] =>
      repeat match goal with
             | X : forall mode, quiet_log mode _ |- _ => specialize (X M)
             end
  end.

Ltac use_quiet :=
  repeat match goal with
         | X : quiet_log _ _ |- _ =>
             let A := fresh "QA" in
             let R := fresh "QR" in
             let M := fresh "QM" in
             destruct X as (A & R & M)
         end;
  rewrite ?count_app, ?forallb_app;
  repeat match goal with
         | Hc : count _ _ = _ |- _ => rewrite Hc; clear Hc
         | Hf : forallb _ _ = true |- _ => rewrite Hf; clear Hf
         end.

Ltac use_failed :=
  repeat match goal with
         | F : failed ?e = _ |- context [failed ?e] => rewrite F
         end;
  change (failed GT511_ERR_NONE) with false.

Ltac close_flow :=
  use_quiet; count_events; use_failed;
  split_all;
  try (intro; try discriminate);
  cbn [length Nat.add andb];
  lia || reflexivity.

Section WorkflowNotifications.
Context {W : Type} (env : Env W).

Lemma wait_quiet (press : bool) (fuel : nat) (mode : GT511_Mode_t)
  (s s' : St W) (err : GT511_Error_t) :
  touch_wait env press fuel mode s = Some (err, s') ->
  exists d, trace s' = trace s ++ d /\ quiet_log mode d.
Proof.
  intro H.
  assert (L : exists d, trace s' = trace s ++ d /\ wait_log err d).
  { destruct press; cbn [touch_wait] in H.
    - exact (WaitFingerPress_log env fuel mode s s' err H).
    - exact (WaitFingerRelease_log env fuel mode s s' err H). }
  destruct L as (d & T & (_ & A & R & _)).
  destruct (touch_wait_polls env press fuel mode s s' err H)
    as (polls & T' & _ & (_ & _ & _ & _ & _ & M)).
  exists d. split; [exact T|].
  assert (Hm : Mode_eqb mode mode = true) by (destruct mode; reflexivity).
  rewrite T in T'. apply app_inv_head in T'.
  unfold quiet_log. rewrite A, R. split; [reflexivity|]. split; [reflexivity|].
  rewrite T'. cbn [forallb in_mode]. rewrite Hm, M. reflexivity.
Qed.

Lemma EnrollStep_quiet (step : Z) (s s' : St W) err :
  EnrollStep env step s = Some (err, s') ->
  exists d, trace s' = trace s ++ d /\ forall mode, quiet_log mode d.
Proof.
  unfold EnrollStep. intro H.
  destruct (step =? 0); [|destruct (step =? 1)];
    [apply Enroll1_log in H | apply Enroll2_log in H
     | apply Enroll3_log in H];
    destruct H as (d & T & X); exists d; (split; [exact T|]);
    intro mode; exact (transaction_quiet_log _ _ _ mode X).
Qed.

Ltac waits_step H :=
  lazymatch type of H with
  | bind (WaitFingerPress _ ?fuel ?mode) _ _ = Some _ =>
      let a := fresh "a" in
      let s := fresh "s" in
      let E := fresh "E" in
      let d := fresh "d" in
      let T := fresh "T" in
      let X := fresh "Q" in
      apply bind_inv in H; destruct H as (a & s & E & H);
      apply (wait_quiet true fuel mode) in E; destruct E as (d & T & X);
      cbv beta zeta in H
  | bind (WaitFingerRelease _ ?fuel ?mode) _ _ = Some _ =>
      let a := fresh "a" in
      let s := fresh "s" in
      let E := fresh "E" in
      let d := fresh "d" in
      let T := fresh "T" in
      let X := fresh "Q" in
      apply bind_inv in H; destruct H as (a & s & E & H);
      apply (wait_quiet false fuel mode) in E; destruct E as (d & T & X);
      cbv beta zeta in H
  | bind (EnrollStep _ _) _ _ = Some _ =>
      let a := fresh "a" in
      let s := fresh "s" in
      let E := fresh "E" in
      let d := fresh "d" in
      let T := fresh "T" in
      let X := fresh "Q" in
      apply bind_inv in H; destruct H as (a & s & E & H);
      apply EnrollStep_quiet in E; destruct E as (d & T & X);
      cbv beta zeta in H
  | bind (GT511_FindAvailable _ _) _ _ = Some _ =>
      let a := fresh "a" in
      let s := fresh "s" in
      let E := fresh "E" in
      let d := fresh "d" in
      let T := fresh "T" in
      let X := fresh "Q" in
      let QQ := fresh "QQ" in
      apply bind_inv in H; destruct H as (a & s & E & H);
      apply FindAvailable_link in E; destruct E as (d & T & X);
      pose proof (fun mode => link_only_quiet_log d mode X) as QQ; clear X;
      cbv beta zeta in H
  | _ => flow_step H
  end.

Ltac flow_all H := repeat (waits_step H).

Lemma RunIdentify_flow (fuel : nat) (pId : option Z) (s s' : St W) err out :
  GT511_RunIdentify env fuel pId s = Some ((err, out), s') ->
  exists t, trace s' = trace s ++ t /\ workflow_log GT511_MODE_IDENTIFY err t.
Proof.
  intro H. unfold GT511_RunIdentify in H.
  flow_all H.
  all: match goal with
       | Hr : (_, _) = (_, _) |- _ =>
           injection Hr as He Ho; subst err; subst out
       end.
  all: spec_quiet; eexists; (split; [chain_logs|]); unfold workflow_log.
  all: close_flow.
Qed.

Lemma RunVerify_flow (fuel : nat) (id : Z) (s s' : St W) err :
  GT511_RunVerify env fuel id s = Some (err, s') ->
  exists t, trace s' = trace s ++ t /\ workflow_log GT511_MODE_VERIFY err t.
Proof.
  intro H. unfold GT511_RunVerify in H.
  flow_all H.
  all: spec_quiet; eexists; (split; [chain_logs|]); unfold workflow_log.
  all: close_flow.
Qed.

Lemma RunEnroll_loop_flow (fuel n : nat) :
  forall (step : Z) (s s' : St W) err,
    RunEnroll_loop env fuel n step s = Some (err, s') ->
    exists t, trace s' = trace s ++ t /\ workflow_log GT511_MODE_ENROLL err t.
Proof.
  induction n as [|n IH]; intros step s s' err H; cbn [RunEnroll_loop] in H.
  - flow_all H.
    eexists; (split; [chain_logs|]); unfold workflow_log. close_flow.
  - flow_all H.
    all: try (apply IH in H;
              destruct H as (trec & Trec & (RA & RR & RI & RM))).
    all: spec_quiet; eexists; (split; [chain_logs|]); unfold workflow_log.
    all: try (use_quiet; count_events; use_failed;
              cbn [length Nat.add andb];
              split; [reflexivity|]; split; [exact RR|];
              split; [exact RI | reflexivity]).
    all: close_flow.
Qed.

Lemma RunEnroll_flow (fuel : nat) (pId : option Z) (s s' : St W) err out :
  GT511_RunEnroll env fuel pId s = Some ((err, out), s') ->
  exists t, trace s' = trace s ++ t /\ workflow_log GT511_MODE_ENROLL err t.
Proof.
  intro H. unfold GT511_RunEnroll in H.
  destruct pId as [old|].
  - flow_all H.
    all: try match goal with
             | E : RunEnroll_loop _ _ _ _ _ = Some _ |- _ =>
                 apply RunEnroll_loop_flow in E;
                 destruct E as (trec & Trec & (RA & RR & RI & RM))
             end.
    all: match goal with
         | Hr : (_, _) = (_, _) |- _ =>
             injection Hr as He Ho; subst err; subst out
         end.
    all: spec_quiet; eexists; (split; [chain_logs|]); unfold workflow_log.
    all: try (use_quiet; count_events; use_failed;
              cbn [length Nat.add andb];
              split; [reflexivity|]; split; [exact RR|];
              split; [exact RI | reflexivity]).
    all: close_flow.
  - apply ret_inv in H. destruct H as [Hr ->].
    injection Hr as He Ho. subst err out.
    exists []. rewrite app_nil_r. split; [reflexivity|].
    unfold workflow_log. split_all; try reflexivity.
    all: try (cbn; lia); try discriminate.
Qed.

Lemma workflow_flow (wf : Workflow) (fuel : nat) (s s' : St W) err out :
  run_workflow env wf fuel s = Some ((err, out), s') ->
  exists t, trace s' = trace s ++ t /\ workflow_log (workflow_mode wf) err t.
Proof.
  destruct wf as [pId | id | pId]; cbn [run_workflow workflow_mode]; intro H.
  - exact (RunIdentify_flow _ _ _ _ _ _ H).
  - apply bind_inv in H. destruct H as (e & s1 & E & H).
    apply ret_inv in H. destruct H as [Hr ->].
    injection Hr as He Ho. subst err out.
    exact (RunVerify_flow _ _ _ _ _ E).
  - exact (RunEnroll_flow _ _ _ _ _ _ H).
Qed.

(** In every run of [GT511_RunIdentify], [GT511_RunVerify] and
    [GT511_RunEnroll] that returns, the Accept notification is made
    exactly once when the result is [GT511_ERR_NONE] and never when it
    is an error; the Reject notification is made at most once, and never
    on success. *)
Theorem workflow_accept_iff_success
  (wf : Workflow) (fuel : nat) (s s' : St W) err out :
  run_workflow env wf fuel s = Some ((err, out), s') ->
  exists t,
    trace s' = trace s ++ t
    /\ count (is_notification GT511_UI_ACCEPT) t
       = (if failed err then 0%nat else 1%nat)
    /\ (count (is_notification GT511_UI_REJECT) t <= 1)%nat
    /\ (failed err = false ->
        count (is_notification GT511_UI_REJECT) t = 0%nat).
Proof.
  intro H. destruct (workflow_flow wf fuel s s' err out H)
    as (t & T & (A & R & I & _)).
  exists t. split_all; assumption.
Qed.

(** Every notification and every timeout call made by a workflow
    carries the mode of that workflow: Identify for
    [GT511_RunIdentify], Verify for [GT511_RunVerify], Enroll for
    [GT511_RunEnroll]. *)
Theorem workflow_keeps_its_mode
  (wf : Workflow) (fuel : nat) (s s' : St W) err out :
  run_workflow env wf fuel s = Some ((err, out), s') ->
  exists t,
    trace s' = trace s ++ t
    /\ forallb (in_mode (workflow_mode wf)) t = true.
Proof.
  intro H. destruct (workflow_flow wf fuel s s' err out H)
    as (t & T & (_ & _ & _ & M)).
  exists t. split; assumption.
Qed.

End WorkflowNotifications.

(** A verification on the simulated sensor. *)
Lemma workflow_accept_iff_success_witness :
  exists s' t,
    run_workflow Sim.env (Verify 1) 4 (Sim.boot Sim.sensor)
      = Some ((GT511_ERR_NONE, None), s')
    /\ trace s' = trace (Sim.boot Sim.sensor) ++ t
    /\ count (is_notification GT511_UI_ACCEPT) t = 1%nat
    /\ count (is_notification GT511_UI_REJECT) t = 0%nat.
Proof.
  eexists.
  assert (H : run_workflow Sim.env (Verify 1) 4 (Sim.boot Sim.sensor)
              = Some ((GT511_ERR_NONE, None), _))
    by (vm_compute; reflexivity).
  destruct (workflow_accept_iff_success Sim.env (Verify 1) 4 _ _ _ _ H)
    as (t & T & A & R & I).
  exists t. split; [exact H|]. split; [exact T|]. split; [exact A|].
  exact (I eq_refl).
Defined.

(** An enrollment on the simulated sensor. *)
Lemma workflow_keeps_its_mode_witness :
  exists s' t,
    run_workflow Sim.env (Enroll (Some 99)) 4 (Sim.boot Sim.sensor)
      = Some ((GT511_ERR_NONE, Some 2), s')
    /\ trace s' = trace (Sim.boot Sim.sensor) ++ t
    /\ forallb (in_mode GT511_MODE_ENROLL) t = true.
Proof.
  eexists.
  assert (H : run_workflow Sim.env (Enroll (Some 99)) 4
                (Sim.boot Sim.sensor)
              = Some ((GT511_ERR_NONE, Some 2), _))
    by (vm_compute; reflexivity).
  destruct (workflow_keeps_its_mode Sim.env (Enroll (Some 99)) 4 _ _ _ _ H)
    as (t & T & M).
  exists t. split; [exact H|]. split; [exact T | exact M].
Defined.

(** ** Paths through the workflows *)

Section WorkflowPaths.
Context {W : Type} (env : Env W).

Ltac forward H :=
  unfold bind at 1; rewrite H;
  try change (failed GT511_ERR_NONE) with false; cbv iota beta zeta.

(** A successful identification: when illumination-on, the press wait,
    the capture, the identify query (with matched id [id]) and the
    release wait all succeed, [GT511_RunIdentify] returns
    [GT511_ERR_NONE] with [*pId = id]; it then ends with the
    illumination-off transaction, whatever its result, followed by the
    Accept notification as its last call, and its log has exactly one
    illumination-on and one illumination-off command. *)
Theorem RunIdentify_success
  (fuel : nat) (old id : Z) (s s1 s2 s3 s4 s5 : St W) :
  GT511_CmosLed env true s = Some (GT511_ERR_NONE, s1) ->
  WaitFingerPress env fuel GT511_MODE_IDENTIFY s1
    = Some (GT511_ERR_NONE, s2) ->
  GT511_CaptureFinger env false s2 = Some (GT511_ERR_NONE, s3) ->
  GT511_Identify env (Some 0) s3 = Some ((GT511_ERR_NONE, Some id), s4) ->
  WaitFingerRelease env fuel GT511_MODE_IDENTIFY s4
    = Some (GT511_ERR_NONE, s5) ->
  exists s' t doff,
    GT511_RunIdentify env fuel (Some old) s
      = Some ((GT511_ERR_NONE, Some id), s')
    /\ trace s' = trace s ++ t
    /\ trace s' = trace s5 ++ doff
                  ++ [EvCallback GT511_MODE_IDENTIFY GT511_UI_ACCEPT]
    /\ transaction GT511_CMD_CMOS_LED (Some 0) doff
    /\ count (is_led true) t = 1%nat
    /\ count (is_led false) t = 1%nat.
Proof.
  intros Hled Hpress Hcap Hid Hrel.
  destruct (CmosLed_total env false s5) as (eoff & s6 & Hoff).
  pose proof (CmosLed_log env _ _ _ _ Hled) as (d1 & T1 & X1).
  pose proof (WaitFingerPress_log env _ _ _ _ _ Hpress)
    as (d2 & T2 & (A2 & _ & _ & C2)).
  pose proof (CaptureFinger_log env _ _ _ _ Hcap) as (d3 & T3 & X3).
  pose proof (Identify_log env _ _ _ _ Hid) as (d4 & T4 & X4).
  pose proof (WaitFingerRelease_log env _ _ _ _ _ Hrel)
    as (d5 & T5 & (A5 & _ & _ & C5)).
  pose proof (CmosLed_log env _ _ _ _ Hoff) as (d6 & T6 & X6).
  eexists. exists (d1 ++ d2 ++ d3 ++ d4 ++ d5 ++ d6
                   ++ [EvCallback GT511_MODE_IDENTIFY GT511_UI_ACCEPT]), d6.
  split; [|split; [|split; [|split; [exact X6|]]]].
  - unfold GT511_RunIdentify.
    forward Hled. forward Hpress. forward Hcap. forward Hid. cbn [deref].
    forward Hrel. forward Hoff.
    unfold bind, UserCallback, ret. reflexivity.
  - cbn [trace]. rewrite T6, T5, T4, T3, T2, T1, <- !app_assoc. reflexivity.
  - cbn [trace]. rewrite T6, <- ?app_assoc. reflexivity.
  - rewrite !count_app.
    rewrite !(transaction_led true _ _ X1), !(transaction_led false _ _ X6).
    rewrite !(transaction_not_led _ _ _ _ X3),
      !(transaction_not_led _ _ _ _ X4) by discriminate.
    rewrite A2, A5, (C2 eq_refl), (C5 eq_refl). split; reflexivity.
Qed.

(** A failed verification: when illumination-on, the press wait and the
    capture succeed and the verify command then fails with [e],
    [GT511_RunVerify] returns [e]; the verify frame carried the caller's
    id, and the function ends with the illumination-off transaction
    followed by the Reject notification in mode Verify, without waiting
    for the release. *)
Theorem RunVerify_verify_failure
  (fuel : nat) (id : Z) (s s1 s2 s3 s4 : St W) (e : GT511_Error_t) :
  GT511_CmosLed env true s = Some (GT511_ERR_NONE, s1) ->
  WaitFingerPress env fuel GT511_MODE_VERIFY s1
    = Some (GT511_ERR_NONE, s2) ->
  GT511_CaptureFinger env false s2 = Some (GT511_ERR_NONE, s3) ->
  GT511_Verify env id s3 = Some (e, s4) ->
  e <> GT511_ERR_NONE ->
  exists s' dv doff,
    GT511_RunVerify env fuel id s = Some (e, s')
    /\ trace s4 = trace s3 ++ dv
    /\ commands_sent dv = [(GT511_CMD_VERIFY, uint32 id)]
    /\ trace s' = trace s4 ++ doff
                  ++ [EvCallback GT511_MODE_VERIFY GT511_UI_REJECT]
    /\ transaction GT511_CMD_CMOS_LED (Some 0) doff.
Proof.
  intros Hled Hpress Hcap Hver Hne.
  destruct (CmosLed_total env false s4) as (eoff & s5 & Hoff).
  pose proof (Verify_log env _ _ _ _ Hver) as (dv & Tv & Xv).
  pose proof (CmosLed_log env _ _ _ _ Hoff) as (doff & To & Xo).
  apply failed_true in Hne.
  eexists. exists dv, doff.
  split; [|split; [exact Tv|split; [|split; [|exact Xo]]]].
  - unfold GT511_RunVerify.
    forward Hled. forward Hpress. forward Hcap. forward Hver.
    rewrite Hne. forward Hoff.
    unfold bind, UserCallback, ret. reflexivity.
  - rewrite (transaction_commands _ _ _ Xv). reflexivity.
  - cbn [trace]. rewrite To, <- app_assoc. reflexivity.
Qed.

(** When the first illumination-on command fails with [e],
    [GT511_RunIdentify] and [GT511_RunVerify] attempt illumination-off
    and return [e]: the two transactions are all they do (no prompt, no
    timeout, no notification), and [*pId] is left alone. *)
Theorem workflow_led_on_failure
  (fuel : nat) (pId : option Z) (id : Z) (s s1 : St W)
  (e : GT511_Error_t) :
  GT511_CmosLed env true s = Some (e, s1) ->
  e <> GT511_ERR_NONE ->
  exists eoff s2 don doff,
    GT511_CmosLed env false s1 = Some (eoff, s2)
    /\ GT511_RunIdentify env fuel pId s = Some ((e, pId), s2)
    /\ GT511_RunVerify env fuel id s = Some (e, s2)
    /\ trace s2 = trace s ++ don ++ doff
    /\ transaction GT511_CMD_CMOS_LED (Some 1) don
    /\ transaction GT511_CMD_CMOS_LED (Some 0) doff.
Proof.
  intros Hled Hne.
  destruct (CmosLed_total env false s1) as (eoff & s2 & Hoff).
  pose proof (CmosLed_log env _ _ _ _ Hled) as (don & T1 & X1).
  pose proof (CmosLed_log env _ _ _ _ Hoff) as (doff & T2 & X2).
  apply failed_true in Hne.
  exists eoff, s2, don, doff.
  split; [exact Hoff|]. split; [|split; [|split; [|split; assumption]]].
  - unfold GT511_RunIdentify. forward Hled. rewrite Hne. forward Hoff.
    reflexivity.
  - unfold GT511_RunVerify. forward Hled. rewrite Hne. forward Hoff.
    reflexivity.
  - rewrite T2, T1, <- app_assoc. reflexivity.
Qed.

(** When the slot allocator fails with [e], [GT511_RunEnroll] makes the
    Error notification in mode Enroll and returns [e]: nothing is sent
    after the scan (no enroll-start), and [*pId] is as before the call. *)
Theorem RunEnroll_allocation_failure
  (fuel : nat) (old : Z) (s s1 : St W) (e : GT511_Error_t)
  (out : option Z) :
  GT511_FindAvailable env (Some old) s = Some ((e, out), s1) ->
  e <> GT511_ERR_NONE ->
  exists s',
    GT511_RunEnroll env fuel (Some old) s = Some ((e, Some old), s')
    /\ world s' = GT511_UserCallback env GT511_MODE_ENROLL GT511_UI_ERROR
                    (world s1)
    /\ trace s' = trace s1 ++ [EvCallback GT511_MODE_ENROLL GT511_UI_ERROR].
Proof.
  intros Hfind Hne.
  assert (Hout : out = Some old).
  { cbn [GT511_FindAvailable] in Hfind.
    destruct (FindAvailable_loop_result env (Z.to_nat GT511_NUM_SLOTS) 0
                (Some old) s s1 e out (Z.le_refl 0) eq_refl Hfind)
      as (_ & B & _).
    exact (B Hne). }
  subst out. apply failed_true in Hne.
  eexists. split; [|split].
  - unfold GT511_RunEnroll. forward Hfind. rewrite Hne.
    unfold bind, UserCallback, ret. reflexivity.
  - reflexivity.
  - reflexivity.
Qed.

(** When a slot has been allocated and the enroll-start command fails
    with [e], [GT511_RunEnroll] returns [e] at once: it makes no
    notification at all, the illumination is never switched on, and
    [*pId] holds the allocated slot. *)
Theorem RunEnroll_start_failure
  (fuel : nat) (old slot : Z) (s s1 s2 : St W) (e : GT511_Error_t) :
  GT511_FindAvailable env (Some old) s
    = Some ((GT511_ERR_NONE, Some slot), s1) ->
  GT511_EnrollStart env slot s1 = Some (e, s2) ->
  e <> GT511_ERR_NONE ->
  GT511_RunEnroll env fuel (Some old) s = Some ((e, Some slot), s2)
  /\ exists t, trace s2 = trace s ++ t
               /\ count is_callback t = 0%nat
               /\ count (is_led true) t = 0%nat.
Proof.
  intros Hfind Hstart Hne.
  pose proof (FindAvailable_link env _ _ _ _ Hfind) as (d0 & T0 & L0).
  pose proof (FindAvailable_log env _ _ _ _ Hfind) as (d0' & T0' & A0 & _).
  rewrite T0 in T0'. apply app_inv_head in T0'. subst d0'.
  pose proof (EnrollStart_log env _ _ _ _ Hstart) as (d1 & T1 & X1).
  apply failed_true in Hne.
  split.
  - unfold GT511_RunEnroll. forward Hfind. cbn [deref].
    forward Hstart. rewrite Hne. reflexivity.
  - exists (d0 ++ d1). split; [rewrite T1, T0, app_assoc; reflexivity|].
    rewrite !count_app, A0.
    rewrite (link_only_count is_callback d0)
      by (assumption || (intros [] He; try discriminate He; reflexivity)).
    rewrite (proj2 (proj2 (transaction_quiet _ _ _ X1))).
    rewrite (transaction_not_led _ _ _ _ X1) by discriminate.
    split; reflexivity.
Qed.

(** A capture failure in any iteration of the enrollment loop ends the
    loop there: the capture error is returned unchanged after the
    illumination-off transaction and the Error notification; neither
    the enrollment command of this step nor any later step is issued. *)
Theorem enroll_capture_failure
  (fuel n : nat) (step : Z) (s s1 s2 s3 : St W) (e : GT511_Error_t) :
  GT511_CmosLed env true s = Some (GT511_ERR_NONE, s1) ->
  WaitFingerPress env fuel GT511_MODE_ENROLL s1
    = Some (GT511_ERR_NONE, s2) ->
  GT511_CaptureFinger env true s2 = Some (e, s3) ->
  e <> GT511_ERR_NONE ->
  exists s' doff,
    RunEnroll_loop env fuel (S n) step s = Some (e, s')
    /\ trace s' = trace s3 ++ doff
                  ++ [EvCallback GT511_MODE_ENROLL GT511_UI_ERROR]
    /\ transaction GT511_CMD_CMOS_LED (Some 0) doff.
Proof.
  intros Hled Hpress Hcap Hne.
  destruct (CmosLed_total env false s3) as (eoff & s4 & Hoff).
  pose proof (CmosLed_log env _ _ _ _ Hoff) as (doff & To & Xo).
  apply failed_true in Hne.
  eexists. exists doff. split; [|split; [|exact Xo]].
  - cbn [RunEnroll_loop].
    forward Hled. forward Hpress. forward Hcap. rewrite Hne. forward Hoff.
    unfold bind, UserCallback, ret. reflexivity.
  - cbn [trace]. rewrite To, <- app_assoc. reflexivity.
Qed.

(** When the enrollment command of a step fails with [e], the loop
    makes the Reject notification first and issues illumination-off
    after it, then returns [e] (the other workflows switch the
    illumination off before they notify). *)
Theorem enroll_step_failure
  (fuel n : nat) (step : Z) (s s1 s2 s3 s4 : St W) (e : GT511_Error_t) :
  GT511_CmosLed env true s = Some (GT511_ERR_NONE, s1) ->
  WaitFingerPress env fuel GT511_MODE_ENROLL s1
    = Some (GT511_ERR_NONE, s2) ->
  GT511_CaptureFinger env true s2 = Some (GT511_ERR_NONE, s3) ->
  EnrollStep env step s3 = Some (e, s4) ->
  e <> GT511_ERR_NONE ->
  exists s' doff,
    RunEnroll_loop env fuel (S n) step s = Some (e, s')
    /\ trace s' = trace s4
                  ++ [EvCallback GT511_MODE_ENROLL GT511_UI_REJECT] ++ doff
    /\ transaction GT511_CMD_CMOS_LED (Some 0) doff.
Proof.
  intros Hled Hpress Hcap Hstep Hne.
  destruct (CmosLed_total env false
              {| world := GT511_UserCallback env GT511_MODE_ENROLL
                            GT511_UI_REJECT (world s4);
                 mempool := mempool s4;
                 trace := trace s4
                          ++ [EvCallback GT511_MODE_ENROLL GT511_UI_REJECT] |})
    as (eoff & s5 & Hoff).
  pose proof (CmosLed_log env _ _ _ _ Hoff) as (doff & To & Xo).
  cbn [trace] in To.
  apply failed_true in Hne.
  exists s5, doff. split; [|split; [|exact Xo]].
  - cbn [RunEnroll_loop].
    forward Hled. forward Hpress. forward Hcap. forward Hstep. rewrite Hne.
    unfold bind at 1. unfold UserCallback at 1.
    unfold bind. rewrite Hoff. reflexivity.
  - rewrite To, <- app_assoc. reflexivity.
Qed.

End WorkflowPaths.

(** ** The properties above on the simulated sensor *)

(** The illumination-off command on a link that refuses it. *)
Lemma IssueCommand_send_failure_witness :
  exists s',
    IssueCommand (LinkRefuses GT511_CMD_CMOS_LED Sim.env)
      GT511_CMD_CMOS_LED (Some 0) (Sim.boot Sim.sensor)
      = Some ((GT511_ERR_OTHER_ERROR, Some 0), s')
    /\ world s' = Sim.sensor.
Proof.
  destruct (IssueCommand_send_failure
              (LinkRefuses GT511_CMD_CMOS_LED Sim.env)
              GT511_CMD_CMOS_LED (Some 0) (Sim.boot Sim.sensor) Sim.sensor)
    as (s' & H & Hw & _).
  - vm_compute. reflexivity.
  - exists s'. split; assumption.
Defined.

(** A stray byte waiting on the link is read as the response. *)
Lemma IssueCommand_bad_response_witness :
  exists s',
    IssueCommand Sim.env GT511_CMD_CLOSE (Some 5)
      (Sim.boot (Sim.queue [[x00]] Sim.sensor))
      = Some ((GT511_ERR_OTHER_ERROR, Some 5), s').
Proof.
  destruct (IssueCommand_bad_response Sim.env GT511_CMD_CLOSE (Some 5)
              (Sim.boot (Sim.queue [[x00]] Sim.sensor))
              (Sim.queue [[x00]; Sim.ack 0] Sim.sensor)
              (Sim.queue [Sim.ack 0] Sim.sensor)
              [x00])
    as (s' & H & _).
  - vm_compute. reflexivity.
  - vm_compute. reflexivity.
  - left. cbn [length]. unfold sizeof_Packet. discriminate.
  - exists s'. exact H.
Defined.

(** The faulty sensor NACKs a command whose cell holds 5. *)
Lemma IssueCommand_error_keeps_parameter_witness :
  exists s' cell,
    IssueCommand Sim.env GT511_CMD_DELETE_ID (Some 5)
      (Sim.boot Sim.sensor_faulty) = Some ((0x2222, cell), s')
    /\ cell = Some 5.
Proof.
  do 2 eexists.
  assert (H : IssueCommand Sim.env GT511_CMD_DELETE_ID (Some 5)
                (Sim.boot Sim.sensor_faulty) = Some ((0x2222, _), _))
    by (vm_compute; reflexivity).
  split; [exact H|].
  apply (proj1 (IssueCommand_error_keeps_parameter Sim.env _ _ _ _ _ _ H)).
  discriminate.
Defined.

(** The touch query while no finger is on the sensor: the ACK carries
    0x1012, which lands in the caller's cell. *)
Lemma IssueCommand_ack_writes_back_witness :
  exists s',
    IssueCommand Sim.env GT511_CMD_IS_PRESS_FINGER (Some 0)
      (Sim.boot Sim.sensor)
      = Some ((GT511_ERR_NONE, Some GT511_ERR_FINGER_IS_NOT_PRESSED), s').
Proof.
  edestruct (IssueCommand_ack_writes_back Sim.env
               GT511_CMD_IS_PRESS_FINGER 0 (Sim.boot Sim.sensor))
    as (s' & H & _).
  - vm_compute. reflexivity.
  - vm_compute. reflexivity.
  - vm_compute. reflexivity.
  - vm_compute. reflexivity.
  - vm_compute. reflexivity.
  - exists s'. rewrite H. vm_compute. reflexivity.
Defined.

(** The same command from a zeroed buffer and from a buffer full of
    0xff. *)
Lemma IssueCommand_ignores_stale_buffer_witness :
  exists r t1 t2 d,
    IssueCommand Sim.env GT511_CMD_CLOSE None (Sim.boot Sim.sensor)
      = Some (r, t1)
    /\ IssueCommand Sim.env GT511_CMD_CLOSE None
         {| world := Sim.sensor; mempool := fun _ => xff; trace := [] |}
       = Some (r, t2)
    /\ world t1 = world t2
    /\ trace t1 = trace (Sim.boot Sim.sensor) ++ d
    /\ trace t2 = [] ++ d.
Proof.
  exact (IssueCommand_ignores_stale_buffer Sim.env GT511_CMD_CLOSE None
           (Sim.boot Sim.sensor)
           {| world := Sim.sensor; mempool := fun _ => xff; trace := [] |}
           eq_refl).
Defined.

(** The touch query on the faulty sensor. *)
Lemma IsPressFinger_failure_reports_pressed_witness :
  exists s' flag,
    GT511_IsPressFinger Sim.env (Some false) (Sim.boot Sim.sensor_faulty)
      = Some ((0x2222, flag), s')
    /\ flag = Some true.
Proof.
  do 2 eexists.
  assert (H : GT511_IsPressFinger Sim.env (Some false)
                (Sim.boot Sim.sensor_faulty) = Some ((0x2222, _), _))
    by (vm_compute; reflexivity).
  split; [exact H|].
  apply (IsPressFinger_failure_reports_pressed Sim.env _ _ _ _ _ H).
  discriminate.
Defined.

(** An identification without a match, into a cell that held 7. *)
Lemma failed_query_stores_zero_witness :
  exists s' cell,
    GT511_Identify Sim.env (Some 7) (Sim.boot Sim.sensor_no_match)
      = Some ((GT511_ERR_IDENTIFY_FAILED, cell), s')
    /\ cell = Some 0.
Proof.
  do 2 eexists.
  assert (H : GT511_Identify Sim.env (Some 7)
                (Sim.boot Sim.sensor_no_match)
              = Some ((GT511_ERR_IDENTIFY_FAILED, _), _))
    by (vm_compute; reflexivity).
  split; [exact H|].
  refine (proj1 (failed_query_stores_zero Sim.env 7
                   (Sim.boot Sim.sensor_no_match) _
                   GT511_ERR_IDENTIFY_FAILED _ _) H).
  discriminate.
Defined.

(** A link on which an ACK with parameter 3 arrives as the answer. *)
Lemma GetEnrollCount_ack_witness :
  exists s',
    GT511_GetEnrollCount Sim.env (Some 99)
      (Sim.boot (Sim.queue [Sim.ack 3] Sim.sensor))
    = Some ((GT511_ERR_NONE, Some 3), s').
Proof.
  edestruct (GetEnrollCount_ack Sim.env 99
               (Sim.boot (Sim.queue [Sim.ack 3] Sim.sensor)))
    as (s' & H).
  - vm_compute. reflexivity.
  - vm_compute. reflexivity.
  - vm_compute. reflexivity.
  - vm_compute. reflexivity.
  - vm_compute. reflexivity.
  - exists s'. rewrite H. vm_compute. reflexivity.
Defined.

(** Opening the faulty sensor. *)
Lemma Open_failure_keeps_info_witness :
  exists s' out,
    GT511_Open Sim.env
      (Some {| firmwareVersion := 1; isoAreaMaxSize := 2;
               serialNumber := [x03] |})
      (Sim.boot Sim.sensor_faulty) = Some ((0x2222, out), s')
    /\ out = Some {| firmwareVersion := 1; isoAreaMaxSize := 2;
                     serialNumber := [x03] |}.
Proof.
  do 2 eexists.
  assert (H : GT511_Open Sim.env
                (Some {| firmwareVersion := 1; isoAreaMaxSize := 2;
                         serialNumber := [x03] |})
                (Sim.boot Sim.sensor_faulty) = Some ((0x2222, _), _))
    by (vm_compute; reflexivity).
  split; [exact H|].
  apply (proj1 (Open_failure_keeps_info Sim.env _ _ _ _ _ H
                  ltac:(discriminate))).
Defined.

(** A complete identification on the simulated sensor. *)
Lemma RunIdentify_success_witness :
  exists s',
    GT511_RunIdentify Sim.env 4 (Some 7) (Sim.boot Sim.sensor)
    = Some ((GT511_ERR_NONE, Some 1), s').
Proof.
  edestruct (RunIdentify_success Sim.env 4 7 1 (Sim.boot Sim.sensor))
    as (s' & t & doff & H & _).
  - vm_compute. reflexivity.
  - vm_compute. reflexivity.
  - vm_compute. reflexivity.
  - vm_compute. reflexivity.
  - vm_compute. reflexivity.
  - exists s'. exact H.
Defined.

(** A verification that finds no match. *)
Lemma RunVerify_verify_failure_witness :
  exists s',
    GT511_RunVerify Sim.env 4 1 (Sim.boot Sim.sensor_no_match)
    = Some (GT511_ERR_IDENTIFY_FAILED, s').
Proof.
  edestruct (RunVerify_verify_failure Sim.env 4 1
               (Sim.boot Sim.sensor_no_match))
    as (s' & dv & doff & H & _).
  - vm_compute. reflexivity.
  - vm_compute. reflexivity.
  - vm_compute. reflexivity.
  - vm_compute. reflexivity.
  - discriminate.
  - exists s'. exact H.
Defined.

(** The workflows on the faulty sensor. *)
Lemma workflow_led_on_failure_witness :
  exists s2,
    GT511_RunIdentify Sim.env 4 (Some 7) (Sim.boot Sim.sensor_faulty)
      = Some ((0x2222, Some 7), s2)
    /\ GT511_RunVerify Sim.env 4 1 (Sim.boot Sim.sensor_faulty)
       = Some (0x2222, s2).
Proof.
  edestruct (workflow_led_on_failure Sim.env 4 (Some 7) 1
               (Sim.boot Sim.sensor_faulty))
    as (eoff & s2 & don & doff & _ & HI & HV & _).
  - vm_compute. reflexivity.
  - discriminate.
  - exists s2. split; assumption.
Defined.

(** An enrollment on the sensor whose twenty slots are used. *)
Lemma RunEnroll_allocation_failure_witness :
  exists s',
    GT511_RunEnroll Sim.env 4 (Some 99) (Sim.boot Sim.sensor_full)
    = Some ((GT511_ERR_INVALID_POS, Some 99), s').
Proof.
  edestruct (RunEnroll_allocation_failure Sim.env 4 99
               (Sim.boot Sim.sensor_full))
    as (s' & H & _).
  - vm_compute. reflexivity.
  - discriminate.
  - exists s'. exact H.
Defined.

(** An enrollment over a link that refuses the enroll-start command:
    slot 2 is found free and reported, and nothing more happens. *)
Lemma RunEnroll_start_failure_witness :
  exists s',
    GT511_RunEnroll (LinkRefuses GT511_CMD_ENROLL_START Sim.env) 4
      (Some 99) (Sim.boot Sim.sensor)
    = Some ((GT511_ERR_OTHER_ERROR, Some 2), s').
Proof.
  edestruct (RunEnroll_start_failure
               (LinkRefuses GT511_CMD_ENROLL_START Sim.env) 4 99 2
               (Sim.boot Sim.sensor))
    as (H & _).
  - vm_compute. reflexivity.
  - vm_compute. reflexivity.
  - discriminate.
  - eexists. rewrite H. vm_compute. reflexivity.
Defined.

(** The first enrollment iteration over a link that refuses the
    capture command. *)
Lemma enroll_capture_failure_witness :
  exists s',
    RunEnroll_loop (LinkRefuses GT511_CMD_CAPTURE_FINGER Sim.env) 4 3 0
      (Sim.boot Sim.sensor)
    = Some (GT511_ERR_OTHER_ERROR, s').
Proof.
  edestruct (enroll_capture_failure
               (LinkRefuses GT511_CMD_CAPTURE_FINGER Sim.env) 4 2 0
               (Sim.boot Sim.sensor))
    as (s' & doff & H & _).
  - vm_compute. reflexivity.
  - vm_compute. reflexivity.
  - vm_compute. reflexivity.
  - discriminate.
  - exists s'. exact H.
Defined.

(** The first enrollment iteration over a link that refuses the
    first enrollment command. *)
Lemma enroll_step_failure_witness :
  exists s',
    RunEnroll_loop (LinkRefuses GT511_CMD_ENROLL1 Sim.env) 4 3 0
      (Sim.boot Sim.sensor)
    = Some (GT511_ERR_OTHER_ERROR, s').
Proof.
  edestruct (enroll_step_failure
               (LinkRefuses GT511_CMD_ENROLL1 Sim.env) 4 2 0
               (Sim.boot Sim.sensor))
    as (s' & doff & H & _).
  - vm_compute. reflexivity.
  - vm_compute. reflexivity.
  - vm_compute. reflexivity.
  - vm_compute. reflexivity.
  - discriminate.
  - exists s'. exact H.
Defined.
